(** * HomeChef Hub: meal-plan engine

    A shallow embedding of the planning and aggregation engine of the
    application, followed by the properties its specification states.

    Sources embedded here:
    - [src/services/mockData.ts]  [mergeShoppingList]
    - the two application shells of [src/unnamed/part_000]:
      the first one ([handleGeneratePlan], [handleUpdateRecipe] that appends the
      edited recipe to its history) and the second one ([handleUpdateRecipe]
      that stores a snapshot without history, [syncShoppingList])
    - [src/components/RecipeDetail.tsx]  [handleChangeVersion]

    Conventions of the model.
    - A JavaScript [number] that carries a quantity, a number of servings, a
      rating or a score is an exact rational ([Q]); rounding, NaN and the
      infinities of IEEE arithmetic are outside the model, so statements that
      divide by [servings_default] say when it has to be non-zero, and a
      statement about a sum names its summands and the order in which they
      are added rather than comparing two sums added in different orders.
      Identifiers and version numbers are integers ([Z]).
    - An optional field ([servings?], [rating?], [recipe_version?]) is an
      [option]; [x || d] and [x && y] are written out with the truthiness of
      [x] (0 is falsy, an absent value is falsy).
    - [history?: Recipe[]] is a list: every reader of the field treats an
      absent history as the empty one ([?.find], [|| []], [?.length || 0]).
    - A [Map] that is only looked up is a [gmap]; the [Map] whose [values()]
      are returned is an association list in insertion order.
    - A calendar day ["YYYY-MM-DD"] is its day number; comparison of two such
      strings is comparison of day numbers and [getTime] is the day number
      times 86400000.  The code reads the day of today in three ways (the
      local date, the UTC date, and a comparison with the local midnight)
      and computes later days by stepping local days and reading the UTC
      date; each definition that depends on today says which day its
      parameter is, and the definitions whose statements depend on the
      computed days take these days as a parameter.
    - Strings are sequences of code units below 256, the Latin-1 characters
      (English and Swedish text); [toLowerCase] and the case folding of the
      [i] flag are the ones of these code units.  Higher code units are
      outside the model.
    - [Date.now() + Math.random()] and [Math.random()] are read from an
      explicit source, indexed by the number of earlier reads. *)

From Stdlib Require Import ZArith QArith Qround List String Ascii Bool Lia Lqa Sorted.
From stdpp Require Import gmap strings.
Import ListNotations.
Open Scope Z_scope.

(** ** JavaScript primitives *)

Module JS.

(** Truthiness of a number: [0] is falsy. *)
Definition truthyZ (n : Z) : bool := negb (n =? 0).
Definition truthyQ (q : Q) : bool := negb (Qeq_bool q 0).

(** [x || d] on an optional number. *)
Definition orElseQ (x : option Q) (d : Q) : Q :=
  match x with
  | Some q => if truthyQ q then q else d
  | None => d
  end.

Definition orElseZ (x : option Z) (d : Z) : Z :=
  match x with
  | Some n => if truthyZ n then n else d
  | None => d
  end.

Definition isUpper (c : ascii) : bool :=
  let n := N_of_ascii c in ((65 <=? n) && (n <=? 90))%N.
Definition isLower (c : ascii) : bool :=
  let n := N_of_ascii c in ((97 <=? n) && (n <=? 122))%N.
Definition isDigit (c : ascii) : bool :=
  let n := N_of_ascii c in ((48 <=? n) && (n <=? 57))%N.

(** The letters of Latin-1 beyond ASCII that have two cases: U+00C0 to U+00DE
    without the multiplication sign U+00D7, and 32 above them U+00E0 to
    U+00FE without the division sign U+00F7. *)
Definition isUpperLatin1 (c : ascii) : bool :=
  let n := N_of_ascii c in ((192 <=? n) && (n <=? 222) && negb (n =? 215))%N.
Definition isLowerLatin1 (c : ascii) : bool :=
  let n := N_of_ascii c in ((224 <=? n) && (n <=? 254) && negb (n =? 247))%N.

Definition toLowerChar (c : ascii) : ascii :=
  if isUpper c || isUpperLatin1 c then ascii_of_N (N_of_ascii c + 32) else c.

(** The code units of [toUpperCase] on the string of one character: the
    sharp s becomes [SS], the micro sign U+039C and the y with diaeresis
    U+0178, which are no Latin-1 characters. *)
Definition toUpperCase1 (c : ascii) : list N :=
  let n := N_of_ascii c in
  if isLower c || isLowerLatin1 c then [n - 32]%N
  else if (n =? 223)%N then [83; 83]%N
  else if (n =? 181)%N then [924]%N
  else if (n =? 255)%N then [376]%N
  else [n].

(** [String.prototype.toLowerCase]. *)
Fixpoint toLowerCase (s : string) : string :=
  match s with
  | EmptyString => EmptyString
  | String c rest => String (toLowerChar c) (toLowerCase rest)
  end.

(** [Math.round]: the nearest integer, halves towards plus infinity. *)
Definition Math_round (q : Q) : Z := Qfloor (q + (1 # 2)).

(** *** The fragment of [RegExp] the staple check uses

    A pattern of the fragment is a sequence of the assertion [\b], of
    escaped syntax characters and of plain characters.  [RegExp_new]
    returns [None] where the constructor would throw, and also for a
    source outside of the fragment (see [RegExp_new_escaped]: the pattern
    built from a staple is always inside). *)

Inductive Term : Type :=
| WordBoundary
| PatternChar (c : ascii).

(** The characters of the class [[.*+?^${}()|[\]\\]]. *)
Definition isSyntaxCharacter (c : ascii) : bool :=
  existsb (Ascii.eqb c) (list_ascii_of_string ".*+?^${}()|[]\").

Definition backslash : ascii := "\"%char.

Fixpoint parsePattern (src : list ascii) : option (list Term) :=
  match src with
  | [] => Some []
  | c :: rest =>
      if Ascii.eqb c backslash then
        match rest with
        | [] => None
        | e :: rest' =>
            if Ascii.eqb e "b" then option_map (cons WordBoundary) (parsePattern rest')
            else if isSyntaxCharacter e then option_map (cons (PatternChar e)) (parsePattern rest')
            else None
        end
      else if isSyntaxCharacter c then None
      else option_map (cons (PatternChar c)) (parsePattern rest)
  end.

Definition RegExp_new (source : list ascii) : option (list Term) :=
  parsePattern source.

(** [\w] is [[A-Za-z0-9_]], also under the [i] flag (without the [u] flag). *)
Definition isWordChar (c : ascii) : bool :=
  isUpper c || isLower c || isDigit c || Ascii.eqb c "_".

Definition isWordAt (c : option ascii) : bool :=
  match c with
  | Some c => isWordChar c
  | None => false
  end.

(** [Canonicalize] under the [i] flag without the [u] flag: the code unit of
    the upper-case form when that form is one code unit, and not an ASCII
    one for a character that is not ASCII. *)
Definition canonicalize (c : ascii) : N :=
  match toUpperCase1 c with
  | [cu] => if ((128 <=? N_of_ascii c) && (cu <? 128))%N then N_of_ascii c else cu
  | _ => N_of_ascii c
  end.

(** The matcher of a term sequence at one position: [prev] is the
    character before the position, [rest] the input from it on. *)
Fixpoint matchTerms (terms : list Term) (prev : option ascii) (rest : list ascii) : bool :=
  match terms with
  | [] => true
  | WordBoundary :: k =>
      xorb (isWordAt prev) (isWordAt (head rest)) && matchTerms k prev rest
  | PatternChar c :: k =>
      match rest with
      | [] => false
      | d :: rest' =>
          N.eqb (canonicalize c) (canonicalize d) && matchTerms k (Some d) rest'
      end
  end.

(** [RegExp.prototype.test] without the [g] flag: a match from some start
    index, tried from the left. *)
Fixpoint testFrom (terms : list Term) (prev : option ascii) (rest : list ascii) : bool :=
  matchTerms terms prev rest
  || match rest with
     | [] => false
     | d :: rest' => testFrom terms (Some d) rest'
     end.

Definition RegExp_test (terms : list Term) (input : string) : bool :=
  testFrom terms None (list_ascii_of_string input).

(** [s.replace(/[.*+?^${}()|[\]\\]/g, '\\$&')] *)
Definition escapeRegExp (s : list ascii) : list ascii :=
  flat_map (fun c => if isSyntaxCharacter c then [backslash; c] else [c]) s.

End JS.

(** ** Data model ([types.ts]) *)

Module Ingredient.
Record t : Type := mk {
  item_name : string;
  quantity : Q;
  unit : string;
  category : string
}.
End Ingredient.

Module Nutrition.
Record t : Type := mk {
  calories : Q; protein : Q; carbs : Q; sugar : Q; fat : Q;
  saturated_fat : Q; unsaturated_fat : Q; fiber : Q; salt : Q
}.
End Nutrition.

Module TranslatedRecipeContent.
Record t : Type := mk {
  title : string;
  description : string;
  instructions : list string;
  ingredients : list Ingredient.t;
  cuisine : option string
}.
End TranslatedRecipeContent.

Module Recipe.
#[warnings="-register-all"]
Inductive t : Type := mk {
  id : Z;
  title : string;
  description : string;
  instructions : list string;
  ingredients : list Ingredient.t;
  servings_default : Q;
  images : list string;
  rating : option Q;
  nutrition : option Nutrition.t;
  cuisine : option string;
  version : Z;
  history : list t;
  lang : option string;
  translations : option (gmap string TranslatedRecipeContent.t)
}.
End Recipe.

Inductive MealType : Type := LUNCH | DINNER.

Module MealPlanItem.
Record t : Type := mk {
  id : Z;
  date : Z;
  type : MealType;
  recipe_id : Z;
  recipe_version : option Z;
  is_leftover : bool;
  is_cooked : bool;
  rating : option Q;
  rating_comment : option string;
  servings : option Q
}.
End MealPlanItem.

(** [ShoppingItem extends Ingredient]: the inherited fields are [base]. *)
Module ShoppingItem.
Record t : Type := mk {
  base : Ingredient.t;
  id : Z;
  checked : bool;
  is_manually_added : bool;
  lang : option string;
  translations : option (gmap string (string * string))
}.
Definition item_name (i : t) : string := Ingredient.item_name (base i).
Definition quantity (i : t) : Q := Ingredient.quantity (base i).
Definition unit (i : t) : string := Ingredient.unit (base i).
Definition category (i : t) : string := Ingredient.category (base i).
End ShoppingItem.

(** ** Shopping aggregation ([src/services/mockData.ts]) *)

Module MockData.

(** The grouping key [`${item_name.toLowerCase()}-${unit.toLowerCase()}`]. *)
Definition keyOf (item_name unit : string) : string :=
  JS.toLowerCase item_name +:+ "-" +:+ JS.toLowerCase unit.

Definition itemKey (item : ShoppingItem.t) : string :=
  keyOf (ShoppingItem.item_name item) (ShoppingItem.unit item).

(** Step 2: one pass of [currentList.forEach], filling [statusMap] and [idMap]. *)
Definition recordItem (maps : gmap string bool * gmap string Z) (item : ShoppingItem.t)
  : gmap string bool * gmap string Z :=
  let key := itemKey item in
  (<[key := ShoppingItem.checked item]> (fst maps),
   if ShoppingItem.is_manually_added item then snd maps
   else <[key := ShoppingItem.id item]> (snd maps)).

Definition lookupMaps (currentList : list ShoppingItem.t) : gmap string bool * gmap string Z :=
  fold_left recordItem currentList (∅, ∅).

Definition statusMapOf (currentList : list ShoppingItem.t) : gmap string bool :=
  fst (lookupMaps currentList).
Definition idMapOf (currentList : list ShoppingItem.t) : gmap string Z :=
  snd (lookupMaps currentList).

(** The body of [pantryStaples.some]: [try] builds and tests the pattern,
    [catch] answers [false]. *)
Definition wordBoundarySource : list ascii := [JS.backslash; "b"%char].

Definition stapleSource (staple : string) : list ascii :=
  wordBoundarySource ++ JS.escapeRegExp (list_ascii_of_string staple) ++ wordBoundarySource.

Definition tryTest (source : list ascii) (item_name : string) : bool :=
  match JS.RegExp_new source with
  | Some re => JS.RegExp_test re item_name
  | None => false
  end.

Definition stapleMatches (staple item_name : string) : bool :=
  tryTest (stapleSource staple) item_name.

Definition isStaple (pantryStaples : list string) (item_name : string) : bool :=
  existsb (fun staple => stapleMatches staple item_name) pantryStaples.

(** The version the meal is pinned to, or the current recipe. *)
Definition resolveVersion (recipe : Recipe.t) (recipe_version : option Z) : Recipe.t :=
  match recipe_version with
  | Some v =>
      if JS.truthyZ v && negb (v =? Recipe.version recipe) then
        match List.find (fun h => Recipe.version h =? v) (Recipe.history recipe) with
        | Some historical => historical
        | None => recipe
        end
      else recipe
  | None => recipe
  end.

(** [generatedMap]: a [Map] in insertion order. *)
Fixpoint mapGet {V : Type} (key : string) (m : list (string * V)) : option V :=
  match m with
  | [] => None
  | (k, v) :: rest => if String.eqb k key then Some v else mapGet key rest
  end.

Fixpoint mapUpdate {V : Type} (f : V -> V) (key : string) (m : list (string * V)) : list (string * V) :=
  match m with
  | [] => []
  | (k, v) :: rest =>
      if String.eqb k key then (k, f v) :: rest else (k, v) :: mapUpdate f key rest
  end.

(** [existing.quantity += quantity] *)
Definition addQuantity (quantity : Q) (existing : ShoppingItem.t) : ShoppingItem.t :=
  let b := ShoppingItem.base existing in
  ShoppingItem.mk
    (Ingredient.mk (Ingredient.item_name b) (Ingredient.quantity b + quantity)%Q
                   (Ingredient.unit b) (Ingredient.category b))
    (ShoppingItem.id existing) (ShoppingItem.checked existing)
    (ShoppingItem.is_manually_added existing)
    (ShoppingItem.lang existing) (ShoppingItem.translations existing).

(** The state of step 3: the lines generated so far and the number of reads
    of [Date.now() + Math.random()]. *)
Record Generated : Type := mkGenerated {
  generatedMap : list (string * ShoppingItem.t);
  reads : nat
}.

Section Merge.

(** [now n] is the [n]-th value of [Date.now() + Math.random()]: a positive number. *)
Variable now : nat -> positive.
Variable statusMap : gmap string bool.
Variable idMap : gmap string Z.
Variable recipes : list Recipe.t.
Variable pantryStaples : list string.

(** [existingId || (Date.now() + Math.random())] *)
Definition chooseId (existingId : option Z) (n : nat) : Z * nat :=
  match existingId with
  | Some i => if JS.truthyZ i then (i, n) else (Z.pos (now n), S n)
  | None => (Z.pos (now n), S n)
  end.

(** The body of [targetRecipe.ingredients.forEach]. *)
Definition addIngredient (targetRecipe : Recipe.t) (scale : Q)
    (st : Generated) (ing : Ingredient.t) : Generated :=
  if isStaple pantryStaples (Ingredient.item_name ing) then st
  else
    let key := keyOf (Ingredient.item_name ing) (Ingredient.unit ing) in
    let quantity := (Ingredient.quantity ing * scale)%Q in
    match mapGet key (generatedMap st) with
    | Some _ =>
        mkGenerated (mapUpdate (addQuantity quantity) key (generatedMap st)) (reads st)
    | None =>
        let isChecked := default false (statusMap !! key) in
        let existingId := idMap !! key in
        let '(id, n) := chooseId existingId (reads st) in
        mkGenerated
          (generatedMap st ++
             [(key,
               ShoppingItem.mk
                 (Ingredient.mk (Ingredient.item_name ing) quantity
                                (Ingredient.unit ing) (Ingredient.category ing))
                 id isChecked false
                 (Recipe.lang targetRecipe)
                 (match Recipe.translations targetRecipe with
                  | Some _ => Some ∅
                  | None => None
                  end))])
          n
    end.

Definition findRecipe (recipe_id : Z) : option Recipe.t :=
  List.find (fun r => Recipe.id r =? recipe_id) recipes.

Definition targetOf (meal : MealPlanItem.t) : option Recipe.t :=
  match findRecipe (MealPlanItem.recipe_id meal) with
  | Some recipe => Some (resolveVersion recipe (MealPlanItem.recipe_version meal))
  | None => None
  end.

(** [servings / targetRecipe.servings_default] with
    [servings = meal.servings || targetRecipe.servings_default]. *)
Definition scaleOf (meal : MealPlanItem.t) (targetRecipe : Recipe.t) : Q :=
  (JS.orElseQ (MealPlanItem.servings meal) (Recipe.servings_default targetRecipe)
   / Recipe.servings_default targetRecipe)%Q.

(** The body of [plan.forEach]. *)
Definition addMeal (st : Generated) (meal : MealPlanItem.t) : Generated :=
  match targetOf meal with
  | None => st
  | Some targetRecipe =>
      fold_left (addIngredient targetRecipe (scaleOf meal targetRecipe))
                (Recipe.ingredients targetRecipe) st
  end.

Definition generate (plan : list MealPlanItem.t) : Generated :=
  fold_left addMeal plan (mkGenerated [] 0).

End Merge.

Definition manualItems (currentList : list ShoppingItem.t) : list ShoppingItem.t :=
  List.filter ShoppingItem.is_manually_added currentList.

Definition generatedItems (now : nat -> positive) (currentList : list ShoppingItem.t)
    (plan : list MealPlanItem.t) (recipes : list Recipe.t) (pantryStaples : list string)
  : list ShoppingItem.t :=
  List.map snd
    (generatedMap
       (generate now (statusMapOf currentList) (idMapOf currentList) recipes pantryStaples plan)).

Definition mergeShoppingList (now : nat -> positive) (currentList : list ShoppingItem.t)
    (plan : list MealPlanItem.t) (recipes : list Recipe.t) (pantryStaples : list string)
  : list ShoppingItem.t :=
  manualItems currentList ++ generatedItems now currentList plan recipes pantryStaples.

End MockData.

(** ** Recipe versioning and plan generation ([src/unnamed/part_000]) *)

(** [JSON.stringify(a) !== JSON.stringify(b)] on ingredient lists and on
    instruction lists: two numbers print alike exactly when they are equal,
    two strings exactly when they are the same string. *)
Module Json.

Definition ingredientEqb (a b : Ingredient.t) : bool :=
  String.eqb (Ingredient.item_name a) (Ingredient.item_name b)
  && Qeq_bool (Ingredient.quantity a) (Ingredient.quantity b)
  && String.eqb (Ingredient.unit a) (Ingredient.unit b)
  && String.eqb (Ingredient.category a) (Ingredient.category b).

Fixpoint listEqb {A : Type} (eqb : A -> A -> bool) (l1 l2 : list A) : bool :=
  match l1, l2 with
  | [], [] => true
  | x :: l1', y :: l2' => eqb x y && listEqb eqb l1' l2'
  | _, _ => false
  end.

Definition sameIngredients (l1 l2 : list Ingredient.t) : bool := listEqb ingredientEqb l1 l2.
Definition sameInstructions (l1 l2 : list string) : bool := listEqb String.eqb l1 l2.

End Json.

(** [{ ...r, version: v, history: h }] *)
Definition withVersionHistory (r : Recipe.t) (v : Z) (h : list Recipe.t) : Recipe.t :=
  Recipe.mk (Recipe.id r) (Recipe.title r) (Recipe.description r) (Recipe.instructions r)
            (Recipe.ingredients r) (Recipe.servings_default r) (Recipe.images r)
            (Recipe.rating r) (Recipe.nutrition r) (Recipe.cuisine r)
            v h (Recipe.lang r) (Recipe.translations r).

(** [original.version || 1] *)
Definition versionOr1 (r : Recipe.t) : Z :=
  if JS.truthyZ (Recipe.version r) then Recipe.version r else 1.

(** The condition [changed] / [contentChanged] of both handlers. *)
Definition contentChanged (existing updated : Recipe.t) : bool :=
  negb (Json.sameIngredients (Recipe.ingredients existing) (Recipe.ingredients updated))
  || negb (Json.sameInstructions (Recipe.instructions existing) (Recipe.instructions updated)).

(** The first application shell: [handleUpdateRecipe] (lines 325-352) and
    [handleGeneratePlan] (lines 122-222). *)
Module PlannerApp.

Definition finalRecipe (original updated : Recipe.t) : Recipe.t :=
  if contentChanged original updated then
    withVersionHistory updated (versionOr1 original + 1)
                       (Recipe.history original ++ [original])
  else updated.

(** The recipe that is saved and the new value of [recipes]. *)
Definition handleUpdateRecipe (recipes : list Recipe.t) (updated : Recipe.t)
  : Recipe.t * list Recipe.t :=
  let final :=
    match List.find (fun r => Recipe.id r =? Recipe.id updated) recipes with
    | Some original => finalRecipe original updated
    | None => updated
    end in
  (final, List.map (fun r => if Recipe.id r =? Recipe.id updated then final else r) recipes).

(** [new Date(dateStr).getTime()] *)
Definition getTime (date : Z) : Q := inject_Z (date * 86400000).

(** [Array.prototype.sort()] on day strings, by insertion. *)
Fixpoint insertDate (d : Z) (l : list Z) : list Z :=
  match l with
  | [] => [d]
  | e :: l' => if d <=? e then d :: e :: l' else e :: insertDate d l'
  end.

Definition sortDates (l : list Z) : list Z := fold_right insertDate [] l.

Record Scored : Type := mkScored { id : Z; score : Q; daysSince : Z }.

(** [scoredRecipes.sort((a, b) => b.score - a.score)]: stable, highest first. *)
Fixpoint insertScored (x : Scored) (l : list Scored) : list Scored :=
  match l with
  | [] => [x]
  | y :: l' =>
      if Qlt_le_dec (score x) (score y) then y :: insertScored x l' else x :: y :: l'
  end.

Definition sortScored (l : list Scored) : list Scored := fold_right insertScored [] l.

Section GeneratePlan.

(** [random n] is the [n]-th value of [Math.random()], [dateNow i] the value of
    [Date.now()] in iteration [i]. *)
Variable random : nat -> Q.
Variable dateNow : nat -> Z.
Variable recipes : list Recipe.t.
Variable todayStr : Z.

Definition ratedBy (recipe : Recipe.t) (p : MealPlanItem.t) : bool :=
  (MealPlanItem.recipe_id p =? Recipe.id recipe)
  && match MealPlanItem.rating p with
     | Some q => JS.truthyQ q
     | None => false
     end.

Definition avgRating (newPlan : list MealPlanItem.t) (recipe : Recipe.t) : Q :=
  let history := List.filter (ratedBy recipe) newPlan in
  if (0 <? length history)%nat then
    (fold_left (fun acc curr => acc + JS.orElseQ (MealPlanItem.rating curr) 0) history 0
     / inject_Z (Z.of_nat (length history)))%Q
  else JS.orElseQ (Recipe.rating recipe) (35 # 10).

Definition eatenDates (newPlan : list MealPlanItem.t) (dateStr : Z) (recipe : Recipe.t) : list Z :=
  rev (sortDates
         (List.map MealPlanItem.date
            (List.filter (fun p => (MealPlanItem.recipe_id p =? Recipe.id recipe)
                                   && (MealPlanItem.date p <? dateStr)) newPlan))).

Definition daysSinceOf (newPlan : list MealPlanItem.t) (dateStr : Z) (recipe : Recipe.t) : Z :=
  match List.hd_error (eatenDates newPlan dateStr recipe) with
  | Some lastEatenDate =>
      JS.Math_round ((getTime dateStr - getTime lastEatenDate) / inject_Z 86400000)%Q
  | None => 100
  end.

Definition penalty (daysSince : Z) : Q :=
  if daysSince <=? 1 then 10000
  else if daysSince <=? 2 then 5000
  else if daysSince <=? 5 then 2000
  else if daysSince <=? 7 then 500
  else 0.

(** The body of [recipes.map]; [r] is the value [Math.random()] returns. *)
Definition scoreRecipe (newPlan : list MealPlanItem.t) (dateStr : Z) (recipe : Recipe.t) (r : Q)
  : Scored :=
  let daysSince := daysSinceOf newPlan dateStr recipe in
  let score := (avgRating newPlan recipe * 10 + inject_Z (Z.min daysSince 30 * 2))%Q in
  let score := (score - penalty daysSince)%Q in
  let score := (score + r * 10)%Q in
  mkScored (Recipe.id recipe) score daysSince.

Fixpoint scoreAll (newPlan : list MealPlanItem.t) (dateStr : Z) (rs : list Recipe.t) (n : nat)
  : list Scored :=
  match rs with
  | [] => []
  | recipe :: rs' => scoreRecipe newPlan dateStr recipe (random n) :: scoreAll newPlan dateStr rs' (S n)
  end.

(** [selectedRecipe] for one candidate date; [n] random numbers were read before. *)
Definition selectRecipe (newPlan : list MealPlanItem.t) (dateStr : Z) (n : nat) : option Recipe.t :=
  match sortScored (scoreAll newPlan dateStr recipes n) with
  | bestMatch :: _ => List.find (fun r => Recipe.id r =? id bestMatch) recipes
  | [] => None
  end.

(** One turn of the loop over the seven days, for the candidate date
    [start + i]; see [generateDayAt] below. *)
Definition generateDay (start : Z) (st : list MealPlanItem.t * nat) (i : nat)
  : list MealPlanItem.t * nat :=
  let '(newPlan, n) := st in
  let dateStr := start + Z.of_nat i in
  if dateStr <? todayStr then st
  else if existsb (fun p => MealPlanItem.date p =? dateStr) newPlan then st
  else if (0 <? length recipes)%nat then
    match selectRecipe newPlan dateStr n with
    | Some selectedRecipe =>
        (newPlan ++
           [MealPlanItem.mk (dateNow i + Z.of_nat i) dateStr DINNER
              (Recipe.id selectedRecipe) (Some (Recipe.version selectedRecipe))
              false false None None (Some (Recipe.servings_default selectedRecipe))],
         (n + length recipes)%nat)
    | None => (newPlan, (n + length recipes)%nat)
    end
  else st.

Definition handleGeneratePlan (plan : list MealPlanItem.t) (start : Z) : list MealPlanItem.t :=
  fst (fold_left (generateDay start) (seq 0 7) (plan, 0%nat)).

(** The candidate date of turn [i] is read from [d.toISOString()] after
    [d.setDate(d.getDate() + i)], which steps in local time and reads in
    UTC: it is [start + i] as long as the offset of the local time to UTC
    is the same on all the days, and can repeat a date in a week in which
    the clocks change.  [generateDayAt] and [handleGeneratePlanAt] are the
    turn and the loop for the dates [dateStrOf 0 .. dateStrOf 6] as they are
    computed; [generateDay] and [handleGeneratePlan] are these for
    [dateStrOf i = start + i]. *)
Definition generateDayAt (dateStrOf : nat -> Z) (st : list MealPlanItem.t * nat) (i : nat)
  : list MealPlanItem.t * nat :=
  let '(newPlan, n) := st in
  let dateStr := dateStrOf i in
  if dateStr <? todayStr then st
  else if existsb (fun p => MealPlanItem.date p =? dateStr) newPlan then st
  else if (0 <? length recipes)%nat then
    match selectRecipe newPlan dateStr n with
    | Some selectedRecipe =>
        (newPlan ++
           [MealPlanItem.mk (dateNow i + Z.of_nat i) dateStr DINNER
              (Recipe.id selectedRecipe) (Some (Recipe.version selectedRecipe))
              false false None None (Some (Recipe.servings_default selectedRecipe))],
         (n + length recipes)%nat)
    | None => (newPlan, (n + length recipes)%nat)
    end
  else st.

Definition handleGeneratePlanAt (dateStrOf : nat -> Z) (plan : list MealPlanItem.t)
  : list MealPlanItem.t :=
  fst (fold_left (generateDayAt dateStrOf) (seq 0 7) (plan, 0%nat)).

End GeneratePlan.

End PlannerApp.

(** The second application shell: [handleUpdateRecipe] (lines 821-858) and
    [syncShoppingList] (lines 757-774). *)
Module SyncApp.

Definition snapshot (existing : Recipe.t) : Recipe.t :=
  withVersionHistory existing (Recipe.version existing) [].

Definition recipeToSave (existing updatedRecipe : Recipe.t) : Recipe.t :=
  if contentChanged existing updatedRecipe then
    withVersionHistory updatedRecipe (versionOr1 existing + 1)
                       (snapshot existing :: Recipe.history existing)
  else updatedRecipe.

(** The plan items in scope are those with [new Date(p.date) >= today]: the
    UTC midnight of the date against the local midnight of today.  [today]
    of the model is the first date that passes this test: the local date in
    a zone at or east of UTC, the day after it in a zone west of UTC. *)
Definition syncShoppingList (now : nat -> positive) (today : Z)
    (currentList : list ShoppingItem.t) (currentPlan : list MealPlanItem.t)
    (currentRecipes : list Recipe.t) (pantry_staples : list string) : list ShoppingItem.t :=
  let futurePlan := List.filter (fun p => today <=? MealPlanItem.date p) currentPlan in
  MockData.mergeShoppingList now currentList futurePlan currentRecipes pantry_staples.

(** The recipe that is saved, the new value of [recipes] and the new
    shopping list. *)
Definition handleUpdateRecipe (now : nat -> positive) (today : Z)
    (shoppingList : list ShoppingItem.t) (plan : list MealPlanItem.t)
    (pantry_staples : list string) (recipes : list Recipe.t) (updatedRecipe : Recipe.t)
  : Recipe.t * list Recipe.t * list ShoppingItem.t :=
  let toSave :=
    match List.find (fun r => Recipe.id r =? Recipe.id updatedRecipe) recipes with
    | Some existing => recipeToSave existing updatedRecipe
    | None => updatedRecipe
    end in
  let newRecipes :=
    List.map (fun r => if Recipe.id r =? Recipe.id toSave then toSave else r) recipes in
  (toSave, newRecipes, syncShoppingList now today shoppingList plan newRecipes pantry_staples).

End SyncApp.

(** ** The version selector of the detail view ([src/components/RecipeDetail.tsx]) *)

Module RecipeDetail.

(** The new value of [viewedRecipe]. *)
Definition handleChangeVersion (recipe viewedRecipe : Recipe.t) (v : Z) : Recipe.t :=
  if v =? Recipe.version recipe then recipe
  else
    match List.find (fun h => Recipe.version h =? v) (Recipe.history recipe) with
    | Some old => old
    | None => viewedRecipe
    end.

End RecipeDetail.

(** ** Notions of the specification *)

Module Spec.

(** Two strings are equal up to case. *)
Definition sameIgnoringCase (a b : list ascii) : Prop :=
  List.map JS.toLowerChar a = List.map JS.toLowerChar b.

(** A character that can be part of a word: a letter, a digit or the
    underscore, the letters being those of the text the application handles
    (Latin-1: [Ä], [ö] and the like count, as do the ordinal indicators and
    the micro sign). *)
Definition isLatin1Letter (c : ascii) : bool :=
  let n := N_of_ascii c in
  ((192 <=? n) && negb (n =? 215) && negb (n =? 247)
   || (n =? 170) || (n =? 181) || (n =? 186))%N.

Definition isWordLetter (c : ascii) : bool := JS.isWordChar c || isLatin1Letter c.

Definition isWordLetterAt (c : option ascii) : bool :=
  match c with
  | Some c => isWordLetter c
  | None => false
  end.

(** [staple] is at the head of [text], up to case: what follows it. *)
Fixpoint stripIgnoringCase (staple text : list ascii) : option (list ascii) :=
  match staple, text with
  | [], _ => Some text
  | c :: staple', d :: text' =>
      if Ascii.eqb (JS.toLowerChar c) (JS.toLowerChar d) then stripIgnoringCase staple' text'
      else None
  | _ :: _, [] => None
  end.

(** [staple] occurs in the text as a whole word, up to case: at some
    position it is there, and neither the character before it nor the
    character after it can be part of a word.  [prev] is the character
    before [text]. *)
Fixpoint occursAsWord (staple : list ascii) (prev : option ascii) (text : list ascii) : bool :=
  (negb (isWordLetterAt prev)
   && match stripIgnoringCase staple text with
      | Some after => negb (isWordLetterAt (head after))
      | None => false
      end)
  || match text with
     | [] => false
     | d :: text' => occursAsWord staple (Some d) text'
     end.

(** The name whole-word-matches the staple, case-insensitively. *)
Definition wholeWordMatch (staple name : string) : bool :=
  occursAsWord (list_ascii_of_string staple) None (list_ascii_of_string name).

(** The name matches some entry of the staple list. *)
Definition matchesStaple (pantryStaples : list string) (name : string) : bool :=
  existsb (fun staple => wholeWordMatch staple name) pantryStaples.

(** What one plan item adds to the aggregate: for each ingredient of the
    recipe content it resolves to that is no staple, the key of the
    ingredient and [ingredient.quantity * (servings / servings_default)]. *)
Definition mealContribution (recipes : list Recipe.t) (pantryStaples : list string)
    (meal : MealPlanItem.t) : list (string * Q) :=
  match MockData.targetOf recipes meal with
  | None => []
  | Some targetRecipe =>
      List.map
        (fun ing =>
           (MockData.keyOf (Ingredient.item_name ing) (Ingredient.unit ing),
            (Ingredient.quantity ing * MockData.scaleOf meal targetRecipe)%Q))
        (List.filter
           (fun ing => negb (MockData.isStaple pantryStaples (Ingredient.item_name ing)))
           (Recipe.ingredients targetRecipe))
  end.

Definition planContributions (recipes : list Recipe.t) (pantryStaples : list string)
    (plan : list MealPlanItem.t) : list (string * Q) :=
  flat_map (mealContribution recipes pantryStaples) plan.

(** The sum of the contributions to one key. *)
Definition totalFor (key : string) (contributions : list (string * Q)) : Q :=
  fold_right Qplus 0%Q
    (List.map snd (List.filter (fun c => String.eqb (fst c) key) contributions)).

(** A string without the separator of the grouping key. *)
Definition hyphenFree (s : string) : Prop :=
  ~ In "-"%char (list_ascii_of_string s).

(** [{ ...p, servings }] *)
Definition withServings (p : MealPlanItem.t) (servings : option Q) : MealPlanItem.t :=
  MealPlanItem.mk (MealPlanItem.id p) (MealPlanItem.date p) (MealPlanItem.type p)
                  (MealPlanItem.recipe_id p) (MealPlanItem.recipe_version p)
                  (MealPlanItem.is_leftover p) (MealPlanItem.is_cooked p)
                  (MealPlanItem.rating p) (MealPlanItem.rating_comment p) servings.

(** The ingredients of a recipe content that are no staples. *)
Definition shopped (pantryStaples : list string) (targetRecipe : Recipe.t) : list Ingredient.t :=
  List.filter (fun ing => negb (MockData.isStaple pantryStaples (Ingredient.item_name ing)))
              (Recipe.ingredients targetRecipe).

(** Deep equality of two ingredient lists. *)
Definition sameIngredient (a b : Ingredient.t) : Prop :=
  Ingredient.item_name a = Ingredient.item_name b
  /\ (Ingredient.quantity a == Ingredient.quantity b)%Q
  /\ Ingredient.unit a = Ingredient.unit b
  /\ Ingredient.category a = Ingredient.category b.

Definition deepEqualIngredients (l1 l2 : list Ingredient.t) : Prop :=
  Forall2 sameIngredient l1 l2.

(** The content of a recipe: everything but its version and its history. *)
Definition sameContent (a b : Recipe.t) : Prop :=
  withVersionHistory a 0 [] = withVersionHistory b 0 [].

(** The conservation property in the words of the specification.

    [resolveContent] (section 4.2): the current content when the pinned
    version is the version of the recipe, else the history entry of that
    version, else the current content. *)
Definition resolveContent (recipe : Recipe.t) (pinnedVersion : option Z) : Recipe.t :=
  match pinnedVersion with
  | Some v =>
      if v =? Recipe.version recipe then recipe
      else
        match List.find (fun h => Recipe.version h =? v) (Recipe.history recipe) with
        | Some entry => entry
        | None => recipe
        end
  | None => recipe
  end.

(** The servings of a plan item: its own, by default those of the recipe. *)
Definition assignedServings (meal : MealPlanItem.t) (content : Recipe.t) : Q :=
  match MealPlanItem.servings meal with
  | Some servings => servings
  | None => Recipe.servings_default content
  end.

(** The ingredient has the grouping key [(lowercase item_name, lowercase unit)]
    of the pair [(item_name, unit)]. *)
Definition hasPair (item_name unit : string) (ing : Ingredient.t) : bool :=
  String.eqb (JS.toLowerCase (Ingredient.item_name ing)) (JS.toLowerCase item_name)
  && String.eqb (JS.toLowerCase (Ingredient.unit ing)) (JS.toLowerCase unit).

(** What one plan item adds to the pair: for each ingredient with the pair
    that matches no staple, [quantity * (assignedServings / servings_default)]. *)
Definition mealShare (recipes : list Recipe.t) (pantryStaples : list string)
    (item_name unit : string) (meal : MealPlanItem.t) : Q :=
  match List.find (fun r => Recipe.id r =? MealPlanItem.recipe_id meal) recipes with
  | None => 0%Q
  | Some recipe =>
      let content := resolveContent recipe (MealPlanItem.recipe_version meal) in
      let scale := (assignedServings meal content / Recipe.servings_default content)%Q in
      fold_right Qplus 0%Q
        (List.map (fun ing => (Ingredient.quantity ing * scale)%Q)
           (List.filter
              (fun ing => hasPair item_name unit ing
                          && negb (matchesStaple pantryStaples (Ingredient.item_name ing)))
              (Recipe.ingredients content)))
  end.

(** The sum over the plan items in scope. *)
Definition pairTotal (recipes : list Recipe.t) (pantryStaples : list string)
    (plan : list MealPlanItem.t) (item_name unit : string) : Q :=
  fold_right Qplus 0%Q (List.map (mealShare recipes pantryStaples item_name unit) plan).

End Spec.

(** What the pattern of a staple tests ([\b], the staple, [\b], flag [i]):
    the staple occurs in the name up to case, between two positions at which
    exactly one of the neighbours is a character of [\w]. *)
Module Pattern.

Definition boundaryBetween (before after : list ascii) : Prop :=
  JS.isWordAt (last before) <> JS.isWordAt (head after).

Definition matches (staple name : string) : Prop :=
  exists pre mid post : list ascii,
    list_ascii_of_string name = pre ++ mid ++ post
    /\ Spec.sameIgnoringCase mid (list_ascii_of_string staple)
    /\ boundaryBetween pre (mid ++ post)
    /\ boundaryBetween (pre ++ mid) post.

End Pattern.

(** ** Auxiliary definitions of the proofs *)

(** The lower-case character of a canonical code unit. *)
Definition ofCanonical (n : N) : ascii :=
  if (n =? 924)%N then ascii_of_N 181
  else if (n =? 376)%N then ascii_of_N 255
  else JS.toLowerChar (ascii_of_N n).

(** The character before the position reached after reading [mid]. *)
Definition lastOr (prev : option ascii) (mid : list ascii) : option ascii :=
  match last mid with
  | Some c => Some c
  | None => prev
  end.

(** The run of step 3 as one sequence of events, an event being one turn of
    the inner loop: the resolved recipe, the scale and the ingredient. *)
Module Trace.

Definition Event : Type := (Recipe.t * Q * Ingredient.t)%type.

Definition mealEvents (recipes : list Recipe.t) (meal : MealPlanItem.t) : list Event :=
  match MockData.targetOf recipes meal with
  | None => []
  | Some targetRecipe =>
      List.map (fun ing => (targetRecipe, MockData.scaleOf meal targetRecipe, ing))
               (Recipe.ingredients targetRecipe)
  end.

Definition planEvents (recipes : list Recipe.t) (plan : list MealPlanItem.t) : list Event :=
  flat_map (mealEvents recipes) plan.

Definition stepEvent (now : nat -> positive) (statusMap : gmap string bool)
    (idMap : gmap string Z) (pantryStaples : list string)
    (st : MockData.Generated) (e : Event) : MockData.Generated :=
  MockData.addIngredient now statusMap idMap pantryStaples (fst (fst e)) (snd (fst e)) st (snd e).

(** What an event contributes. *)
Definition eventContribution (pantryStaples : list string) (e : Event) : list (string * Q) :=
  let ing := snd e in
  if MockData.isStaple pantryStaples (Ingredient.item_name ing) then []
  else [(MockData.keyOf (Ingredient.item_name ing) (Ingredient.unit ing),
         (Ingredient.quantity ing * snd (fst e))%Q)].

(** The generated lines without what comes from the previous list. *)
Definition erase (gm : list (string * ShoppingItem.t)) : list (string * Ingredient.t) :=
  List.map (fun kv => (fst kv, ShoppingItem.base (snd kv))) gm.

Definition plusQuantity (quantity : Q) (b : Ingredient.t) : Ingredient.t :=
  Ingredient.mk (Ingredient.item_name b) (Ingredient.quantity b + quantity)%Q
                (Ingredient.unit b) (Ingredient.category b).

Definition stepErased (pantryStaples : list string)
    (em : list (string * Ingredient.t)) (e : Event) : list (string * Ingredient.t) :=
  let ing := snd e in
  if MockData.isStaple pantryStaples (Ingredient.item_name ing) then em
  else
    let key := MockData.keyOf (Ingredient.item_name ing) (Ingredient.unit ing) in
    let quantity := (Ingredient.quantity ing * snd (fst e))%Q in
    match MockData.mapGet key em with
    | Some _ => MockData.mapUpdate (plusQuantity quantity) key em
    | None =>
        em ++ [(key, Ingredient.mk (Ingredient.item_name ing) quantity
                                   (Ingredient.unit ing) (Ingredient.category ing))]
    end.

(** The erased lines account for the contributions [cs]: keys are distinct,
    every line carries its own key and the total of the contributions to it,
    every contribution has its line and every line has a contribution. *)
Definition accounted (em : list (string * Ingredient.t)) (cs : list (string * Q)) : Prop :=
  List.NoDup (List.map fst em)
  /\ (forall k b, In (k, b) em ->
        MockData.keyOf (Ingredient.item_name b) (Ingredient.unit b) = k
        /\ (Ingredient.quantity b == Spec.totalFor k cs)%Q)
  /\ (forall c, In c cs -> In (fst c) (List.map fst em))
  /\ (forall k, In k (List.map fst em) -> exists c, In c cs /\ fst c = k).

End Trace.

(** ** The other operations of [mockData.ts], of the two shells and of the shop view *)

(** [{ ...p, date }] *)
Definition withDate (p : MealPlanItem.t) (date : Z) : MealPlanItem.t :=
  MealPlanItem.mk (MealPlanItem.id p) date (MealPlanItem.type p)
                  (MealPlanItem.recipe_id p) (MealPlanItem.recipe_version p)
                  (MealPlanItem.is_leftover p) (MealPlanItem.is_cooked p)
                  (MealPlanItem.rating p) (MealPlanItem.rating_comment p)
                  (MealPlanItem.servings p).

(** [{ ...p, is_cooked, rating, rating_comment }] *)
Definition withReview (p : MealPlanItem.t) (is_cooked : bool) (rating : option Q)
    (rating_comment : option string) : MealPlanItem.t :=
  MealPlanItem.mk (MealPlanItem.id p) (MealPlanItem.date p) (MealPlanItem.type p)
                  (MealPlanItem.recipe_id p) (MealPlanItem.recipe_version p)
                  (MealPlanItem.is_leftover p) is_cooked rating rating_comment
                  (MealPlanItem.servings p).

(** [{ ...i, checked }] *)
Definition withChecked (i : ShoppingItem.t) (checked : bool) : ShoppingItem.t :=
  ShoppingItem.mk (ShoppingItem.base i) (ShoppingItem.id i) checked
                  (ShoppingItem.is_manually_added i) (ShoppingItem.lang i)
                  (ShoppingItem.translations i).

(** [Array.prototype.findIndex]; [None] is the index -1. *)
Fixpoint findIndex {A : Type} (f : A -> bool) (l : list A) : option nat :=
  match l with
  | [] => None
  | x :: rest => if f x then Some 0%nat else option_map S (findIndex f rest)
  end.

(** [l.slice(-n)]: the last [n] elements. *)
Definition sliceLast {A : Type} (n : nat) (l : list A) : list A :=
  skipn (length l - n) l.

(** [generateInitialPlan] and [generateShoppingListFromPlan] of [mockData.ts]. *)
Module Seed.

(** One turn of the loop.  For an empty catalog [recipes[i % recipes.length]]
    is [undefined] and reading [recipe.id] throws: the result is [None].
    [dateStrOf i] is the date of turn [i] as the code computes it: the
    current instant moved by [i] local days ([setDate]) and read in UTC
    ([toISOString]); these are seven consecutive days from the UTC date of
    now on unless the clocks change in between. *)
Definition initialItem (dateNow : nat -> Z) (dateStrOf : nat -> Z) (recipes : list Recipe.t)
    (i : nat) : option MealPlanItem.t :=
  match recipes with
  | [] => None
  | _ :: _ =>
      match nth_error recipes (i mod length recipes) with
      | Some recipe =>
          Some (MealPlanItem.mk (dateNow i + Z.of_nat i) (dateStrOf i) DINNER
                  (Recipe.id recipe) (Some (JS.orElseZ (Some (Recipe.version recipe)) 1))
                  false false None None (Some (Recipe.servings_default recipe)))
      | None => None
      end
  end.

Fixpoint collect {A B : Type} (f : A -> option B) (l : list A) : option (list B) :=
  match l with
  | [] => Some []
  | x :: rest =>
      match f x with
      | Some y => option_map (cons y) (collect f rest)
      | None => None
      end
  end.

Definition generateInitialPlan (dateNow : nat -> Z) (dateStrOf : nat -> Z)
    (recipes : list Recipe.t) : option (list MealPlanItem.t) :=
  collect (initialItem dateNow dateStrOf recipes) (seq 0 7).

Definition generateShoppingListFromPlan (now : nat -> positive) (plan : list MealPlanItem.t)
    (recipes : list Recipe.t) (pantryStaples : list string) : list ShoppingItem.t :=
  MockData.mergeShoppingList now [] plan recipes pantryStaples.

End Seed.

(** The plan and shopping handlers of the first shell (lines 84-120 and
    224-457 of [src/unnamed/part_000]).  The state is the plan with its undo
    history; [now] is the value of [Date.now()]. *)
Module PlannerActions.

Record State : Type := mkState {
  plan : list MealPlanItem.t;
  planHistory : list (list MealPlanItem.t)
}.

(** [setPlanHistory(prev => [...prev.slice(-9), [...plan]])] *)
Definition savePlanToHistory (st : State) : State :=
  mkState (plan st) (sliceLast 9 (planHistory st) ++ [plan st]).

Definition handleUndoPlan (st : State) : State :=
  match last (planHistory st) with
  | Some previous => mkState previous (removelast (planHistory st))
  | None => st
  end.

Definition handleAddMeal (now : Z) (recipes : list Recipe.t) (st : State)
    (date : Z) (recipeId : Z) : State :=
  let saved := savePlanToHistory st in
  match List.find (fun r => Recipe.id r =? recipeId) recipes with
  | None => saved
  | Some recipe =>
      mkState
        (plan st ++
           [MealPlanItem.mk now date DINNER recipeId (Some (Recipe.version recipe))
              false false None None (Some (Recipe.servings_default recipe))])
        (planHistory saved)
  end.

Inductive Direction : Type := up | down.

Definition step (direction : Direction) : Z :=
  match direction with
  | down => 1
  | up => -1
  end.

(** The swap with the day after or before [date]: the target date is read
    from [toISOString()] after [setDate(getDate() + 1)] or [- 1], which is
    [date + 1] or [date - 1] as long as the offset of the local time to UTC
    is the same on both days. *)
Definition handleMoveMeal (st : State) (date : Z) (direction : Direction) : State :=
  match List.find (fun p => MealPlanItem.date p =? date) (plan st) with
  | None => st
  | Some current =>
      let saved := savePlanToHistory st in
      let targetDate := date + step direction in
      let target := List.find (fun p => MealPlanItem.date p =? targetDate) (plan st) in
      mkState
        (List.map
           (fun p =>
              if MealPlanItem.id p =? MealPlanItem.id current then withDate p targetDate
              else
                match target with
                | Some t => if MealPlanItem.id p =? MealPlanItem.id t then withDate p date else p
                | None => p
                end)
           (plan st))
        (planHistory saved)
  end.

Definition handleReorderMeal (st : State) (mealId : Z) (targetDate : Z) : State :=
  match List.find (fun p => MealPlanItem.id p =? mealId) (plan st) with
  | None => st
  | Some meal =>
      if MealPlanItem.date meal =? targetDate then st
      else
        let saved := savePlanToHistory st in
        match List.find (fun p => MealPlanItem.date p =? targetDate) (plan st) with
        | Some targetMeal =>
            mkState
              (List.map
                 (fun p =>
                    if MealPlanItem.id p =? mealId then withDate p targetDate
                    else if MealPlanItem.id p =? MealPlanItem.id targetMeal
                         then withDate p (MealPlanItem.date meal)
                         else p)
                 (plan st))
              (planHistory saved)
        | None =>
            mkState
              (List.map
                 (fun p => if MealPlanItem.id p =? mealId then withDate p targetDate else p)
                 (plan st))
              (planHistory saved)
        end
  end.

Definition handleRemoveMeal (st : State) (date : Z) : State :=
  match List.find (fun p => MealPlanItem.date p =? date) (plan st) with
  | None => st
  | Some _ =>
      mkState (List.filter (fun p => negb (MealPlanItem.date p =? date)) (plan st))
              (planHistory (savePlanToHistory st))
  end.

Definition handleRateMeal (plan : list MealPlanItem.t) (id : Z) (rating : Q)
    (comment : option string) : list MealPlanItem.t :=
  List.map (fun p => if MealPlanItem.id p =? id then withReview p true (Some rating) comment
                     else p) plan.

Definition handleUpdateServings (plan : list MealPlanItem.t) (mealId : Z) (servings : Q)
  : list MealPlanItem.t :=
  List.map (fun p => if MealPlanItem.id p =? mealId then Spec.withServings p (Some servings)
                     else p) plan.

Definition handleDeleteRecipe (recipes : list Recipe.t) (id : Z) : list Recipe.t :=
  List.filter (fun r => negb (Recipe.id r =? id)) recipes.

Definition handleToggleItem (shoppingItems : list ShoppingItem.t) (item : ShoppingItem.t)
  : list ShoppingItem.t :=
  match findIndex (fun i => ShoppingItem.id i =? ShoppingItem.id item) shoppingItems with
  | Some existingIndex =>
      match shoppingItems !! existingIndex with
      | Some existing =>
          <[existingIndex := withChecked existing (negb (ShoppingItem.checked existing))]>
            shoppingItems
      | None => shoppingItems
      end
  | None => shoppingItems ++ [withChecked item (negb (ShoppingItem.checked item))]
  end.

Definition handleClearChecked (shoppingItems : list ShoppingItem.t) : list ShoppingItem.t :=
  List.filter (fun i => negb (ShoppingItem.checked i)) shoppingItems.

(** [plan.filter(p => p.date >= today)], where [today] is the date of
    [new Date().toISOString()]: the UTC date of now, which is the day before
    the local date early in the day east of UTC and the day after it late
    in the day west of UTC.  The handler of the second shell (lines
    1079-1101) is the same filter for another day: it keeps the items whose
    date, cut to the local midnight before it, is not before the local
    midnight of today, and [today] is then the first such date. *)
Definition handleClearStats (today : Z) (plan : list MealPlanItem.t) : list MealPlanItem.t :=
  List.filter (fun p => today <=? MealPlanItem.date p) plan.

Definition handleClearReviews (plan : list MealPlanItem.t) : list MealPlanItem.t :=
  List.map (fun p => withReview p false None None) plan.

End PlannerActions.

(** The shop view ([src/unnamed/part_003], lines 47-76): the list shown for
    the week [weekOffset]. *)
Module ShopView.

(** The meals whose date, parsed as UTC midnight and cut to the local
    midnight before it, is in the seven days from the local midnight of
    today plus [weekOffset] weeks.  [today] of the model is the first date
    of the window for [weekOffset = 0]: the local date in a zone at or east
    of UTC, the day after it in a zone west of UTC. *)
Definition visiblePlan (today : Z) (weekOffset : Z) (plan : list MealPlanItem.t)
  : list MealPlanItem.t :=
  let startDate := today + weekOffset * 7 in
  let endDate := today + (weekOffset * 7 + 7) in
  List.filter (fun p => (startDate <=? MealPlanItem.date p) && (MealPlanItem.date p <? endDate))
              plan.

Definition visibleItems (now : nat -> positive) (today : Z) (weekOffset : Z)
    (items : list ShoppingItem.t) (plan : list MealPlanItem.t) (recipes : list Recipe.t)
    (pantry_staples : list string) : list ShoppingItem.t :=
  MockData.mergeShoppingList now items (visiblePlan today weekOffset plan) recipes pantry_staples.

End ShopView.

(** The plan handlers of the second shell (lines 776-798 and 879-1075 of
    [src/unnamed/part_000]); each one ends with [syncShoppingList], which is
    [SyncApp.syncShoppingList] on the plan it returns. *)
Module SyncActions.

(** [newHistory.length > 50 ? newHistory.slice(newHistory.length - 50) : newHistory] *)
Definition savePlanHistory (planHistory : list (list MealPlanItem.t))
    (plan : list MealPlanItem.t) : list (list MealPlanItem.t) :=
  let newHistory := planHistory ++ [plan] in
  if (50 <? length newHistory)%nat then skipn (length newHistory - 50) newHistory
  else newHistory.

(** The plan and the history after [handleUndo]; both stay as they are when
    the history is empty. *)
Definition handleUndo (planHistory : list (list MealPlanItem.t)) (plan : list MealPlanItem.t)
  : list MealPlanItem.t * list (list MealPlanItem.t) :=
  match last planHistory with
  | Some previousPlan => (previousPlan, removelast planHistory)
  | None => (plan, planHistory)
  end.

Definition handleAddMeal (now : Z) (recipes : list Recipe.t) (plan : list MealPlanItem.t)
    (date : Z) (recipeId : Z) : list MealPlanItem.t :=
  let recipe := List.find (fun r => Recipe.id r =? recipeId) recipes in
  let newMeal :=
    MealPlanItem.mk now date DINNER recipeId
      (Some (match recipe with
             | Some r => JS.orElseZ (Some (Recipe.version r)) 1
             | None => 1
             end))
      false false None None
      (Some (match recipe with
             | Some r => Recipe.servings_default r
             | None => 4%Q
             end)) in
  List.filter (fun p => negb (MealPlanItem.date p =? date)) plan ++ [newMeal].

(** The plan is left as it is when no meal is on [date]. *)
Definition handleRemoveMeal (plan : list MealPlanItem.t) (date : Z) : list MealPlanItem.t :=
  match List.find (fun p => MealPlanItem.date p =? date) plan with
  | Some _ => List.filter (fun p => negb (MealPlanItem.date p =? date)) plan
  | None => plan
  end.

Definition handleUpdateServings (plan : list MealPlanItem.t) (mealId : Z) (newServings : Q)
  : list MealPlanItem.t :=
  match List.find (fun p => MealPlanItem.id p =? mealId) plan with
  | Some item =>
      let updated := Spec.withServings item (Some newServings) in
      List.map (fun p => if MealPlanItem.id p =? mealId then updated else p) plan
  | None => plan
  end.

(** The swap with the day after or before [date], for an offset of the
    local time to UTC that is the same on both days; see [handleMoveMealTo]
    below. *)
Definition handleMoveMeal (plan : list MealPlanItem.t) (date : Z)
    (direction : PlannerActions.Direction) : list MealPlanItem.t :=
  match findIndex (fun p => MealPlanItem.date p =? date) plan with
  | None => plan
  | Some idx =>
      let targetDate := date + PlannerActions.step direction in
      match plan !! idx with
      | None => plan
      | Some atIdx =>
          match findIndex (fun p => MealPlanItem.date p =? targetDate) plan with
          | Some targetIdx =>
              match plan !! targetIdx with
              | Some atTarget =>
                  <[targetIdx := withDate atTarget date]>
                    (<[idx := withDate atIdx targetDate]> plan)
              | None => plan
              end
          | None => <[idx := withDate atIdx targetDate]> plan
          end
      end
  end.

(** The target date of a move is read from [toISOString()] after
    [setDate(getDate() + 1)] or [- 1]: the day after or before [date] as
    long as the offset of the local time to UTC is the same on both days,
    and [date] itself or the second day from it across a change of the
    clocks.  [handleMoveMealTo] is the handler for the target date as it is
    computed; [handleMoveMeal] is [handleMoveMealTo] for the target date
    [date + 1] or [date - 1]. *)
Definition handleMoveMealTo (plan : list MealPlanItem.t) (date targetDate : Z)
  : list MealPlanItem.t :=
  match findIndex (fun p => MealPlanItem.date p =? date) plan with
  | None => plan
  | Some idx =>
      match plan !! idx with
      | None => plan
      | Some atIdx =>
          match findIndex (fun p => MealPlanItem.date p =? targetDate) plan with
          | Some targetIdx =>
              match plan !! targetIdx with
              | Some atTarget =>
                  <[targetIdx := withDate atTarget date]>
                    (<[idx := withDate atIdx targetDate]> plan)
              | None => plan
              end
          | None => <[idx := withDate atIdx targetDate]> plan
          end
      end
  end.

Definition handleReorderMeal (plan : list MealPlanItem.t) (mealId : Z) (targetDate : Z)
  : list MealPlanItem.t :=
  match findIndex (fun p => MealPlanItem.id p =? mealId) plan with
  | None => plan
  | Some draggingIdx =>
      match plan !! draggingIdx with
      | None => plan
      | Some draggingItem =>
          let originalDate := MealPlanItem.date draggingItem in
          match findIndex (fun p => MealPlanItem.date p =? targetDate) plan with
          | Some targetIdx =>
              match plan !! targetIdx with
              | Some targetItem =>
                  <[targetIdx := withDate targetItem originalDate]>
                    (<[draggingIdx := withDate draggingItem targetDate]> plan)
              | None => plan
              end
          | None => <[draggingIdx := withDate draggingItem targetDate]> plan
          end
      end
  end.

(** The recipes and the plan after [handleDeleteRecipe]. *)
Definition handleDeleteRecipe (recipes : list Recipe.t) (plan : list MealPlanItem.t)
    (recipeId : Z) : list Recipe.t * list MealPlanItem.t :=
  (List.filter (fun r => negb (Recipe.id r =? recipeId)) recipes,
   List.filter (fun p => negb (MealPlanItem.recipe_id p =? recipeId)) plan).

(** [generateInitialPlan] throws for an empty catalog; [None] is that exception.
    The history are the items whose date, parsed as UTC midnight and cut to
    the local midnight before it, is before the local midnight of today:
    the dates before [keptBefore], which is the local date of today in a
    zone at or east of UTC and the day after it in a zone west of UTC.  The
    dates of the new week are those of [Seed.initialItem]. *)
Definition handleRegeneratePlan (dateNow : nat -> Z) (dateStrOf : nat -> Z) (keptBefore : Z)
    (recipes : list Recipe.t) (plan : list MealPlanItem.t) : option (list MealPlanItem.t) :=
  let historyItems := List.filter (fun p => MealPlanItem.date p <? keptBefore) plan in
  match Seed.generateInitialPlan dateNow dateStrOf (rev recipes) with
  | Some newFutureItems => Some (historyItems ++ newFutureItems)
  | None => None
  end.

End SyncActions.

(** The sections of the shop view ([src/unnamed/part_003], lines 140-170) and
    [SHOPPING_CATEGORIES] of [src/types.ts]. *)
Module ShopSections.

Definition SHOPPING_CATEGORIES : list string :=
  ["Produce"; "Dairy"; "Meat"; "Bakery"; "Frozen"; "Pantry"; "Spices"; "Canned";
   "Beverages"; "Household"; "Other"]%string.

(** [order.includes(c)] *)
Definition includes (order : list string) (c : string) : bool :=
  existsb (String.eqb c) order.

(** [activeStore] is the [category_order] of the selected store, if one is
    selected and found. *)
Definition displayCategories (activeStore : option (list string)) : list string :=
  match activeStore with
  | Some category_order =>
      category_order
        ++ List.filter (fun c => negb (includes category_order c)) SHOPPING_CATEGORIES
  | None => SHOPPING_CATEGORIES
  end.

Definition activeCategories (activeStore : option (list string))
    (visibleItems : list ShoppingItem.t) : list string :=
  List.filter
    (fun cat => existsb (fun i => String.eqb (ShoppingItem.category i) cat) visibleItems)
    (displayCategories activeStore).

(** The items of one section, before they are sorted by name. *)
Definition catItems (visibleItems : list ShoppingItem.t) (cat : string) : list ShoppingItem.t :=
  List.filter (fun i => String.eqb (ShoppingItem.category i) cat) visibleItems.

(** The items of all sections, section by section. *)
Definition shownItems (activeStore : option (list string))
    (visibleItems : list ShoppingItem.t) : list ShoppingItem.t :=
  flat_map (catItems visibleItems) (activeCategories activeStore visibleItems).

End ShopSections.

(** The servings of the detail view ([src/components/RecipeDetail.tsx],
    lines 39, 115 and 230-236). *)
Module DetailView.

(** [Math.max(1, x)] *)
Definition Math_max1 (x : Q) : Q := if Qlt_le_dec x 1 then 1%Q else x.

(** [useState(meal?.servings || viewedRecipe.servings_default)] *)
Definition initialServings (meal : option MealPlanItem.t) (viewedRecipe : Recipe.t) : Q :=
  JS.orElseQ (match meal with
              | Some m => MealPlanItem.servings m
              | None => None
              end)
             (Recipe.servings_default viewedRecipe).

(** [currentServings / viewedRecipe.servings_default] *)
Definition scale (currentServings : Q) (viewedRecipe : Recipe.t) : Q :=
  (currentServings / Recipe.servings_default viewedRecipe)%Q.

(** The new value of [currentServings]; it is also what [onUpdateServings]
    is called with. *)
Definition changeServings (currentServings delta : Q) : Q :=
  Math_max1 (currentServings + delta)%Q.

End DetailView.

(** What the generator may append for one day. *)
Definition generatedFor (recipes : list Recipe.t) (todayStr start : Z) (offsets : list nat)
    (before : list MealPlanItem.t) (p : MealPlanItem.t) : Prop :=
  (exists i, In i offsets /\ MealPlanItem.date p = start + Z.of_nat i)
  /\ todayStr <= MealPlanItem.date p
  /\ (forall q, In q before -> MealPlanItem.date q <> MealPlanItem.date p)
  /\ MealPlanItem.rating p = None
  /\ MealPlanItem.is_cooked p = false
  /\ exists r, In r recipes
               /\ List.find (fun x => Recipe.id x =? MealPlanItem.recipe_id p) recipes = Some r
               /\ MealPlanItem.recipe_version p = Some (Recipe.version r)
               /\ MealPlanItem.servings p = Some (Recipe.servings_default r).

(** ** Concrete data of the scenarios *)

Module Scenario.

Definition salt : Ingredient.t := Ingredient.mk "Salt" 1 "tsp" "Pantry".
Definition chicken : Ingredient.t := Ingredient.mk "Chicken" 500 "g" "Meat".
Definition rice : Ingredient.t := Ingredient.mk "Rice" 300 "g" "Pantry".

(** Scenario A: [servings_default = 4], ingredients salt and chicken. *)
Definition roast : Recipe.t :=
  Recipe.mk 1 "Roast chicken" "" ["Season"; "Roast"] [salt; chicken] 4 [] None None None
            1 [] None None.

Definition roastFor8 : MealPlanItem.t :=
  MealPlanItem.mk 10 0 DINNER 1 (Some 1) false false None None (Some 8%Q).


Definition chickenLine : ShoppingItem.t :=
  ShoppingItem.mk (Ingredient.mk "Chicken" (4000 # 4) "g" "Meat") 77 false false None None.

Definition towels : ShoppingItem.t :=
  ShoppingItem.mk (Ingredient.mk "Paper towels" 1 "pc" "Household") 5 true true None None.

Definition now77 : nat -> positive := fun _ => 77%positive.

(** Scenario C: a recipe at version 2 that remembers its version 1. *)
Definition stewV1 : Recipe.t :=
  Recipe.mk 2 "Stew" "" ["Boil"] [rice] 4 [] None None None 1 [] None None.

Definition stew : Recipe.t :=
  Recipe.mk 2 "Stew" "" ["Boil"; "Simmer"] [rice; chicken] 4 [] None None None
            2 [stewV1] None None.

(** An edit of the instructions only, and an edit of the ingredients. *)
Definition stewNewSteps : Recipe.t :=
  Recipe.mk 2 "Stew" "" ["Boil"; "Simmer"; "Serve"] [rice; chicken] 4 [] None None None
            2 [stewV1] None None.

Definition stewNewIngredients : Recipe.t :=
  Recipe.mk 2 "Stew" "" ["Boil"; "Simmer"] [rice; chicken; salt] 4 [] None None None
            2 [stewV1] None None.



Definition eatenB : MealPlanItem.t :=
  MealPlanItem.mk 20 9 DINNER 102 (Some 1) false true (Some 5%Q) None (Some 4%Q).

Definition halves : nat -> Q := fun _ => (1 # 2)%Q.

(** A meal pinned to version 2 of the stew. *)
Definition stewPinned : MealPlanItem.t :=
  MealPlanItem.mk 12 3 DINNER 2 (Some 2) false false None None (Some 4%Q).

End Scenario.

(** ** Concrete data for the further properties *)

Module Cases.

(** The chicken line of scenario A after the user has checked it. *)
Definition chickenChecked : ShoppingItem.t := withChecked Scenario.chickenLine true.

(** A line for the chicken that the user has not touched yet: a fresh id. *)
Definition chickenFresh : ShoppingItem.t :=
  ShoppingItem.mk (Ingredient.mk "Chicken" (4000 # 4) "g" "Meat") 77 false false None None.

(** A plan with one meal on day 10 and one on day 11. *)
Definition onDay10 : MealPlanItem.t :=
  MealPlanItem.mk 30 10 DINNER 1 (Some 1) false false None None (Some 4%Q).

Definition onDay11 : MealPlanItem.t :=
  MealPlanItem.mk 31 11 DINNER 2 (Some 2) false false None None (Some 4%Q).

Definition twoDays : list MealPlanItem.t := [onDay10; onDay11].

Definition idle : PlannerActions.State := PlannerActions.mkState twoDays [].

(** [Ägg], the Swedish word for eggs: the first character is U+00C4. *)
Definition agg : string := String (ascii_of_nat 196) "gg".

Definition eggs : Ingredient.t := Ingredient.mk agg 6 "st" "Dairy".

Definition omelette : Recipe.t :=
  Recipe.mk 3 "Omelett" "" ["Stek"] [eggs] 4 [] None None None 1 [] None None.

Definition omeletteFor4 : MealPlanItem.t :=
  MealPlanItem.mk 40 0 DINNER 3 (Some 1) false false None None (Some 4%Q).

(** Two ingredients with different names and different units whose joined
    keys are the same string. *)
Definition coca : Ingredient.t := Ingredient.mk "coca" 1 "cola-can" "Beverages".
Definition cocaCola : Ingredient.t := Ingredient.mk "coca-cola" 2 "can" "Beverages".

Definition party : Recipe.t :=
  Recipe.mk 4 "Party" "" ["Serve"] [coca; cocaCola] 4 [] None None None 1 [] None None.

Definition partyFor4 : MealPlanItem.t :=
  MealPlanItem.mk 41 0 DINNER 4 (Some 1) false false None None (Some 4%Q).

End Cases.

(** ** Properties of the primitives *)

Section Primitives.
Import JS.

Lemma isSyntaxCharacter_backslash : isSyntaxCharacter backslash = true.
Proof. reflexivity. Qed.

Lemma parsePattern_plain (c : ascii) (rest : list ascii) :
  isSyntaxCharacter c = false ->
  parsePattern (c :: rest) = option_map (cons (PatternChar c)) (parsePattern rest).
Proof.
  intros Hc. simpl.
  destruct (Ascii.eqb c backslash) eqn:Hb.
  - apply Ascii.eqb_eq in Hb. subst c. discriminate Hc.
  - now rewrite Hc.
Qed.

Lemma parsePattern_escaped (c : ascii) (rest : list ascii) :
  isSyntaxCharacter c = true ->
  parsePattern (backslash :: c :: rest) = option_map (cons (PatternChar c)) (parsePattern rest).
Proof.
  intros Hc. cbn [parsePattern]. rewrite Ascii.eqb_refl.
  destruct (Ascii.eqb c "b") eqn:Hb.
  - apply Ascii.eqb_eq in Hb. subst c. discriminate Hc.
  - now rewrite Hc.
Qed.

(** Escaping makes every character of a staple a literal of the pattern. *)
Lemma parsePattern_escapeRegExp (s rest : list ascii) :
  parsePattern (escapeRegExp s ++ rest)
  = option_map (app (List.map PatternChar s)) (parsePattern rest).
Proof.
  induction s as [|c s IH]; simpl.
  - now destruct (parsePattern rest).
  - unfold escapeRegExp in *. simpl.
    destruct (isSyntaxCharacter c) eqn:Hc.
    + change (([backslash; c] ++ flat_map (fun c0 => if isSyntaxCharacter c0 then [backslash; c0] else [c0]) s) ++ rest)
        with (backslash :: c :: (flat_map (fun c0 => if isSyntaxCharacter c0 then [backslash; c0] else [c0]) s ++ rest)).
      rewrite parsePattern_escaped by exact Hc. rewrite IH.
      now destruct (parsePattern rest).
    + change (([c] ++ flat_map (fun c0 => if isSyntaxCharacter c0 then [backslash; c0] else [c0]) s) ++ rest)
        with (c :: (flat_map (fun c0 => if isSyntaxCharacter c0 then [backslash; c0] else [c0]) s ++ rest)).
      rewrite parsePattern_plain by exact Hc. rewrite IH.
      now destruct (parsePattern rest).
Qed.


Lemma RegExp_new_escaped (staple : string) :
  RegExp_new (MockData.stapleSource staple)
  = Some (WordBoundary :: List.map PatternChar (list_ascii_of_string staple) ++ [WordBoundary]).
Proof.
  unfold RegExp_new, MockData.stapleSource, MockData.wordBoundarySource.
  cbn [app parsePattern]. rewrite Ascii.eqb_refl. cbn [Ascii.eqb Bool.eqb].
  rewrite parsePattern_escapeRegExp.
  cbn [parsePattern]. rewrite Ascii.eqb_refl. reflexivity.
Qed.

Lemma canonicalize_lower (c : ascii) : canonicalize (toLowerChar c) = canonicalize c.
Proof. destruct c as [[] [] [] [] [] [] [] []]; reflexivity. Qed.

Lemma lower_of_canonical (c : ascii) : toLowerChar c = ofCanonical (canonicalize c).
Proof. destruct c as [[] [] [] [] [] [] [] []]; reflexivity. Qed.

(** [Canonicalize] identifies exactly the characters that are equal up to case. *)
Lemma canonicalize_eq_iff (c d : ascii) :
  canonicalize c = canonicalize d <-> toLowerChar c = toLowerChar d.
Proof.
  split; intros H.
  - now rewrite (lower_of_canonical c), (lower_of_canonical d), H.
  - now rewrite <- (canonicalize_lower c), <- (canonicalize_lower d), H.
Qed.

Lemma lastOr_cons (prev : option ascii) (d : ascii) (mid : list ascii) :
  lastOr prev (d :: mid) = lastOr (Some d) mid.
Proof.
  unfold lastOr. destruct mid as [|e mid]; [reflexivity|].
  rewrite last_cons. now destruct (last (e :: mid)).
Qed.

Lemma lastOr_last (pre mid : list ascii) : lastOr (last pre) mid = last (pre ++ mid).
Proof. unfold lastOr. rewrite last_app. reflexivity. Qed.

Lemma matchTerms_literal (s : list ascii) (k : list Term) :
  forall prev rest,
    matchTerms (List.map PatternChar s ++ k) prev rest = true
    <-> exists mid post,
        rest = mid ++ post
        /\ Spec.sameIgnoringCase mid s
        /\ matchTerms k (lastOr prev mid) post = true.
Proof.
  unfold Spec.sameIgnoringCase.
  induction s as [|c s IH]; intros prev rest; simpl.
  - split.
    + intros H. exists [], rest. auto.
    + intros (mid & post & -> & Hci & H). destruct mid; [exact H | discriminate Hci].
  - destruct rest as [|d rest].
    + split; [discriminate|].
      intros (mid & post & Heq & Hci & _). destruct mid; discriminate.
    + rewrite andb_true_iff, IH, N.eqb_eq, canonicalize_eq_iff. split.
      * intros (Hcd & mid & post & -> & Hci & H).
        exists (d :: mid), post. rewrite lastOr_cons. simpl. repeat split; auto.
        now rewrite Hcd, Hci.
      * intros (mid & post & Heq & Hci & H).
        destruct mid as [|d' mid]; [discriminate Hci|].
        simpl in Heq, Hci. injection Heq as -> ->. injection Hci as Hcd Hci.
        rewrite lastOr_cons in H. split; [now symmetry|].
        exists mid, post. auto.
Qed.

Lemma testFrom_iff (terms : list Term) :
  forall rest prev,
    testFrom terms prev rest = true
    <-> exists pre rest',
        rest = pre ++ rest' /\ matchTerms terms (lastOr prev pre) rest' = true.
Proof.
  induction rest as [|d rest IH]; intros prev; simpl.
  - rewrite orb_false_r. split.
    + intros H. exists [], []. auto.
    + intros (pre & rest' & Heq & H). symmetry in Heq.
      apply app_eq_nil in Heq as [-> ->]. exact H.
  - rewrite orb_true_iff, IH. split.
    + intros [H | (pre & rest' & -> & H)].
      * exists [], (d :: rest). auto.
      * exists (d :: pre), rest'. rewrite lastOr_cons. auto.
    + intros (pre & rest' & Heq & H). destruct pre as [|d' pre].
      * left. simpl in Heq. subst rest'. exact H.
      * right. simpl in Heq. injection Heq as -> ->. rewrite lastOr_cons in H.
        exists pre, rest'. auto.
Qed.

Lemma xorb_true_neq (a b : bool) : xorb a b = true <-> a <> b.
Proof. destruct a, b; simpl; split; congruence. Qed.

(** The staple check is the match of the pattern. *)
Lemma stapleMatches_iff (staple name : string) :
  MockData.stapleMatches staple name = true <-> Pattern.matches staple name.
Proof.
  unfold MockData.stapleMatches, MockData.tryTest, Pattern.matches, Pattern.boundaryBetween.
  rewrite RegExp_new_escaped. unfold RegExp_test. rewrite testFrom_iff. split.
  - intros (pre & rest' & Hname & H).
    cbn [matchTerms] in H. apply andb_true_iff in H as [Hb1 H].
    apply matchTerms_literal in H as (mid & post & -> & Hci & H).
    cbn [matchTerms] in H. rewrite andb_true_r in H.
    exists pre, mid, post. repeat split; auto.
    + apply xorb_true_neq in Hb1. unfold lastOr in Hb1. now destruct (last pre).
    + apply xorb_true_neq in H. rewrite <- lastOr_last.
      unfold lastOr in *. destruct (last mid); [exact H|]. now destruct (last pre).
  - intros (pre & mid & post & Hname & Hci & Hb1 & Hb2).
    exists pre, (mid ++ post). split; [exact Hname|].
    cbn [matchTerms]. apply andb_true_iff. split.
    + apply xorb_true_neq. unfold lastOr. now destruct (last pre).
    + apply matchTerms_literal. exists mid, post. repeat split; auto.
      cbn [matchTerms]. rewrite andb_true_r. apply xorb_true_neq.
      rewrite <- lastOr_last in Hb2.
      unfold lastOr in *. destruct (last mid); [exact Hb2|]. now destruct (last pre).
Qed.

(** *** The grouping key *)

Lemma toLowerChar_hyphen (c : ascii) : toLowerChar c = "-"%char -> c = "-"%char.
Proof. destruct c as [[] [] [] [] [] [] [] []]; simpl; intros H; try discriminate H; reflexivity. Qed.

Lemma toLowerCase_hyphenFree (s : string) :
  Spec.hyphenFree s -> Spec.hyphenFree (toLowerCase s).
Proof.
  unfold Spec.hyphenFree. induction s as [|c s IH]; simpl; [tauto|].
  intros H [Hc | Hin].
  - apply H. left. now apply toLowerChar_hyphen.
  - apply IH; [|exact Hin]. intros Hs. apply H. now right.
Qed.

Lemma append_hyphen_inj (s1 s2 u1 u2 : string) :
  Spec.hyphenFree s1 -> Spec.hyphenFree s2 ->
  s1 +:+ "-" +:+ u1 = s2 +:+ "-" +:+ u2 -> s1 = s2 /\ u1 = u2.
Proof.
  unfold Spec.hyphenFree. revert s2.
  induction s1 as [|c s1 IH]; intros [|d s2] H1 H2 Heq; simpl in *.
  - injection Heq as Heq. auto.
  - injection Heq as Hd _. exfalso. apply H2. left. now symmetry.
  - injection Heq as Hc _. exfalso. apply H1. now left.
  - injection Heq as Hcd Heq.
    destruct (IH s2) as [Hs Hu]; auto. subst. auto.
Qed.

(** For names without a hyphen the key determines the pair of the
    lower-case name and the lower-case unit. *)
Lemma keyOf_injective (name unit name' unit' : string) :
  Spec.hyphenFree name -> Spec.hyphenFree name' ->
  MockData.keyOf name unit = MockData.keyOf name' unit' ->
  toLowerCase name = toLowerCase name' /\ toLowerCase unit = toLowerCase unit'.
Proof.
  intros H H' Heq. unfold MockData.keyOf in Heq.
  apply append_hyphen_inj in Heq; auto using toLowerCase_hyphenFree.
Qed.

(** With a hyphen in a name two pairs can share a key. *)
Example keyOf_hyphen : MockData.keyOf "a-b" "c" = MockData.keyOf "a" "b-c".
Proof. reflexivity. Qed.

Lemma isStaple_iff (pantryStaples : list string) (name : string) :
  MockData.isStaple pantryStaples name = true
  <-> exists staple, In staple pantryStaples /\ Pattern.matches staple name.
Proof.
  unfold MockData.isStaple. rewrite existsb_exists.
  split; intros (staple & Hin & H); exists staple; split; auto; now apply stapleMatches_iff.
Qed.

End Primitives.

(** ** The aggregation as a run over events *)

Section Aggregation.
Import MockData Trace.

Lemma fold_left_flat_map {A B C : Type} (f : A -> C -> A) (g : B -> list C) (l : list B) :
  forall a, fold_left f (flat_map g l) a = fold_left (fun a b => fold_left f (g b) a) l a.
Proof.
  induction l as [|b l IH]; intros a; simpl; [reflexivity|].
  now rewrite fold_left_app, IH.
Qed.

Lemma addMeal_events now sm im recipes staples st meal :
  addMeal now sm im recipes staples st meal
  = fold_left (stepEvent now sm im staples) (mealEvents recipes meal) st.
Proof.
  unfold addMeal, mealEvents. destruct (targetOf recipes meal) as [t|]; [|reflexivity].
  generalize (scaleOf meal t) as scale. intros scale. revert st.
  induction (Recipe.ingredients t) as [|ing l IH]; intros st; simpl; [reflexivity|].
  now rewrite IH.
Qed.

Lemma generate_events now sm im recipes staples plan :
  generate now sm im recipes staples plan
  = fold_left (stepEvent now sm im staples) (planEvents recipes plan) (mkGenerated [] 0).
Proof.
  unfold generate, planEvents. rewrite fold_left_flat_map.
  generalize (mkGenerated [] 0). induction plan as [|meal plan IH]; intros st; simpl; [reflexivity|].
  now rewrite addMeal_events, IH.
Qed.

Lemma planContributions_events recipes staples plan :
  Spec.planContributions recipes staples plan
  = flat_map (eventContribution staples) (planEvents recipes plan).
Proof.
  unfold Spec.planContributions, planEvents.
  induction plan as [|meal plan IH]; simpl; [reflexivity|].
  rewrite flat_map_app, <- IH. f_equal.
  unfold Spec.mealContribution, mealEvents.
  destruct (targetOf recipes meal) as [t|]; [|reflexivity].
  induction (Recipe.ingredients t) as [|ing l IHl]; simpl; [reflexivity|].
  unfold eventContribution at 1. simpl.
  destruct (isStaple staples (Ingredient.item_name ing)); simpl; now rewrite IHl.
Qed.

(** *** The insertion-ordered map *)

Lemma mapGet_None_iff {V : Type} (key : string) (m : list (string * V)) :
  mapGet key m = None <-> ~ In key (List.map fst m).
Proof.
  induction m as [|[k v] m IH]; simpl; [tauto|].
  destruct (String.eqb k key) eqn:Hk.
  - apply String.eqb_eq in Hk. split; [discriminate | tauto].
  - apply String.eqb_neq in Hk. rewrite IH. tauto.
Qed.

Lemma mapGet_In {V : Type} (key : string) (m : list (string * V)) (v : V) :
  mapGet key m = Some v -> In (key, v) m.
Proof.
  induction m as [|[k w] m IH]; simpl; [discriminate|].
  destruct (String.eqb k key) eqn:Hk.
  - apply String.eqb_eq in Hk. intros [= ->]. subst. now left.
  - intros H. right. auto.
Qed.

Lemma mapUpdate_keys {V : Type} (f : V -> V) (key : string) (m : list (string * V)) :
  List.map fst (mapUpdate f key m) = List.map fst m.
Proof.
  induction m as [|[k v] m IH]; simpl; [reflexivity|].
  destruct (String.eqb k key); simpl; [reflexivity | now rewrite IH].
Qed.

(** Updating keeps every entry, up to [f] at the updated key. *)
Lemma mapUpdate_keeps {V : Type} (f : V -> V) (key k : string) (v : V) (m : list (string * V)) :
  In (k, v) m -> In (k, v) (mapUpdate f key m) \/ (k = key /\ In (k, f v) (mapUpdate f key m)).
Proof.
  induction m as [|[k' v'] m IH]; simpl; [tauto|].
  intros [[= -> ->] | Hin].
  - destruct (String.eqb k key) eqn:Hk.
    + apply String.eqb_eq in Hk. right. split; [exact Hk | now left].
    + left. now left.
  - destruct (String.eqb k' key); simpl; [tauto|].
    destruct (IH Hin) as [H | [-> H]]; tauto.
Qed.

(** With distinct keys, an entry after the update comes from one before it. *)
Lemma mapUpdate_In {V : Type} (f : V -> V) (key k : string) (v : V) (m : list (string * V)) :
  List.NoDup (List.map fst m) ->
  In (k, v) (mapUpdate f key m) ->
  (k <> key /\ In (k, v) m) \/ (k = key /\ exists w, In (key, w) m /\ v = f w).
Proof.
  induction m as [|[k' v'] m IH]; simpl; [tauto|].
  intros Hnd Hin. inversion Hnd as [|? ? Hk' Hnd']; subst.
  destruct (String.eqb k' key) eqn:Hk.
  - apply String.eqb_eq in Hk. subst k'. destruct Hin as [[= <- <-] | Hin].
    + right. split; [reflexivity|]. exists v'. split; [now left | reflexivity].
    + left. split; [|now right]. intros ->. apply Hk'.
      change key with (fst (key, v)). now apply in_map.
  - apply String.eqb_neq in Hk. destruct Hin as [[= <- <-] | Hin].
    + left. split; [exact Hk | now left].
    + destruct (IH Hnd' Hin) as [[Hne H] | [-> (w & H & ->)]].
      * left. split; [exact Hne | now right].
      * right. split; [reflexivity|]. exists w. split; [now right | reflexivity].
Qed.

(** *** Sums of contributions *)

Lemma totalFor_app key cs cs' :
  (Spec.totalFor key (cs ++ cs') == Spec.totalFor key cs + Spec.totalFor key cs')%Q.
Proof.
  unfold Spec.totalFor. rewrite List.filter_app, List.map_app.
  induction (List.map snd (List.filter (fun c => String.eqb (fst c) key) cs)) as [|q l IH]; simpl.
  - lra.
  - rewrite IH. lra.
Qed.

Lemma totalFor_single_eq key q : (Spec.totalFor key [(key, q)] == q)%Q.
Proof. unfold Spec.totalFor. simpl. rewrite String.eqb_refl. simpl. lra. Qed.

Lemma totalFor_single_ne key k q : k <> key -> Spec.totalFor key [(k, q)] = 0%Q.
Proof.
  intros Hne. unfold Spec.totalFor. simpl.
  apply String.eqb_neq in Hne. now rewrite Hne.
Qed.

Lemma totalFor_absent key cs :
  (forall c, In c cs -> fst c <> key) -> Spec.totalFor key cs = 0%Q.
Proof.
  intros H. unfold Spec.totalFor.
  induction cs as [|c cs IH]; simpl; [reflexivity|].
  destruct (String.eqb (fst c) key) eqn:Hk.
  - apply String.eqb_eq in Hk. exfalso. apply (H c); [now left | exact Hk].
  - apply IH. intros c' Hc'. apply H. now right.
Qed.

(** *** The erased run *)

Lemma mapGet_erase key gm :
  mapGet key (erase gm) = option_map ShoppingItem.base (mapGet key gm).
Proof.
  induction gm as [|[k it] gm IH]; simpl; [reflexivity|].
  destruct (String.eqb k key); [reflexivity | exact IH].
Qed.

Lemma erase_mapUpdate quantity key gm :
  erase (mapUpdate (addQuantity quantity) key gm)
  = mapUpdate (plusQuantity quantity) key (erase gm).
Proof.
  induction gm as [|[k it] gm IH]; simpl; [reflexivity|].
  destruct (String.eqb k key); simpl; [reflexivity | now rewrite IH].
Qed.

Lemma erase_stepEvent now sm im staples st e :
  erase (generatedMap (stepEvent now sm im staples st e))
  = stepErased staples (erase (generatedMap st)) e.
Proof.
  unfold stepEvent, stepErased, addIngredient.
  destruct (isStaple staples (Ingredient.item_name (snd e))); [reflexivity|].
  rewrite mapGet_erase.
  destruct (mapGet _ (generatedMap st)) as [it|]; simpl.
  - apply erase_mapUpdate.
  - destruct (chooseId now _ (reads st)) as [i n]. simpl.
    unfold erase. now rewrite List.map_app.
Qed.

Lemma erase_fold now sm im staples evs :
  forall st,
    erase (generatedMap (fold_left (stepEvent now sm im staples) evs st))
    = fold_left (stepErased staples) evs (erase (generatedMap st)).
Proof.
  induction evs as [|e evs IH]; intros st; simpl; [reflexivity|].
  now rewrite IH, erase_stepEvent.
Qed.

Lemma accounted_step staples em cs e :
  accounted em cs -> accounted (stepErased staples em e) (cs ++ eventContribution staples e).
Proof.
  intros (Hnd & Hent & Hcov & Hsrc). unfold stepErased, eventContribution.
  destruct (isStaple staples (Ingredient.item_name (snd e))).
  { rewrite app_nil_r. repeat split; auto; now apply Hent. }
  set (key := keyOf (Ingredient.item_name (snd e)) (Ingredient.unit (snd e))).
  set (q := (Ingredient.quantity (snd e) * snd (fst e))%Q).
  destruct (mapGet key em) as [b0|] eqn:Hget.
  - assert (Hkey : In key (List.map fst em)).
    { apply mapGet_In in Hget. change key with (fst (key, b0)). now apply in_map. }
    split; [now rewrite mapUpdate_keys|]. split; [|split].
    + intros k b Hin. apply mapUpdate_In in Hin; [|exact Hnd].
      destruct Hin as [[Hne Hin] | [-> (w & Hin & ->)]].
      * destruct (Hent k b Hin) as [Hk Hq]. split; [exact Hk|].
        rewrite totalFor_app, totalFor_single_ne by congruence. rewrite Hq. lra.
      * destruct (Hent key w Hin) as [Hk Hq]. split; [exact Hk|].
        simpl. rewrite totalFor_app, totalFor_single_eq, Hq. reflexivity.
    + intros c Hc. rewrite mapUpdate_keys. apply in_app_or in Hc as [Hc | [<- | []]]; auto.
    + intros k Hk. rewrite mapUpdate_keys in Hk.
      destruct (Hsrc k Hk) as (c & Hc & Hck). exists c. split; [|exact Hck].
      apply in_or_app. now left.
  - apply mapGet_None_iff in Hget.
    split; [|split; [|split]].
    + rewrite List.map_app. simpl. apply List.NoDup_app.
      * exact Hnd.
      * apply List.NoDup_cons; [intros [] | apply List.NoDup_nil].
      * intros k Hk [-> | []]. contradiction.
    + intros k b Hin. apply in_app_or in Hin as [Hin | [[= <- <-] | []]].
      * destruct (Hent k b Hin) as [Hk Hq]. split; [exact Hk|].
        assert (Hne : key <> k).
        { intros ->. apply Hget. change k with (fst (k, b)). now apply in_map. }
        rewrite totalFor_app, totalFor_single_ne by exact Hne. rewrite Hq. lra.
      * split; [reflexivity|]. simpl.
        rewrite totalFor_app, totalFor_single_eq, totalFor_absent; [lra|].
        intros c Hc Hk. apply Hget. rewrite <- Hk. now apply Hcov.
    + intros c Hc. rewrite List.map_app. apply in_or_app.
      apply in_app_or in Hc as [Hc | [<- | []]]; [left; now apply Hcov | right; now left].
    + intros k Hk. rewrite List.map_app in Hk. apply in_app_or in Hk as [Hk | [<- | []]].
      * destruct (Hsrc k Hk) as (c & Hc & Hck). exists c. split; [|exact Hck].
        apply in_or_app. now left.
      * exists (key, q). split; [|reflexivity]. apply in_or_app. right. now left.
Qed.

Lemma accounted_fold staples evs :
  forall em cs,
    accounted em cs ->
    accounted (fold_left (stepErased staples) evs em)
              (cs ++ flat_map (eventContribution staples) evs).
Proof.
  induction evs as [|e evs IH]; intros em cs H; simpl.
  - now rewrite app_nil_r.
  - rewrite app_assoc. apply IH. now apply accounted_step.
Qed.

Lemma accounted_generate now sm im recipes staples plan :
  accounted (erase (generatedMap (generate now sm im recipes staples plan)))
            (Spec.planContributions recipes staples plan).
Proof.
  rewrite generate_events, erase_fold, planContributions_events.
  apply (accounted_fold staples _ [] []).
  split; [apply List.NoDup_nil|]. split; [intros k b []|]. split; [intros c [] | intros k []].
Qed.

(** Every generated line is a fresh, non-manual one with a usable id. *)
Lemma mapUpdate_from {V : Type} (f : V -> V) (key k : string) (v : V) (m : list (string * V)) :
  In (k, v) (mapUpdate f key m) -> In (k, v) m \/ exists w, In (k, w) m /\ v = f w.
Proof.
  induction m as [|[k' v'] m IH]; simpl; [tauto|].
  destruct (String.eqb k' key); simpl.
  - intros [[= <- <-] | Hin]; [right; exists v'; auto | left; auto].
  - intros [[= <- <-] | Hin]; [left; auto|].
    destruct (IH Hin) as [H | (w & H & ->)]; [left; auto | right; exists w; auto].
Qed.

Lemma chooseId_nonzero now existingId n : fst (chooseId now existingId n) <> 0.
Proof.
  unfold chooseId, JS.truthyZ. destruct existingId as [i|]; simpl; [|discriminate].
  destruct (i =? 0) eqn:Hi; simpl; [discriminate|]. now apply Z.eqb_neq.
Qed.

Lemma generated_step now sm im staples st e :
  (forall k it, In (k, it) (generatedMap st) ->
     ShoppingItem.is_manually_added it = false /\ ShoppingItem.id it <> 0) ->
  forall k it, In (k, it) (generatedMap (stepEvent now sm im staples st e)) ->
     ShoppingItem.is_manually_added it = false /\ ShoppingItem.id it <> 0.
Proof.
  intros Hst k it. unfold stepEvent, addIngredient.
  destruct (isStaple staples _); [apply Hst|].
  destruct (mapGet _ (generatedMap st)); simpl.
  - intros Hin. apply mapUpdate_from in Hin as [Hin | (w & Hin & ->)]; [now apply (Hst k)|].
    apply Hst in Hin. exact Hin.
  - pose proof (chooseId_nonzero now (im !! keyOf (Ingredient.item_name (snd e)) (Ingredient.unit (snd e)))
                                 (reads st)) as Hid.
    destruct (chooseId now _ (reads st)) as [i n]. simpl in *.
    intros Hin. apply in_app_or in Hin as [Hin | [[= <- <-] | []]]; [now apply (Hst k)|].
    simpl. auto.
Qed.

Lemma generated_fold now sm im staples evs :
  forall st,
    (forall k it, In (k, it) (generatedMap st) ->
       ShoppingItem.is_manually_added it = false /\ ShoppingItem.id it <> 0) ->
    forall k it, In (k, it) (generatedMap (fold_left (stepEvent now sm im staples) evs st)) ->
       ShoppingItem.is_manually_added it = false /\ ShoppingItem.id it <> 0.
Proof.
  induction evs as [|e evs IH]; intros st Hst; simpl; [exact Hst|].
  apply IH. now apply generated_step.
Qed.

Lemma generatedItems_fresh now currentList plan recipes staples item :
  In item (generatedItems now currentList plan recipes staples) ->
  ShoppingItem.is_manually_added item = false /\ ShoppingItem.id item <> 0.
Proof.
  unfold generatedItems. rewrite generate_events. intros Hin.
  apply in_map_iff in Hin as ([k it] & <- & Hin).
  eapply generated_fold; [|exact Hin]. intros ? ? [].
Qed.

(** The content of the generated lines does not depend on the previous list. *)
Lemma generatedItems_base now now' currentList currentList' plan recipes staples :
  List.map ShoppingItem.base (generatedItems now currentList plan recipes staples)
  = List.map ShoppingItem.base (generatedItems now' currentList' plan recipes staples).
Proof.
  unfold generatedItems.
  assert (H : forall gm, List.map ShoppingItem.base (List.map snd gm) = List.map snd (erase gm)).
  { intros gm. unfold erase. rewrite !List.map_map. reflexivity. }
  rewrite !H, !generate_events, !erase_fold. reflexivity.
Qed.

Lemma generatedItems_key now currentList plan recipes staples item :
  In item (generatedItems now currentList plan recipes staples) ->
  In (itemKey item, ShoppingItem.base item)
     (erase (generatedMap (generate now (statusMapOf currentList) (idMapOf currentList)
                                    recipes staples plan))).
Proof.
  unfold generatedItems. intros Hin. apply in_map_iff in Hin as ([k it] & <- & Hin).
  assert (He : In (k, ShoppingItem.base it)
                  (erase (generatedMap (generate now (statusMapOf currentList) (idMapOf currentList)
                                                 recipes staples plan)))).
  { unfold erase. apply in_map_iff. exists (k, it). auto. }
  destruct (accounted_generate now (statusMapOf currentList) (idMapOf currentList)
                               recipes staples plan) as (_ & Hent & _ & _).
  destruct (Hent _ _ He) as [Hk _]. simpl. unfold itemKey, ShoppingItem.item_name, ShoppingItem.unit.
  now rewrite Hk.
Qed.

(** Every contribution has its line in the output. *)
Lemma contribution_has_line now currentList plan recipes staples c :
  In c (Spec.planContributions recipes staples plan) ->
  exists item, In item (generatedItems now currentList plan recipes staples) /\ itemKey item = fst c.
Proof.
  intros Hc.
  destruct (accounted_generate now (statusMapOf currentList) (idMapOf currentList)
                               recipes staples plan) as (_ & Hent & Hcov & _).
  apply Hcov in Hc. apply in_map_iff in Hc as ([k b] & Hk & Hin). simpl in Hk. subst k.
  pose proof Hin as Hin'. unfold erase in Hin'. apply in_map_iff in Hin' as ([k it] & [= -> <-] & Hit).
  exists it. split.
  - unfold generatedItems. apply in_map_iff. exists (fst c, it). auto.
  - destruct (Hent _ _ Hin) as [Hkey _]. exact Hkey.
Qed.

(** Every line of the output has a contribution. *)
Lemma line_has_contribution now currentList plan recipes staples item :
  In item (generatedItems now currentList plan recipes staples) ->
  exists c, In c (Spec.planContributions recipes staples plan) /\ fst c = itemKey item.
Proof.
  intros Hin. apply generatedItems_key in Hin.
  destruct (accounted_generate now (statusMapOf currentList) (idMapOf currentList)
                               recipes staples plan) as (_ & _ & _ & Hsrc).
  apply Hsrc. change (itemKey item) with (fst (itemKey item, ShoppingItem.base item)).
  now apply in_map.
Qed.

(** *** Two passes in lockstep *)

(** A line keeps its id and its checked flag once it is created. *)
Lemma line_persists_step now sm im staples st e k it :
  In (k, it) (generatedMap st) ->
  exists it', In (k, it') (generatedMap (stepEvent now sm im staples st e))
              /\ ShoppingItem.id it' = ShoppingItem.id it
              /\ ShoppingItem.checked it' = ShoppingItem.checked it.
Proof.
  intros Hin. unfold stepEvent, addIngredient.
  destruct (isStaple staples _); [exists it; auto|].
  destruct (mapGet _ (generatedMap st)); simpl.
  - eapply mapUpdate_keeps in Hin as [Hin | [_ Hin]].
    + exists it. split; [exact Hin | auto].
    + eexists. split; [exact Hin | auto].
  - destruct (chooseId now _ (reads st)) as [i n]. simpl.
    exists it. split; [apply in_or_app; now left | auto].
Qed.

Lemma line_persists_fold now sm im staples evs :
  forall st k it,
    In (k, it) (generatedMap st) ->
    exists it', In (k, it') (generatedMap (fold_left (stepEvent now sm im staples) evs st))
                /\ ShoppingItem.id it' = ShoppingItem.id it
                /\ ShoppingItem.checked it' = ShoppingItem.checked it.
Proof.
  induction evs as [|e evs IH]; intros st k it Hin; simpl.
  - exists it. auto.
  - destruct (line_persists_step now sm im staples st e k it Hin) as (it1 & Hin1 & Hid1 & Hch1).
    destruct (IH _ _ _ Hin1) as (it2 & Hin2 & Hid2 & Hch2).
    exists it2. split; [exact Hin2|]. split; congruence.
Qed.

Lemma lockstep_step nowA smA imA nowB smB imB staples stA stB e :
  generatedMap stB = generatedMap stA ->
  (forall k it,
      In (k, it) (generatedMap (stepEvent nowA smA imA staples stA e)) ->
      default false (smB !! k) = ShoppingItem.checked it
      /\ imB !! k = Some (ShoppingItem.id it)
      /\ ShoppingItem.id it <> 0) ->
  generatedMap (stepEvent nowB smB imB staples stB e)
  = generatedMap (stepEvent nowA smA imA staples stA e).
Proof.
  intros Hgm H. unfold stepEvent, addIngredient in *. rewrite Hgm.
  destruct (isStaple staples _); [exact Hgm|].
  destruct (mapGet _ (generatedMap stA)); simpl; [reflexivity|].
  destruct (chooseId nowA _ (reads stA)) as [iA nA]. simpl in *.
  edestruct H as (Hsm & Him & Hnz); [apply in_or_app; right; now left|].
  simpl in Hsm, Him, Hnz.
  rewrite Him. unfold chooseId, JS.truthyZ.
  apply Z.eqb_neq in Hnz. rewrite Hnz. simpl.
  rewrite Hsm. reflexivity.
Qed.

(** A second run whose lookup maps answer, for every line of the first run,
    with the id and the flag of that line, builds the same lines. *)
Lemma lockstep nowA smA imA nowB smB imB staples evs :
  forall stA stB,
    generatedMap stB = generatedMap stA ->
    (forall k it,
        In (k, it) (generatedMap (fold_left (stepEvent nowA smA imA staples) evs stA)) ->
        default false (smB !! k) = ShoppingItem.checked it
        /\ imB !! k = Some (ShoppingItem.id it)
        /\ ShoppingItem.id it <> 0) ->
    generatedMap (fold_left (stepEvent nowB smB imB staples) evs stB)
    = generatedMap (fold_left (stepEvent nowA smA imA staples) evs stA).
Proof.
  induction evs as [|e evs IH]; intros stA stB Hgm Hfinal; simpl; [exact Hgm|].
  apply IH; [|exact Hfinal].
  apply lockstep_step; [exact Hgm|].
  intros k it Hin.
  destruct (line_persists_fold nowA smA imA staples evs _ k it Hin) as (it' & Hin' & Hid & Hch).
  destruct (Hfinal k it' Hin') as (Hsm & Him & Hnz).
  rewrite <- Hid, <- Hch. auto.
Qed.

(** *** The lookup maps of a list *)

Lemma lookupMaps_snoc l a m :
  fold_left recordItem (l ++ [a]) m = recordItem (fold_left recordItem l m) a.
Proof. now rewrite fold_left_app. Qed.

Lemma statusMap_lookup (l : list ShoppingItem.t) :
  forall (m : gmap string bool * gmap string Z) (it : ShoppingItem.t),
    In it l ->
    (forall it', In it' l -> itemKey it' = itemKey it -> it' = it) ->
    fst (fold_left recordItem l m) !! itemKey it = Some (ShoppingItem.checked it).
Proof.
  induction l as [|a l IH] using rev_ind; intros m it Hin Huniq; [destruct Hin|].
  rewrite lookupMaps_snoc. unfold recordItem at 1. cbn [fst].
  destruct (String.eqb (itemKey a) (itemKey it)) eqn:Hk.
  - apply String.eqb_eq in Hk.
    assert (a = it) as -> by (apply Huniq; [apply in_or_app; right; now left | exact Hk]).
    apply lookup_insert_eq.
  - apply String.eqb_neq in Hk. rewrite lookup_insert_ne by exact Hk.
    apply in_app_or in Hin as [Hin | [-> | []]]; [|congruence].
    apply IH; [exact Hin|]. intros it' Hin'. apply Huniq. apply in_or_app. now left.
Qed.

Lemma idMap_lookup (l : list ShoppingItem.t) :
  forall (m : gmap string bool * gmap string Z) (it : ShoppingItem.t),
    In it l ->
    (forall it', In it' l -> ShoppingItem.is_manually_added it' = false) ->
    (forall it', In it' l -> itemKey it' = itemKey it -> it' = it) ->
    snd (fold_left recordItem l m) !! itemKey it = Some (ShoppingItem.id it).
Proof.
  induction l as [|a l IH] using rev_ind; intros m it Hin Hgen Huniq; [destruct Hin|].
  rewrite lookupMaps_snoc. unfold recordItem at 1. cbn [snd].
  rewrite (Hgen a) by (apply in_or_app; right; now left).
  destruct (String.eqb (itemKey a) (itemKey it)) eqn:Hk.
  - apply String.eqb_eq in Hk.
    assert (a = it) as -> by (apply Huniq; [apply in_or_app; right; now left | exact Hk]).
    apply lookup_insert_eq.
  - apply String.eqb_neq in Hk. rewrite lookup_insert_ne by exact Hk.
    apply in_app_or in Hin as [Hin | [-> | []]]; [|congruence].
    apply IH; [exact Hin | |].
    + intros it' Hin'. apply Hgen. apply in_or_app. now left.
    + intros it' Hin'. apply Huniq. apply in_or_app. now left.
Qed.

Lemma NoDup_fst_unique {V : Type} (m : list (string * V)) (k : string) (v v' : V) :
  List.NoDup (List.map fst m) -> In (k, v) m -> In (k, v') m -> v = v'.
Proof.
  induction m as [|[k0 v0] m IH]; simpl; [tauto|].
  intros Hnd. inversion Hnd as [|? ? Hnot Hnd']; subst.
  intros [H1 | Hin] [H2 | Hin'].
  - congruence.
  - injection H1 as -> ->. exfalso. apply Hnot. change k with (fst (k, v')). now apply in_map.
  - injection H2 as -> ->. exfalso. apply Hnot. change k with (fst (k, v)). now apply in_map.
  - now apply IH.
Qed.

(** The lines of one pass: distinct keys, each line under its own key. *)
Lemma generate_keys now sm im recipes staples plan :
  List.NoDup (List.map fst (generatedMap (generate now sm im recipes staples plan)))
  /\ forall k it, In (k, it) (generatedMap (generate now sm im recipes staples plan)) ->
                  itemKey it = k.
Proof.
  destruct (accounted_generate now sm im recipes staples plan) as (Hnd & Hent & _ & _).
  split.
  - unfold erase in Hnd. now rewrite List.map_map in Hnd.
  - intros k it Hin. apply (Hent k (ShoppingItem.base it)).
    unfold erase. apply in_map_iff. exists (k, it). auto.
Qed.

Lemma generatedItems_unique now currentList plan recipes staples g g' :
  In g (generatedItems now currentList plan recipes staples) ->
  In g' (generatedItems now currentList plan recipes staples) ->
  itemKey g = itemKey g' -> g = g'.
Proof.
  unfold generatedItems. intros Hg Hg' Hk.
  apply in_map_iff in Hg as ([k it] & <- & Hin).
  apply in_map_iff in Hg' as ([k' it'] & <- & Hin'). simpl in *.
  destruct (generate_keys now (statusMapOf currentList) (idMapOf currentList)
                          recipes staples plan) as [Hnd Hkey].
  pose proof (Hkey _ _ Hin) as H1. pose proof (Hkey _ _ Hin') as H2.
  assert (Hkk : k' = k) by congruence. rewrite Hkk in Hin'.
  exact (NoDup_fst_unique _ k it it' Hnd Hin Hin').
Qed.

(** The generated lines of a second pass over the output of a first one. *)
Lemma generatedItems_idem now1 now2 currentList plan recipes staples :
  generatedItems now2 (mergeShoppingList now1 currentList plan recipes staples)
                 plan recipes staples
  = generatedItems now1 currentList plan recipes staples.
Proof.
  unfold generatedItems. f_equal. rewrite !generate_events.
  apply lockstep; [reflexivity|].
  rewrite <- generate_events. intros k it Hin.
  assert (Hit : In it (generatedItems now1 currentList plan recipes staples)).
  { unfold generatedItems. apply in_map_iff. exists (k, it). auto. }
  destruct (generate_keys now1 (statusMapOf currentList) (idMapOf currentList)
                          recipes staples plan) as [_ Hkey].
  rewrite <- (Hkey _ _ Hin).
  destruct (generatedItems_fresh _ _ _ _ _ _ Hit) as [_ Hnz].
  unfold statusMapOf, idMapOf, lookupMaps, mergeShoppingList. rewrite fold_left_app.
  split; [|split; [|exact Hnz]].
  - rewrite statusMap_lookup; [reflexivity | exact Hit|].
    intros it' Hin' Hk. symmetry in Hk. symmetry.
    eapply generatedItems_unique; eauto.
  - apply idMap_lookup; [exact Hit | |].
    + intros it' Hin'. now apply generatedItems_fresh in Hin'.
    + intros it' Hin' Hk. symmetry in Hk. symmetry.
      eapply generatedItems_unique; eauto.
Qed.

End Aggregation.

(** ** The plan generator *)

Section Generator.
Import PlannerApp.







Lemma hd_error_In {A : Type} (l : list A) (x : A) : hd_error l = Some x -> In x l.
Proof. destruct l; simpl; [discriminate | intros [= ->]; now left]. Qed.












End Generator.

(** ** The properties of the specification *)

Section Properties.
Import MockData.

(** Every line in the generated part of the output of [mergeShoppingList]
    carries the sum of the contributions to its joined key. *)
Lemma generated_quantity now currentList plan recipes staples line :
  In line (generatedItems now currentList plan recipes staples) ->
  (ShoppingItem.quantity line
   == Spec.totalFor (itemKey line) (Spec.planContributions recipes staples plan))%Q.
Proof.
  intros Hin. apply generatedItems_key in Hin.
  destruct (accounted_generate now (statusMapOf currentList) (idMapOf currentList)
                               recipes staples plan) as (_ & Hent & _ & _).
  destruct (Hent _ _ Hin) as [_ Hq]. exact Hq.
Qed.

(** C1 (conservation) fails where two pairs of name and unit are joined to
    the same string.  The recipe has one [coca] in the unit [cola-can] and
    two [coca-cola] in the unit [can], the plan cooks it once for its
    default servings, nothing is a staple.  The specification asks for the
    line of [(coca, cola-can)] with 1 and the line of [(coca-cola, can)]
    with 2; [mergeShoppingList] returns the single line [coca], [cola-can]
    with 3. *)
Lemma hyphen_key_merges_pairs :
  (Spec.pairTotal [Cases.party] [] [Cases.partyFor4] "coca" "cola-can" == 1)%Q
  /\ (Spec.pairTotal [Cases.party] [] [Cases.partyFor4] "coca-cola" "can" == 2)%Q
  /\ exists line,
       mergeShoppingList Scenario.now77 [] [Cases.partyFor4] [Cases.party] [] = [line]
       /\ ShoppingItem.item_name line = "coca"%string
       /\ ShoppingItem.unit line = "cola-can"%string
       /\ (ShoppingItem.quantity line == 3)%Q
       /\ ~ (ShoppingItem.quantity line
             == Spec.pairTotal [Cases.party] [] [Cases.partyFor4]
                               (ShoppingItem.item_name line) (ShoppingItem.unit line))%Q.
Proof.
  split; [reflexivity|]. split; [reflexivity|].
  eexists. split; [reflexivity|]. repeat split. discriminate.
Qed.

Example scenario_A :
  mergeShoppingList Scenario.now77 [] [Scenario.roastFor8] [Scenario.roast] ["Salt"%string]
  = [Scenario.chickenLine]
  /\ (ShoppingItem.quantity Scenario.chickenLine == 1000)%Q.
Proof. split; reflexivity. Qed.


Lemma filter_manual_idem (l : list ShoppingItem.t) : manualItems (manualItems l) = manualItems l.
Proof.
  unfold manualItems. induction l as [|a l IH]; simpl; [reflexivity|].
  destruct (ShoppingItem.is_manually_added a) eqn:Ha; simpl; [|exact IH].
  now rewrite Ha, IH.
Qed.

Lemma filter_manual_none (l : list ShoppingItem.t) :
  (forall item, In item l -> ShoppingItem.is_manually_added item = false) -> manualItems l = [].
Proof.
  unfold manualItems. induction l as [|a l IH]; intros H; simpl; [reflexivity|].
  rewrite (H a) by now left. apply IH. intros item Hin. apply H. now right.
Qed.

Lemma manualItems_merge now currentList plan recipes pantryStaples :
  manualItems (mergeShoppingList now currentList plan recipes pantryStaples)
  = manualItems currentList.
Proof.
  assert (Hgen : forall item, In item (generatedItems now currentList plan recipes pantryStaples) ->
                              ShoppingItem.is_manually_added item = false).
  { intros item Hin. now apply generatedItems_fresh in Hin. }
  pose proof (filter_manual_idem currentList) as H1.
  pose proof (filter_manual_none _ Hgen) as H2.
  unfold mergeShoppingList, manualItems in *. rewrite List.filter_app, H1, H2.
  apply app_nil_r.
Qed.

(** C8 (manual preservation). Every manually added item of the input list is
    in the output with all its fields; the output is the manual items of the
    input, in their order, followed by the generated lines, which are no
    manual items and whose content is computed from the plan alone. *)
Theorem manual_preservation
    (now : nat -> positive) (currentList : list ShoppingItem.t) (plan : list MealPlanItem.t)
    (recipes : list Recipe.t) (pantryStaples : list string) :
  (forall item, In item currentList -> ShoppingItem.is_manually_added item = true ->
                In item (mergeShoppingList now currentList plan recipes pantryStaples))
  /\ manualItems (mergeShoppingList now currentList plan recipes pantryStaples)
     = manualItems currentList
  /\ exists lines,
      mergeShoppingList now currentList plan recipes pantryStaples
      = List.filter ShoppingItem.is_manually_added currentList ++ lines
      /\ Forall (fun line => ShoppingItem.is_manually_added line = false) lines
      /\ List.map ShoppingItem.base lines
         = List.map ShoppingItem.base (mergeShoppingList now [] plan recipes pantryStaples).
Proof.
  assert (Hgen : forall item, In item (generatedItems now currentList plan recipes pantryStaples) ->
                              ShoppingItem.is_manually_added item = false).
  { intros item Hin. now apply generatedItems_fresh in Hin. }
  split; [|split].
  - intros item Hin Hm. unfold mergeShoppingList. apply in_or_app. left.
    unfold manualItems. apply filter_In. auto.
  - apply manualItems_merge.
  - exists (generatedItems now currentList plan recipes pantryStaples).
    split; [reflexivity|]. split.
    + apply List.Forall_forall. exact Hgen.
    + unfold mergeShoppingList at 1. simpl. apply generatedItems_base.
Qed.

(** What the staple check does.  An ingredient counts as a staple exactly
    when the pattern of some staple matches its name; a staple ingredient
    leaves the generated lines as they are, any other one has a line under
    its key afterwards, and the output has a line for a key exactly when an
    ingredient that is no staple contributes to that key.  The check answers
    for every staple: the pattern built from a staple is always accepted
    (every syntax character is escaped), and a pattern that is not accepted
    matches nothing. *)
Lemma staple_check_characterised
    (now : nat -> positive) (statusMap : gmap string bool) (idMap : gmap string Z)
    (pantryStaples : list string) (targetRecipe : Recipe.t) (scale : Q)
    (st : Generated) (ing : Ingredient.t) :
  (isStaple pantryStaples (Ingredient.item_name ing) = true
   <-> exists staple, In staple pantryStaples
                      /\ Pattern.matches staple (Ingredient.item_name ing))
  /\ (isStaple pantryStaples (Ingredient.item_name ing) = true ->
      addIngredient now statusMap idMap pantryStaples targetRecipe scale st ing = st)
  /\ (isStaple pantryStaples (Ingredient.item_name ing) = false ->
      In (keyOf (Ingredient.item_name ing) (Ingredient.unit ing))
         (List.map fst
            (generatedMap
               (addIngredient now statusMap idMap pantryStaples targetRecipe scale st ing))))
  /\ (forall staple,
        (exists re, JS.RegExp_new (stapleSource staple) = Some re)
        /\ (stapleMatches staple (Ingredient.item_name ing) = true
            <-> Pattern.matches staple (Ingredient.item_name ing)))
  /\ (forall source, JS.RegExp_new source = None ->
                     tryTest source (Ingredient.item_name ing) = false)
  /\ (forall currentList plan recipes key,
        (exists line, In line (generatedItems now currentList plan recipes pantryStaples)
                      /\ itemKey line = key)
        <-> (exists c, In c (Spec.planContributions recipes pantryStaples plan)
                       /\ fst c = key)).
Proof.
  split; [apply isStaple_iff|]. split; [|split; [|split; [|split]]].
  - intros H. unfold addIngredient. now rewrite H.
  - intros H. unfold addIngredient. rewrite H.
    destruct (mapGet _ (generatedMap st)) as [it|] eqn:Hget; simpl.
    + rewrite mapUpdate_keys.
      apply mapGet_In in Hget. apply in_map_iff. eexists. split; [|exact Hget]. reflexivity.
    + destruct (chooseId now _ (reads st)) as [i n]. simpl.
      rewrite List.map_app. apply in_or_app. right. now left.
  - intros staple. split; [eexists; apply RegExp_new_escaped | apply stapleMatches_iff].
  - intros source H. unfold tryTest. now rewrite H.
  - intros currentList plan recipes key. split.
    + intros (line & Hin & <-). now apply (line_has_contribution now currentList).
    + intros (c & Hc & <-). now apply contribution_has_line.
Qed.

(** C7 (staple exclusion) fails for a staple that begins or ends with a
    letter outside of [A-Za-z]: [\b] sees no boundary next to it.  With the
    staple [Ägg] an ingredient named [Ägg] whole-word-matches the staple,
    and even is the staple, yet it is not left out of the list; the staple
    [ägg] does no better.  A staple with ASCII letters at both ends, such
    as [Smör], does match [SMÖR]. *)
Lemma swedish_staple_not_excluded :
  Spec.wholeWordMatch Cases.agg Cases.agg = true
  /\ Spec.matchesStaple [Cases.agg] (Ingredient.item_name Cases.eggs) = true
  /\ isStaple [Cases.agg] (Ingredient.item_name Cases.eggs) = false
  /\ isStaple [JS.toLowerCase Cases.agg] (Ingredient.item_name Cases.eggs) = false
  /\ (exists line,
        mergeShoppingList Scenario.now77 [] [Cases.omeletteFor4] [Cases.omelette] [Cases.agg]
        = [line]
        /\ ShoppingItem.item_name line = Cases.agg
        /\ (ShoppingItem.quantity line == 6)%Q)
  /\ isStaple [String "S" (String "m" (String (ascii_of_nat 246) "r"))]
              (String "S" (String "M" (String (ascii_of_nat 214) "R"))) = true.
Proof.
  split; [reflexivity|]. split; [reflexivity|]. split; [reflexivity|]. split; [reflexivity|].
  split; [|reflexivity].
  eexists. split; [reflexivity|]. split; reflexivity.
Qed.

(** A staple ingredient of a planned recipe adds nothing to the plan's
    contributions, any other one adds its scaled quantity. *)
Lemma staple_contributes_nothing recipes pantryStaples meal targetRecipe ing :
  targetOf recipes meal = Some targetRecipe ->
  In ing (Recipe.ingredients targetRecipe) ->
  (isStaple pantryStaples (Ingredient.item_name ing) = false
   <-> In (keyOf (Ingredient.item_name ing) (Ingredient.unit ing),
           (Ingredient.quantity ing * scaleOf meal targetRecipe)%Q)
          (List.map (fun i => (keyOf (Ingredient.item_name i) (Ingredient.unit i),
                               (Ingredient.quantity i * scaleOf meal targetRecipe)%Q))
                    (Spec.shopped pantryStaples targetRecipe))
      /\ In ing (Spec.shopped pantryStaples targetRecipe)).
Proof.
  intros Ht Hin. unfold Spec.shopped. split.
  - intros H. assert (Hs : In ing (List.filter
        (fun i => negb (isStaple pantryStaples (Ingredient.item_name i)))
        (Recipe.ingredients targetRecipe))).
    { apply filter_In. split; [exact Hin | now rewrite H]. }
    split; [|exact Hs]. apply in_map_iff. exists ing. auto.
  - intros [_ H]. apply filter_In in H as [_ H]. now apply negb_true_iff in H.
Qed.






(** The version selector of the detail view shows, for a version it offers,
    what the resolver of the aggregation returns. *)
Lemma handleChangeVersion_offered (recipe viewedRecipe : Recipe.t) (v : Z) :
  v <> 0 ->
  v = Recipe.version recipe
  \/ (exists h, In h (Recipe.history recipe) /\ Recipe.version h = v) ->
  RecipeDetail.handleChangeVersion recipe viewedRecipe v = resolveVersion recipe (Some v).
Proof.
  intros Hv Hoffer. unfold RecipeDetail.handleChangeVersion, resolveVersion, JS.truthyZ.
  apply Z.eqb_neq in Hv. rewrite Hv. cbn [negb andb].
  destruct (v =? Recipe.version recipe) eqn:Hcur; cbn [negb]; [reflexivity|].
  destruct (List.find _ (Recipe.history recipe)) as [h|] eqn:Hf; [reflexivity|].
  exfalso. destruct Hoffer as [-> | (h & Hin & Hh)].
  - now rewrite Z.eqb_refl in Hcur.
  - apply (find_none _ _ Hf) in Hin. apply Z.eqb_neq in Hin. contradiction.
Qed.

(** C6 (version resolution). For a pinned version [v]: the current recipe
    when [v] is the recipe's version; otherwise the history entry of version
    [v] when there is one; otherwise the current recipe.  The resolver is a
    total function: it answers for every pinned value with the recipe or with
    one of its history entries. *)
Theorem resolve_version_total (recipe : Recipe.t) (v : Z) :
  v <> 0 ->
  (v = Recipe.version recipe -> resolveVersion recipe (Some v) = recipe)
  /\ (v <> Recipe.version recipe ->
      (exists h, In h (Recipe.history recipe) /\ Recipe.version h = v) ->
      In (resolveVersion recipe (Some v)) (Recipe.history recipe)
      /\ Recipe.version (resolveVersion recipe (Some v)) = v
      /\ List.find (fun h => Recipe.version h =? v) (Recipe.history recipe)
         = Some (resolveVersion recipe (Some v)))
  /\ (v <> Recipe.version recipe ->
      (forall h, In h (Recipe.history recipe) -> Recipe.version h <> v) ->
      resolveVersion recipe (Some v) = recipe)
  /\ (forall pinned, resolveVersion recipe pinned = recipe
                     \/ In (resolveVersion recipe pinned) (Recipe.history recipe)).
Proof.
  intros Hv. unfold resolveVersion, JS.truthyZ.
  apply Z.eqb_neq in Hv. rewrite Hv. simpl.
  split; [|split; [|split]].
  - intros ->. now rewrite Z.eqb_refl.
  - intros Hne (h & Hin & Hh). apply Z.eqb_neq in Hne. rewrite Hne. simpl.
    destruct (List.find _ (Recipe.history recipe)) as [h'|] eqn:Hf.
    + apply find_some in Hf as [Hin' Hv']. apply Z.eqb_eq in Hv'. auto.
    + exfalso. apply (find_none _ _ Hf) in Hin. apply Z.eqb_neq in Hin. contradiction.
  - intros Hne Hall. apply Z.eqb_neq in Hne. rewrite Hne. simpl.
    destruct (List.find _ (Recipe.history recipe)) as [h'|] eqn:Hf; [|reflexivity].
    apply find_some in Hf as [Hin' Hv']. apply Z.eqb_eq in Hv'.
    exfalso. now apply (Hall h').
  - intros [w|]; [|now left].
    destruct (negb (w =? 0) && negb (w =? Recipe.version recipe)); [|now left].
    destruct (List.find _ (Recipe.history recipe)) as [h'|] eqn:Hf; [|now left].
    right. now apply find_some in Hf as [Hin' _].
Qed.

Lemma resolve_version_total_witness :
  1 <> 0 /\ resolveVersion Scenario.roast (Some 1) = Scenario.roast.
Proof.
  split; [discriminate|].
  destruct (resolve_version_total Scenario.roast 1) as [H _]; [discriminate|].
  apply H. reflexivity.
Defined.


(** C5 (idempotence). Aggregating the output of an aggregation again, with
    the same plan, recipes and staples, gives the same list; in particular a
    generated line of the second output has the id and the checked flag of
    the line of the first output with the same key. *)
Theorem aggregate_idempotent
    (now1 now2 : nat -> positive) (currentList : list ShoppingItem.t)
    (plan : list MealPlanItem.t) (recipes : list Recipe.t) (pantryStaples : list string) :
  mergeShoppingList now2 (mergeShoppingList now1 currentList plan recipes pantryStaples)
                    plan recipes pantryStaples
  = mergeShoppingList now1 currentList plan recipes pantryStaples
  /\ forall g1 g2,
      In g1 (generatedItems now1 currentList plan recipes pantryStaples) ->
      In g2 (generatedItems now2 (mergeShoppingList now1 currentList plan recipes pantryStaples)
                            plan recipes pantryStaples) ->
      itemKey g1 = itemKey g2 ->
      ShoppingItem.id g2 = ShoppingItem.id g1
      /\ ShoppingItem.checked g2 = ShoppingItem.checked g1.
Proof.
  split.
  - unfold mergeShoppingList at 1. rewrite generatedItems_idem.
    now rewrite manualItems_merge.
  - intros g1 g2 H1 H2 Hk. rewrite generatedItems_idem in H2.
    assert (g1 = g2) as -> by (eapply generatedItems_unique; eauto). auto.
Qed.


(** *** Recipe versioning *)

Lemma ingredientEqb_iff (a b : Ingredient.t) :
  Json.ingredientEqb a b = true <-> Spec.sameIngredient a b.
Proof.
  unfold Json.ingredientEqb, Spec.sameIngredient.
  rewrite !andb_true_iff, !String.eqb_eq, Qeq_bool_iff. tauto.
Qed.

Lemma sameIngredients_iff (l1 l2 : list Ingredient.t) :
  Json.sameIngredients l1 l2 = true <-> Spec.deepEqualIngredients l1 l2.
Proof.
  unfold Json.sameIngredients, Spec.deepEqualIngredients.
  revert l2. induction l1 as [|a l1 IH]; intros [|b l2]; simpl.
  - split; [constructor | reflexivity].
  - split; [discriminate | intros H; inversion H].
  - split; [discriminate | intros H; inversion H].
  - rewrite andb_true_iff, ingredientEqb_iff, IH. split.
    + intros [H1 H2]. now constructor.
    + intros H. inversion H; subst. auto.
Qed.

Lemma sameInstructions_iff (l1 l2 : list string) :
  Json.sameInstructions l1 l2 = true <-> l1 = l2.
Proof.
  unfold Json.sameInstructions.
  revert l2. induction l1 as [|a l1 IH]; intros [|b l2]; simpl.
  - tauto.
  - split; discriminate.
  - split; discriminate.
  - rewrite andb_true_iff, String.eqb_eq, IH. split.
    + intros [-> ->]. reflexivity.
    + intros [= -> ->]. auto.
Qed.

(** The condition of both handlers is deep inequality of the ingredients or
    of the instructions. *)
Lemma contentChanged_iff (existing updated : Recipe.t) :
  contentChanged existing updated = true
  <-> ~ Spec.deepEqualIngredients (Recipe.ingredients existing) (Recipe.ingredients updated)
      \/ Recipe.instructions existing <> Recipe.instructions updated.
Proof.
  unfold contentChanged.
  rewrite orb_true_iff, !negb_true_iff, <- !not_true_iff_false,
    sameIngredients_iff, sameInstructions_iff. tauto.
Qed.

Lemma contentChanged_false_iff (existing updated : Recipe.t) :
  contentChanged existing updated = false
  <-> Spec.deepEqualIngredients (Recipe.ingredients existing) (Recipe.ingredients updated)
      /\ Recipe.instructions existing = Recipe.instructions updated.
Proof.
  unfold contentChanged.
  rewrite orb_false_iff, !negb_false_iff, sameIngredients_iff, sameInstructions_iff. tauto.
Qed.

Lemma versionOr1_valid (r : Recipe.t) : Recipe.version r <> 0 -> versionOr1 r = Recipe.version r.
Proof.
  intros H. unfold versionOr1, JS.truthyZ. apply Z.eqb_neq in H. now rewrite H.
Qed.

(** What both handlers do on a content change. *)
Lemma versioned_on_change (existing updated : Recipe.t) :
  contentChanged existing updated = true ->
  (Recipe.version (PlannerApp.finalRecipe existing updated) = versionOr1 existing + 1
   /\ Recipe.history (PlannerApp.finalRecipe existing updated)
      = Recipe.history existing ++ [existing]
   /\ Spec.sameContent (PlannerApp.finalRecipe existing updated) updated)
  /\ (Recipe.version (SyncApp.recipeToSave existing updated) = versionOr1 existing + 1
      /\ Recipe.history (SyncApp.recipeToSave existing updated)
         = SyncApp.snapshot existing :: Recipe.history existing
      /\ Spec.sameContent (SyncApp.recipeToSave existing updated) updated).
Proof.
  intros H. unfold PlannerApp.finalRecipe, SyncApp.recipeToSave. rewrite H.
  repeat split.
Qed.

Lemma snapshot_spec (existing : Recipe.t) :
  Recipe.history (SyncApp.snapshot existing) = []
  /\ Recipe.version (SyncApp.snapshot existing) = Recipe.version existing
  /\ Spec.sameContent (SyncApp.snapshot existing) existing.
Proof. repeat split. Qed.

(** C3, as amended. When the ingredients or the instructions of the proposed
    recipe differ from the existing ones, both handlers return the proposed
    content at version [(existing.version || 1) + 1], which is
    [existing.version + 1] for every version other than 0, and add one entry
    with the content and the version of the existing recipe to its history:
    the first handler at the end, the second one, as a snapshot with an empty
    history, at the front. *)
Theorem update_bumps_version (existing proposed : Recipe.t) :
  ~ Spec.deepEqualIngredients (Recipe.ingredients existing) (Recipe.ingredients proposed)
  \/ Recipe.instructions existing <> Recipe.instructions proposed ->
  (Recipe.version (PlannerApp.finalRecipe existing proposed) = versionOr1 existing + 1
   /\ (exists entry,
         Recipe.history (PlannerApp.finalRecipe existing proposed)
         = Recipe.history existing ++ [entry]
         /\ Spec.sameContent entry existing
         /\ Recipe.version entry = Recipe.version existing)
   /\ Spec.sameContent (PlannerApp.finalRecipe existing proposed) proposed)
  /\ (Recipe.version (SyncApp.recipeToSave existing proposed) = versionOr1 existing + 1
      /\ Recipe.history (SyncApp.recipeToSave existing proposed)
         = SyncApp.snapshot existing :: Recipe.history existing
      /\ Recipe.history (SyncApp.snapshot existing) = []
      /\ Recipe.version (SyncApp.snapshot existing) = Recipe.version existing
      /\ Spec.sameContent (SyncApp.snapshot existing) existing
      /\ Spec.sameContent (SyncApp.recipeToSave existing proposed) proposed)
  /\ (Recipe.version existing <> 0 -> versionOr1 existing + 1 = Recipe.version existing + 1).
Proof.
  intros H. apply contentChanged_iff in H.
  destruct (versioned_on_change existing proposed H) as [(P1 & P2 & P3) (S1 & S2 & S3)].
  destruct (snapshot_spec existing) as (N1 & N2 & N3).
  split; [|split].
  - split; [exact P1|]. split; [|exact P3].
    exists existing. repeat split. exact P2.
  - repeat split; auto.
  - intros Hv. now rewrite versionOr1_valid.
Qed.

Lemma update_bumps_version_witness :
  (~ Spec.deepEqualIngredients (Recipe.ingredients Scenario.stew)
                               (Recipe.ingredients Scenario.stewNewIngredients)
   \/ Recipe.instructions Scenario.stew <> Recipe.instructions Scenario.stewNewIngredients)
  /\ Recipe.version (SyncApp.recipeToSave Scenario.stew Scenario.stewNewIngredients) = 3.
Proof.
  assert (H : ~ Spec.deepEqualIngredients (Recipe.ingredients Scenario.stew)
                                          (Recipe.ingredients Scenario.stewNewIngredients)
              \/ Recipe.instructions Scenario.stew
                 <> Recipe.instructions Scenario.stewNewIngredients).
  { left. intros Heq. apply sameIngredients_iff in Heq. discriminate Heq. }
  split; [exact H|].
  destruct (update_bumps_version Scenario.stew Scenario.stewNewIngredients H)
    as (_ & (Hv & _) & _).
  rewrite Hv. reflexivity.
Defined.

(** C3 as stated fails for a recipe that already has a history: the first
    handler appends the existing recipe together with its own history, the
    second one does not append its snapshot but puts it in front. *)
Lemma update_appends_stripped_snapshot_fails :
  contentChanged Scenario.stew Scenario.stewNewIngredients = true
  /\ ~ (exists snap,
         Recipe.history (PlannerApp.finalRecipe Scenario.stew Scenario.stewNewIngredients)
         = Recipe.history Scenario.stew ++ [snap]
         /\ Recipe.history snap = [])
  /\ ~ (exists snap,
         Recipe.history (SyncApp.recipeToSave Scenario.stew Scenario.stewNewIngredients)
         = Recipe.history Scenario.stew ++ [snap]
         /\ Recipe.history snap = []).
Proof.
  split; [reflexivity|]. split.
  - intros (snap & H & Hs). cbn in H. injection H as <-. discriminate Hs.
  - intros (snap & H & _). cbn in H. injection H as H _. discriminate H.
Qed.

(** C4, as amended. An edit of the instructions alone is a content change
    like an edit of the ingredients: in both cases both handlers increment
    the version by one and add exactly one history entry with the content of
    the recipe before the edit; only when ingredients and instructions are
    both deep-equal is the proposed recipe stored as it is. *)
Theorem update_on_instructions_or_ingredients (existing proposed : Recipe.t) :
  (Recipe.instructions existing <> Recipe.instructions proposed
   \/ ~ Spec.deepEqualIngredients (Recipe.ingredients existing) (Recipe.ingredients proposed) ->
   (Recipe.version (PlannerApp.finalRecipe existing proposed) = versionOr1 existing + 1
    /\ exists entry,
        Recipe.history (PlannerApp.finalRecipe existing proposed)
        = Recipe.history existing ++ [entry]
        /\ Spec.sameContent entry existing
        /\ Recipe.version entry = Recipe.version existing)
   /\ (Recipe.version (SyncApp.recipeToSave existing proposed) = versionOr1 existing + 1
       /\ exists entry,
           Recipe.history (SyncApp.recipeToSave existing proposed)
           = entry :: Recipe.history existing
           /\ Spec.sameContent entry existing
           /\ Recipe.version entry = Recipe.version existing
           /\ Recipe.history entry = []))
  /\ (Recipe.instructions existing = Recipe.instructions proposed ->
      Spec.deepEqualIngredients (Recipe.ingredients existing) (Recipe.ingredients proposed) ->
      PlannerApp.finalRecipe existing proposed = proposed
      /\ SyncApp.recipeToSave existing proposed = proposed)
  /\ (Recipe.version existing <> 0 -> versionOr1 existing + 1 = Recipe.version existing + 1).
Proof.
  split; [|split; [|intros Hv; now rewrite versionOr1_valid]].
  - intros H. assert (Hc : contentChanged existing proposed = true).
    { apply contentChanged_iff. tauto. }
    destruct (versioned_on_change existing proposed Hc) as [(P1 & P2 & _) (S1 & S2 & _)].
    split; (split; [assumption|]).
    + exists existing. repeat split. exact P2.
    + exists (SyncApp.snapshot existing). repeat split. exact S2.
  - intros Hi Hg. assert (Hc : contentChanged existing proposed = false).
    { apply contentChanged_false_iff. auto. }
    unfold PlannerApp.finalRecipe, SyncApp.recipeToSave. rewrite Hc. auto.
Qed.

(** C4 as stated fails: an edit that changes the instructions and leaves the
    ingredients as they are changes version and history in both handlers. *)
Lemma instructions_only_edit_bumps :
  Spec.deepEqualIngredients (Recipe.ingredients Scenario.stew)
                            (Recipe.ingredients Scenario.stewNewSteps)
  /\ Recipe.instructions Scenario.stew <> Recipe.instructions Scenario.stewNewSteps
  /\ ~ (Recipe.version (PlannerApp.finalRecipe Scenario.stew Scenario.stewNewSteps)
        = Recipe.version Scenario.stew
        /\ Recipe.history (PlannerApp.finalRecipe Scenario.stew Scenario.stewNewSteps)
           = Recipe.history Scenario.stew)
  /\ ~ (Recipe.version (SyncApp.recipeToSave Scenario.stew Scenario.stewNewSteps)
        = Recipe.version Scenario.stew
        /\ Recipe.history (SyncApp.recipeToSave Scenario.stew Scenario.stewNewSteps)
           = Recipe.history Scenario.stew).
Proof.
  split; [apply sameIngredients_iff; reflexivity|].
  split; [discriminate|].
  split; intros [H _]; discriminate H.
Qed.


(** *** Version pinning *)

Lemma find_replaced (recipes : list Recipe.t) (rid : Z) (existing final : Recipe.t) :
  Recipe.id final = rid ->
  List.find (fun r => Recipe.id r =? rid) recipes = Some existing ->
  List.find (fun r => Recipe.id r =? rid)
            (List.map (fun r => if Recipe.id r =? rid then final else r) recipes)
  = Some final.
Proof.
  intros Hid. induction recipes as [|r recipes IH]; simpl; [discriminate|].
  destruct (Recipe.id r =? rid) eqn:Hr.
  - intros _. now rewrite Hid, Z.eqb_refl.
  - rewrite Hr. exact IH.
Qed.

(** After a content change, a version that the recipe had before the edit
    resolves to the same content as before, up to the stored history. *)
Lemma resolve_after_change (existing updated : Recipe.t) (v : Z) :
  contentChanged existing updated = true ->
  v <> 0 ->
  v = Recipe.version existing
  \/ (v < Recipe.version existing
      /\ exists h, In h (Recipe.history existing) /\ Recipe.version h = v) ->
  resolveVersion (SyncApp.recipeToSave existing updated) (Some v)
  = resolveVersion existing (Some v)
  \/ resolveVersion (SyncApp.recipeToSave existing updated) (Some v)
     = SyncApp.snapshot (resolveVersion existing (Some v)).
Proof.
  intros Hc Hv Hcase. unfold SyncApp.recipeToSave. rewrite Hc.
  unfold resolveVersion, JS.truthyZ. cbn [Recipe.version Recipe.history withVersionHistory].
  apply Z.eqb_neq in Hv. rewrite Hv. cbn [negb andb].
  assert (Hnew : (v =? versionOr1 existing + 1) = false).
  { apply Z.eqb_neq. apply Z.eqb_neq in Hv. unfold versionOr1, JS.truthyZ.
    destruct (Recipe.version existing =? 0) eqn:H0; simpl.
    - apply Z.eqb_eq in H0. lia.
    - lia. }
  rewrite Hnew. cbn [negb List.find].
  change (Recipe.version (SyncApp.snapshot existing)) with (Recipe.version existing).
  destruct Hcase as [-> | [Hlt (h0 & Hin & Hh)]].
  - rewrite Z.eqb_refl. right. reflexivity.
  - assert (Hne : (v =? Recipe.version existing) = false) by (apply Z.eqb_neq; lia).
    assert (Hne' : (Recipe.version existing =? v) = false) by (apply Z.eqb_neq; lia).
    rewrite Hne, Hne'. cbn [negb].
    destruct (List.find _ (Recipe.history existing)) as [h|] eqn:Hf; [now left|].
    exfalso.
    apply (find_none _ _ Hf) in Hin. apply Z.eqb_neq in Hin. contradiction.
Qed.

(** The pinned version is an earlier version of the saved recipe, so the next
    edit finds it in the same way. *)
Lemma pin_stays_resolvable (existing updated : Recipe.t) (v : Z) :
  contentChanged existing updated = true ->
  v <> 0 ->
  v = Recipe.version existing
  \/ (v < Recipe.version existing
      /\ exists h, In h (Recipe.history existing) /\ Recipe.version h = v) ->
  v < Recipe.version (SyncApp.recipeToSave existing updated)
  /\ exists h, In h (Recipe.history (SyncApp.recipeToSave existing updated))
               /\ Recipe.version h = v.
Proof.
  intros Hc Hv Hcase. unfold SyncApp.recipeToSave. rewrite Hc.
  cbn [Recipe.version Recipe.history withVersionHistory]. split.
  - unfold versionOr1, JS.truthyZ.
    destruct (Recipe.version existing =? 0) eqn:H0; simpl.
    + apply Z.eqb_eq in H0. lia.
    + lia.
  - destruct Hcase as [-> | [_ (h & Hin & Hh)]].
    + exists (SyncApp.snapshot existing). split; [now left | reflexivity].
    + exists h. split; [now right | exact Hh].
Qed.

(** C2 (version pinning). Let a plan item be pinned to a version the recipe
    has before an edit: its current version, or an earlier one kept in its
    history.  After an edit of the ingredients through the versioning update
    the plan item adds the same keys and quantities to the aggregate as
    before, the step of the aggregation for it is the same function, and the
    pinned version is an earlier version kept in the history of the saved
    recipe, so that the same holds for every later edit. *)
Theorem pinned_contribution_unchanged
    (now : nat -> positive) (today : Z) (shoppingList : list ShoppingItem.t)
    (plan : list MealPlanItem.t) (pantryStaples : list string)
    (recipes : list Recipe.t) (existing updatedRecipe : Recipe.t)
    (meal : MealPlanItem.t) (v : Z) :
  List.find (fun r => Recipe.id r =? Recipe.id updatedRecipe) recipes = Some existing ->
  ~ Spec.deepEqualIngredients (Recipe.ingredients existing) (Recipe.ingredients updatedRecipe) ->
  MealPlanItem.recipe_id meal = Recipe.id existing ->
  MealPlanItem.recipe_version meal = Some v ->
  v <> 0 ->
  v = Recipe.version existing
  \/ (v < Recipe.version existing
      /\ exists h, In h (Recipe.history existing) /\ Recipe.version h = v) ->
  Spec.mealContribution
    (snd (fst (SyncApp.handleUpdateRecipe now today shoppingList plan pantryStaples
                                          recipes updatedRecipe)))
    pantryStaples meal
  = Spec.mealContribution recipes pantryStaples meal
  /\ (forall now' statusMap idMap st,
      addMeal now' statusMap idMap
              (snd (fst (SyncApp.handleUpdateRecipe now today shoppingList plan pantryStaples
                                                    recipes updatedRecipe)))
              pantryStaples st meal
      = addMeal now' statusMap idMap recipes pantryStaples st meal)
  /\ (v < Recipe.version
             (fst (fst (SyncApp.handleUpdateRecipe now today shoppingList plan pantryStaples
                                                   recipes updatedRecipe)))
      /\ exists h,
          In h (Recipe.history
                  (fst (fst (SyncApp.handleUpdateRecipe now today shoppingList plan
                                                        pantryStaples recipes updatedRecipe))))
          /\ Recipe.version h = v).
Proof.
  intros Hfind Hdiff Hrid Hpin Hv Hcase.
  assert (Hc : contentChanged existing updatedRecipe = true).
  { apply contentChanged_iff. now left. }
  assert (Hid : Recipe.id existing = Recipe.id updatedRecipe).
  { apply find_some in Hfind as [_ H]. now apply Z.eqb_eq in H. }
  assert (Hsave : Recipe.id (SyncApp.recipeToSave existing updatedRecipe) = Recipe.id updatedRecipe).
  { unfold SyncApp.recipeToSave. now rewrite Hc. }
  unfold SyncApp.handleUpdateRecipe. cbn [fst snd]. rewrite Hfind, Hsave.
  assert (Hbefore : targetOf recipes meal = Some (resolveVersion existing (Some v))).
  { unfold targetOf, findRecipe. now rewrite Hrid, Hid, Hfind, Hpin. }
  assert (Hafter : targetOf (List.map (fun r => if Recipe.id r =? Recipe.id updatedRecipe
                                                then SyncApp.recipeToSave existing updatedRecipe
                                                else r) recipes) meal
                   = Some (resolveVersion (SyncApp.recipeToSave existing updatedRecipe) (Some v))).
  { unfold targetOf, findRecipe. rewrite Hrid, Hid.
    rewrite (find_replaced recipes _ existing _ Hsave Hfind). now rewrite Hpin. }
  split; [|split; [|exact (pin_stays_resolvable existing updatedRecipe v Hc Hv Hcase)]].
  - unfold Spec.mealContribution. rewrite Hafter, Hbefore.
    destruct (resolve_after_change existing updatedRecipe v Hc Hv Hcase) as [Hr | Hr];
      rewrite Hr; reflexivity.
  - intros now' statusMap idMap st. unfold addMeal. rewrite Hafter, Hbefore.
    destruct (resolve_after_change existing updatedRecipe v Hc Hv Hcase) as [Hr | Hr];
      rewrite Hr; reflexivity.
Qed.

Lemma pinned_contribution_unchanged_witness :
  Spec.mealContribution
    (snd (fst (SyncApp.handleUpdateRecipe Scenario.now77 0 [] [Scenario.stewPinned] []
                                          [Scenario.stew] Scenario.stewNewIngredients)))
    [] Scenario.stewPinned
  = Spec.mealContribution [Scenario.stew] [] Scenario.stewPinned.
Proof.
  apply (pinned_contribution_unchanged Scenario.now77 0 [] [Scenario.stewPinned] []
           [Scenario.stew] Scenario.stew Scenario.stewNewIngredients Scenario.stewPinned 2).
  - reflexivity.
  - intros Heq. apply sameIngredients_iff in Heq. discriminate Heq.
  - reflexivity.
  - reflexivity.
  - discriminate.
  - left. reflexivity.
Defined.




End Properties.

(** ** Further properties of the plan generator *)

Section GeneratorProperties.
Import PlannerApp.

Lemma insertScored_In (x y : Scored) (l : list Scored) :
  In y (insertScored x l) <-> y = x \/ In y l.
Proof.
  induction l as [|z l IH]; simpl; [intuition congruence|].
  destruct (Qlt_le_dec (score x) (score z)); simpl; [rewrite IH|]; intuition congruence.
Qed.

Lemma sortScored_In (y : Scored) (l : list Scored) : In y (sortScored l) <-> In y l.
Proof.
  induction l as [|x l IH]; simpl; [tauto|].
  rewrite insertScored_In, IH. intuition congruence.
Qed.

Lemma scoreAll_In random newPlan dateStr (rs : list Recipe.t) :
  forall n s, In s (scoreAll random newPlan dateStr rs n) ->
              exists r, In r rs /\ id s = Recipe.id r.
Proof.
  induction rs as [|r rs IH]; intros n s; simpl; [tauto|].
  intros [<- | Hin].
  - exists r. split; [now left | reflexivity].
  - destruct (IH _ _ Hin) as (r' & Hr' & Hid). exists r'. split; [now right | exact Hid].
Qed.

(** For a catalog that is not empty the selection finds a recipe of the
    catalog: the first one that carries the id of the best score. *)
Lemma selectRecipe_some random (recipes : list Recipe.t) newPlan dateStr n :
  recipes <> [] ->
  exists r, selectRecipe random recipes newPlan dateStr n = Some r
            /\ In r recipes
            /\ List.find (fun x => Recipe.id x =? Recipe.id r) recipes = Some r.
Proof.
  intros Hne. unfold selectRecipe.
  destruct (sortScored (scoreAll random newPlan dateStr recipes n)) as [|best rest] eqn:Hs.
  - exfalso. destruct recipes as [|r rs]; [congruence|].
    assert (Hin : In (scoreRecipe newPlan dateStr r (random n))
                     (sortScored (scoreAll random newPlan dateStr (r :: rs) n))).
    { apply sortScored_In. now left. }
    rewrite Hs in Hin. destruct Hin.
  - assert (Hin : In best (scoreAll random newPlan dateStr recipes n)).
    { apply sortScored_In. rewrite Hs. now left. }
    apply scoreAll_In in Hin as (r0 & Hr0 & Hid).
    destruct (List.find (fun x => Recipe.id x =? id best) recipes) as [r|] eqn:Hf.
    + exists r. split; [reflexivity|]. pose proof Hf as Hf'.
      apply find_some in Hf' as [Hin Heq]. apply Z.eqb_eq in Heq.
      split; [exact Hin|]. now rewrite Heq.
    + exfalso. apply (find_none _ _ Hf) in Hr0. apply Z.eqb_neq in Hr0. congruence.
Qed.

Lemma selectRecipe_found random (recipes : list Recipe.t) newPlan dateStr n r :
  selectRecipe random recipes newPlan dateStr n = Some r ->
  In r recipes /\ List.find (fun x => Recipe.id x =? Recipe.id r) recipes = Some r.
Proof.
  unfold selectRecipe.
  destruct (sortScored _) as [|best rest]; [discriminate|].
  intros Hf. pose proof Hf as Hf'. apply find_some in Hf' as [Hin Heq].
  apply Z.eqb_eq in Heq. split; [exact Hin|]. now rewrite Heq.
Qed.

Lemma generateDay_cases random dateNow recipes todayStr start newPlan n i :
  fst (generateDay random dateNow recipes todayStr start (newPlan, n) i) = newPlan
  \/ exists p, fst (generateDay random dateNow recipes todayStr start (newPlan, n) i)
               = newPlan ++ [p]
               /\ generatedFor recipes todayStr start [i] newPlan p.
Proof.
  unfold generateDay.
  destruct (start + Z.of_nat i <? todayStr) eqn:Hpast; [now left|].
  destruct (existsb _ newPlan) eqn:Hbusy; [now left|].
  destruct (0 <? length recipes)%nat; [|now left].
  destruct (selectRecipe random recipes newPlan (start + Z.of_nat i) n) as [r|] eqn:Hsel;
    [|now left].
  right. eexists. split; [reflexivity|].
  apply selectRecipe_found in Hsel as [Hin Hf].
  unfold generatedFor. cbn.
  split; [exists i; split; [now left | reflexivity]|].
  split; [apply Z.ltb_ge in Hpast; lia|].
  split.
  { intros q Hq Heq. apply not_true_iff_false in Hbusy. apply Hbusy.
    apply existsb_exists. exists q. split; [exact Hq | now apply Z.eqb_eq]. }
  split; [reflexivity|]. split; [reflexivity|].
  exists r. auto.
Qed.

Lemma generate_fold random dateNow recipes todayStr start (offsets : list nat) :
  forall st,
  exists added,
    fst (fold_left (generateDay random dateNow recipes todayStr start) offsets st)
    = fst st ++ added
    /\ (length added <= length offsets)%nat
    /\ List.NoDup (List.map MealPlanItem.date added)
    /\ forall p, In p added -> generatedFor recipes todayStr start offsets (fst st) p.
Proof.
  induction offsets as [|i offsets IH]; intros [newPlan n]; cbn [fold_left fst].
  - exists []. rewrite app_nil_r. split; [reflexivity|]. split; [simpl; lia|].
    split; [apply List.NoDup_nil | intros p []].
  - pose proof (generateDay_cases random dateNow recipes todayStr start newPlan n i) as Hc.
    destruct (generateDay random dateNow recipes todayStr start (newPlan, n) i) as [plan1 n1].
    destruct (IH (plan1, n1)) as (added & Heq & Hlen & Hnd & Hall). simpl in *.
    destruct Hc as [-> | (p & -> & Hp)].
    + exists added. split; [exact Heq|]. split; [lia|]. split; [exact Hnd|].
      intros q Hq. destruct (Hall q Hq) as ((j & Hj & Hdate) & H2 & H3 & H4).
      split; [exists j; split; [now right | exact Hdate]|]. auto.
    + exists (p :: added). split; [now rewrite Heq, <- app_assoc|]. split; [simpl; lia|].
      split.
      * simpl. apply List.NoDup_cons; [|exact Hnd].
        intros Hin. apply in_map_iff in Hin as (q & Hdq & Hq).
        destruct (Hall q Hq) as (_ & _ & Hfree & _).
        apply (Hfree p); [apply in_or_app; right; now left | now symmetry].
      * intros q [<- | Hq].
        -- destruct Hp as ((j & Hj & Hdate) & H2 & H3 & H4).
           destruct Hj as [<- | []].
           split; [exists i; split; [now left | exact Hdate]|]. auto.
        -- destruct (Hall q Hq) as ((j & Hj & Hdate) & H2 & H3 & H4).
           split; [exists j; split; [now right | exact Hdate]|].
           split; [exact H2|]. split; [|exact H4].
           intros q' Hq'. apply H3. apply in_or_app. now left.
Qed.

(** X1. [handleGeneratePlan] only appends: the plan it was given is a prefix
    of its result.  It appends at most seven items, on pairwise different
    days of the window [start .. start + 6] that are not in the past and had
    no meal before; each new item is unrated and uncooked and is pinned to
    the current version and the default servings of the catalog recipe its
    [recipe_id] resolves to.  A plan with at most one meal per day keeps
    that property. *)
Theorem generator_extends_plan
    (random : nat -> Q) (dateNow : nat -> Z) (recipes : list Recipe.t) (todayStr : Z)
    (plan : list MealPlanItem.t) (start : Z) :
  exists added,
    handleGeneratePlan random dateNow recipes todayStr plan start = plan ++ added
    /\ (length added <= 7)%nat
    /\ List.NoDup (List.map MealPlanItem.date added)
    /\ (forall p, In p added ->
          start <= MealPlanItem.date p < start + 7
          /\ todayStr <= MealPlanItem.date p
          /\ (forall q, In q plan -> MealPlanItem.date q <> MealPlanItem.date p)
          /\ MealPlanItem.rating p = None
          /\ MealPlanItem.is_cooked p = false
          /\ exists r,
              In r recipes
              /\ List.find (fun x => Recipe.id x =? MealPlanItem.recipe_id p) recipes = Some r
              /\ MealPlanItem.recipe_version p = Some (Recipe.version r)
              /\ MealPlanItem.servings p = Some (Recipe.servings_default r))
    /\ (List.NoDup (List.map MealPlanItem.date plan) ->
        List.NoDup (List.map MealPlanItem.date (plan ++ added))).
Proof.
  unfold handleGeneratePlan.
  destruct (generate_fold random dateNow recipes todayStr start (seq 0 7) (plan, 0%nat))
    as (added & Heq & Hlen & Hnd & Hall).
  exists added. simpl in Heq, Hlen. split; [exact Heq|]. split; [exact Hlen|].
  split; [exact Hnd|]. split.
  - intros p Hp. destruct (Hall p Hp) as ((i & Hi & Hdate) & H2 & H3 & H4).
    split; [|auto]. apply in_seq in Hi. lia.
  - intros Hplan. rewrite List.map_app. apply List.NoDup_app; [exact Hplan | exact Hnd|].
    intros d Hd Hd'. apply in_map_iff in Hd as (q & <- & Hq).
    apply in_map_iff in Hd' as (p & Hpd & Hp).
    destruct (Hall p Hp) as (_ & _ & Hfree & _). now apply (Hfree q).
Qed.

Lemma generator_extends_plan_witness :
  exists added,
    handleGeneratePlan Scenario.halves (fun _ => 0) [Scenario.roast] 0 [Scenario.roastFor8] 0
    = [Scenario.roastFor8] ++ added
    /\ List.NoDup (List.map MealPlanItem.date ([Scenario.roastFor8] ++ added)).
Proof.
  destruct (generator_extends_plan Scenario.halves (fun _ => 0) [Scenario.roast] 0
                                   [Scenario.roastFor8] 0)
    as (added & Heq & _ & _ & _ & Hnd).
  exists added. split; [exact Heq|]. apply Hnd. cbn. constructor; [intros [] | constructor].
Defined.

Lemma generateDayAt_prefix random dateNow recipes todayStr dateStrOf st i :
  exists more,
    fst (generateDayAt random dateNow recipes todayStr dateStrOf st i) = fst st ++ more.
Proof.
  destruct st as [newPlan n]. unfold generateDayAt. cbn [fst].
  destruct (dateStrOf i <? todayStr); [exists []; now rewrite app_nil_r|].
  destruct (existsb _ newPlan); [exists []; now rewrite app_nil_r|].
  destruct (0 <? length recipes)%nat; [|exists []; now rewrite app_nil_r].
  destruct (selectRecipe random recipes newPlan (dateStrOf i) n) as [r|]; cbn [fst].
  - eexists. reflexivity.
  - exists []. now rewrite app_nil_r.
Qed.

Lemma generateAt_fold_prefix random dateNow recipes todayStr dateStrOf (offsets : list nat) :
  forall st, exists more,
    fst (fold_left (generateDayAt random dateNow recipes todayStr dateStrOf) offsets st)
    = fst st ++ more.
Proof.
  induction offsets as [|i offsets IH]; intros st; cbn [fold_left].
  - exists []. now rewrite app_nil_r.
  - destruct (IH (generateDayAt random dateNow recipes todayStr dateStrOf st i)) as (more & ->).
    destruct (generateDayAt_prefix random dateNow recipes todayStr dateStrOf st i) as (m1 & ->).
    exists (m1 ++ more). now rewrite app_assoc.
Qed.

(** After its turn a candidate date that is not in the past has a meal. *)
Lemma generateDayAt_fills random dateNow recipes todayStr dateStrOf st i :
  recipes <> [] ->
  todayStr <= dateStrOf i ->
  exists p, In p (fst (generateDayAt random dateNow recipes todayStr dateStrOf st i))
            /\ MealPlanItem.date p = dateStrOf i.
Proof.
  intros Hne Htoday. destruct st as [newPlan n]. unfold generateDayAt.
  assert (Hpast : (dateStrOf i <? todayStr) = false) by (apply Z.ltb_ge; lia).
  rewrite Hpast.
  destruct (existsb _ newPlan) eqn:Hbusy.
  - apply existsb_exists in Hbusy as (p & Hp & Heq). apply Z.eqb_eq in Heq.
    exists p. auto.
  - assert (Hlen : (0 <? length recipes)%nat = true).
    { apply Nat.ltb_lt. destruct recipes; [congruence | simpl; lia]. }
    rewrite Hlen.
    destruct (selectRecipe_some random recipes newPlan (dateStrOf i) n Hne)
      as (r & -> & _).
    eexists. split; [apply in_or_app; right; now left | reflexivity].
Qed.

Lemma generateAt_fold_fills random dateNow recipes todayStr dateStrOf (offsets : list nat) :
  recipes <> [] ->
  forall st i,
    In i offsets ->
    todayStr <= dateStrOf i ->
    exists p,
      In p (fst (fold_left (generateDayAt random dateNow recipes todayStr dateStrOf) offsets st))
      /\ MealPlanItem.date p = dateStrOf i.
Proof.
  intros Hne. induction offsets as [|j offsets IH]; intros st i Hi Htoday; [destruct Hi|].
  cbn [fold_left]. destruct Hi as [-> | Hi].
  - destruct (generateDayAt_fills random dateNow recipes todayStr dateStrOf st i Hne Htoday)
      as (p & Hp & Hdate).
    destruct (generateAt_fold_prefix random dateNow recipes todayStr dateStrOf offsets
                (generateDayAt random dateNow recipes todayStr dateStrOf st i)) as (more & ->).
    exists p. split; [apply in_or_app; now left | exact Hdate].
  - now apply IH.
Qed.

(** X2. With a catalog that is not empty, every candidate date of the seven
    turns of [handleGeneratePlan] that is not in the past has a meal
    afterwards, whatever dates the date arithmetic of the turns gives; with
    an empty catalog the plan comes back as it is.  In a week in which the
    candidate dates are [start .. start + 6], every day of that window that
    is not in the past has a meal. *)
Theorem generator_fills_window
    (random : nat -> Q) (dateNow : nat -> Z) (recipes : list Recipe.t) (todayStr : Z)
    (plan : list MealPlanItem.t) (dateStrOf : nat -> Z) (start : Z) :
  (recipes <> [] ->
   forall i, (i < 7)%nat -> todayStr <= dateStrOf i ->
             exists p, In p (handleGeneratePlanAt random dateNow recipes todayStr dateStrOf plan)
                       /\ MealPlanItem.date p = dateStrOf i)
  /\ (recipes = [] -> handleGeneratePlanAt random dateNow recipes todayStr dateStrOf plan = plan)
  /\ handleGeneratePlan random dateNow recipes todayStr plan start
     = handleGeneratePlanAt random dateNow recipes todayStr (fun i => start + Z.of_nat i) plan
  /\ (recipes <> [] ->
      (forall i, (i < 7)%nat -> dateStrOf i = start + Z.of_nat i) ->
      forall d, start <= d < start + 7 -> todayStr <= d ->
                exists p, In p (handleGeneratePlanAt random dateNow recipes todayStr dateStrOf plan)
                          /\ MealPlanItem.date p = d).
Proof.
  assert (Hfill : recipes <> [] ->
            forall i, (i < 7)%nat -> todayStr <= dateStrOf i ->
            exists p, In p (handleGeneratePlanAt random dateNow recipes todayStr dateStrOf plan)
                      /\ MealPlanItem.date p = dateStrOf i).
  { intros Hne i Hi Htoday. unfold handleGeneratePlanAt.
    apply generateAt_fold_fills; [exact Hne | apply in_seq; lia | exact Htoday]. }
  split; [exact Hfill|]. split; [|split; [reflexivity|]].
  - intros ->. unfold handleGeneratePlanAt.
    assert (H : forall offsets st,
               fold_left (generateDayAt random dateNow [] todayStr dateStrOf) offsets st = st).
    { induction offsets as [|i offsets IH]; intros [newPlan n];
        cbn [fold_left]; [reflexivity|].
      assert (Hday : generateDayAt random dateNow [] todayStr dateStrOf (newPlan, n) i
                     = (newPlan, n)).
      { unfold generateDayAt.
        destruct (dateStrOf i <? todayStr); [reflexivity|].
        destruct (existsb _ newPlan); reflexivity. }
      rewrite Hday. apply IH. }
    now rewrite H.
  - intros Hne Hdates d Hd Htoday.
    assert (Hi : (Z.to_nat (d - start) < 7)%nat) by lia.
    destruct (Hfill Hne (Z.to_nat (d - start)) Hi) as (p & Hp & Hdate).
    + rewrite (Hdates _ Hi). lia.
    + exists p. split; [exact Hp|]. rewrite Hdate, (Hdates _ Hi). lia.
Qed.

(** A week in which the clocks go forward: the third and the fourth turn
    compute the same date. *)
Lemma generator_fills_window_witness :
  exists p,
    In p (handleGeneratePlanAt Scenario.halves (fun _ => 0) [Scenario.roast] 0
            (fun i => if (i <? 3)%nat then Z.of_nat i else Z.of_nat i - 1) [])
    /\ MealPlanItem.date p = 5.
Proof.
  destruct (generator_fills_window Scenario.halves (fun _ => 0) [Scenario.roast] 0 []
              (fun i => if (i <? 3)%nat then Z.of_nat i else Z.of_nat i - 1) 0)
    as [Hfill _].
  apply (Hfill ltac:(discriminate) 6%nat); [lia | simpl; lia].
Defined.

End GeneratorProperties.

(** ** Further properties of the aggregation *)

Section AggregationProperties.
Import MockData Trace.

(** The status map answers with the last item of the list that has the key. *)
Lemma lookupMaps_status (l : list ShoppingItem.t) :
  forall (m : gmap string bool * gmap string Z) (k : string),
    fst (fold_left recordItem l m) !! k
    = match List.find (fun it => String.eqb (itemKey it) k) (rev l) with
      | Some it => Some (ShoppingItem.checked it)
      | None => fst m !! k
      end.
Proof.
  induction l as [|a l IH] using rev_ind; intros m k; [reflexivity|].
  rewrite lookupMaps_snoc, rev_app_distr. unfold recordItem at 1. cbn [fst rev app List.find].
  destruct (String.eqb (itemKey a) k) eqn:Hk.
  - apply String.eqb_eq in Hk. subst k. apply lookup_insert_eq.
  - apply String.eqb_neq in Hk. rewrite lookup_insert_ne by exact Hk. apply IH.
Qed.

(** The id map answers with the last generated item of the list that has the key. *)
Lemma lookupMaps_id (l : list ShoppingItem.t) :
  forall (m : gmap string bool * gmap string Z) (k : string),
    snd (fold_left recordItem l m) !! k
    = match List.find (fun it => negb (ShoppingItem.is_manually_added it)
                                 && String.eqb (itemKey it) k) (rev l) with
      | Some it => Some (ShoppingItem.id it)
      | None => snd m !! k
      end.
Proof.
  induction l as [|a l IH] using rev_ind; intros m k; [reflexivity|].
  rewrite lookupMaps_snoc, rev_app_distr. unfold recordItem at 1. cbn [snd rev app List.find].
  destruct (ShoppingItem.is_manually_added a); cbn [negb andb]; [apply IH|].
  destruct (String.eqb (itemKey a) k) eqn:Hk.
  - apply String.eqb_eq in Hk. subst k. apply lookup_insert_eq.
  - apply String.eqb_neq in Hk. rewrite lookup_insert_ne by exact Hk. apply IH.
Qed.

(** A generated line takes its flag from the status map and its id from the
    id map or from the source of fresh ids. *)
Lemma line_origin_step now sm im staples st e :
  (forall k it, In (k, it) (generatedMap st) ->
     ShoppingItem.checked it = default false (sm !! k)
     /\ (forall i, im !! k = Some i -> i <> 0 -> ShoppingItem.id it = i)
     /\ (im !! k = None \/ im !! k = Some 0 -> exists n, ShoppingItem.id it = Z.pos (now n))) ->
  forall k it, In (k, it) (generatedMap (stepEvent now sm im staples st e)) ->
     ShoppingItem.checked it = default false (sm !! k)
     /\ (forall i, im !! k = Some i -> i <> 0 -> ShoppingItem.id it = i)
     /\ (im !! k = None \/ im !! k = Some 0 -> exists n, ShoppingItem.id it = Z.pos (now n)).
Proof.
  intros Hst k it. unfold stepEvent, addIngredient.
  destruct (isStaple staples _); [apply Hst|].
  destruct (mapGet _ (generatedMap st)); simpl.
  - intros Hin. apply mapUpdate_from in Hin as [Hin | (w & Hin & ->)]; [now apply (Hst k)|].
    apply Hst in Hin. exact Hin.
  - set (key := keyOf (Ingredient.item_name (snd e)) (Ingredient.unit (snd e))).
    unfold chooseId, JS.truthyZ.
    destruct (im !! key) as [i|] eqn:Him; [destruct (i =? 0) eqn:Hi|]; simpl;
      intros Hin; apply in_app_or in Hin as [Hin | [[= <- <-] | []]];
      try (now apply (Hst k)); simpl; rewrite Him.
    + apply Z.eqb_eq in Hi. subst i. split; [reflexivity|]. split.
      * intros i [= <-] Hne. congruence.
      * intros _. now exists (reads st).
    + apply Z.eqb_neq in Hi. split; [reflexivity|]. split.
      * now intros j [= <-] _.
      * intros [H | [= H]]; [discriminate | congruence].
    + split; [reflexivity|]. split; [discriminate|]. intros _. now exists (reads st).
Qed.

Lemma line_origin_fold now sm im staples evs :
  forall st,
    (forall k it, In (k, it) (generatedMap st) ->
       ShoppingItem.checked it = default false (sm !! k)
       /\ (forall i, im !! k = Some i -> i <> 0 -> ShoppingItem.id it = i)
       /\ (im !! k = None \/ im !! k = Some 0 -> exists n, ShoppingItem.id it = Z.pos (now n))) ->
    forall k it, In (k, it) (generatedMap (fold_left (stepEvent now sm im staples) evs st)) ->
       ShoppingItem.checked it = default false (sm !! k)
       /\ (forall i, im !! k = Some i -> i <> 0 -> ShoppingItem.id it = i)
       /\ (im !! k = None \/ im !! k = Some 0 -> exists n, ShoppingItem.id it = Z.pos (now n)).
Proof.
  induction evs as [|e evs IH]; intros st Hst; simpl; [exact Hst|].
  apply IH. now apply line_origin_step.
Qed.

Lemma line_origin now currentList plan recipes staples line :
  In line (generatedItems now currentList plan recipes staples) ->
  ShoppingItem.checked line = default false (statusMapOf currentList !! itemKey line)
  /\ (forall i, idMapOf currentList !! itemKey line = Some i -> i <> 0 ->
                ShoppingItem.id line = i)
  /\ (idMapOf currentList !! itemKey line = None
      \/ idMapOf currentList !! itemKey line = Some 0 ->
      exists n, ShoppingItem.id line = Z.pos (now n)).
Proof.
  unfold generatedItems. intros Hin. apply in_map_iff in Hin as ([k it] & <- & Hin).
  destruct (generate_keys now (statusMapOf currentList) (idMapOf currentList)
                          recipes staples plan) as [_ Hkey].
  simpl. rewrite (Hkey _ _ Hin). rewrite generate_events in Hin.
  eapply line_origin_fold; [|exact Hin]. intros ? ? [].
Qed.

(** X3. The checked flag of a generated line is the flag of the last item of
    the previous list, manual or generated, that has the key of the line; a
    line whose key is not in the previous list is unchecked. *)
Theorem checked_flag_carried
    (now : nat -> positive) (currentList : list ShoppingItem.t) (plan : list MealPlanItem.t)
    (recipes : list Recipe.t) (pantryStaples : list string) (line : ShoppingItem.t) :
  In line (generatedItems now currentList plan recipes pantryStaples) ->
  ShoppingItem.checked line
  = match List.find (fun it => String.eqb (itemKey it) (itemKey line)) (rev currentList) with
    | Some previous => ShoppingItem.checked previous
    | None => false
    end.
Proof.
  intros Hin. destruct (line_origin _ _ _ _ _ _ Hin) as [Hc _]. rewrite Hc.
  unfold statusMapOf, lookupMaps. rewrite lookupMaps_status.
  destruct (List.find _ (rev currentList)); [reflexivity|]. cbn [fst]. now rewrite lookup_empty.
Qed.

Lemma checked_flag_carried_witness :
  In Cases.chickenChecked
     (generatedItems Scenario.now77 [Scenario.towels; Cases.chickenChecked]
                     [Scenario.roastFor8] [Scenario.roast] ["Salt"%string])
  /\ ShoppingItem.checked Cases.chickenChecked = true.
Proof.
  assert (H : In Cases.chickenChecked
                 (generatedItems Scenario.now77 [Scenario.towels; Cases.chickenChecked]
                                 [Scenario.roastFor8] [Scenario.roast] ["Salt"%string])).
  { vm_compute. left. reflexivity. }
  split; [exact H|].
  rewrite (checked_flag_carried _ _ _ _ _ _ H). reflexivity.
Defined.

(** X4. The id of a generated line is the id of the last generated item of
    the previous list that has the key of the line, when that id is not 0;
    otherwise, and when the previous list has no generated item with the
    key, it is a fresh value of [Date.now() + Math.random()].  The id of a
    manual item is never taken over. *)
Theorem id_carried_or_fresh
    (now : nat -> positive) (currentList : list ShoppingItem.t) (plan : list MealPlanItem.t)
    (recipes : list Recipe.t) (pantryStaples : list string) (line : ShoppingItem.t) :
  In line (generatedItems now currentList plan recipes pantryStaples) ->
  match List.find (fun it => negb (ShoppingItem.is_manually_added it)
                             && String.eqb (itemKey it) (itemKey line)) (rev currentList) with
  | Some previous =>
      if ShoppingItem.id previous =? 0
      then exists n, ShoppingItem.id line = Z.pos (now n)
      else ShoppingItem.id line = ShoppingItem.id previous
  | None => exists n, ShoppingItem.id line = Z.pos (now n)
  end.
Proof.
  intros Hin. destruct (line_origin _ _ _ _ _ _ Hin) as (_ & Hid & Hfresh).
  unfold idMapOf, lookupMaps in Hid, Hfresh. rewrite lookupMaps_id in Hid, Hfresh.
  destruct (List.find _ (rev currentList)) as [previous|].
  - destruct (ShoppingItem.id previous =? 0) eqn:H0.
    + apply Z.eqb_eq in H0. apply Hfresh. right. now rewrite H0.
    + apply Z.eqb_neq in H0. now apply Hid.
  - apply Hfresh. left. cbn [snd]. apply lookup_empty.
Qed.

Lemma id_carried_or_fresh_witness :
  In Cases.chickenChecked
     (generatedItems Scenario.now77 [Scenario.towels; Cases.chickenChecked]
                     [Scenario.roastFor8] [Scenario.roast] ["Salt"%string])
  /\ ShoppingItem.id Cases.chickenChecked = 77.
Proof.
  assert (H : In Cases.chickenChecked
                 (generatedItems Scenario.now77 [Scenario.towels; Cases.chickenChecked]
                                 [Scenario.roastFor8] [Scenario.roast] ["Salt"%string])).
  { vm_compute. left. reflexivity. }
  split; [exact H|].
  pose proof (id_carried_or_fresh _ _ _ _ _ _ H) as Hid. exact Hid.
Defined.

End AggregationProperties.

(** ** The shopping list under the handlers of the two shells *)

Section ListUnderHandlers.
Import MockData Trace.

Lemma findIndex_None {A : Type} (f : A -> bool) (l : list A) :
  (forall x, In x l -> f x = false) -> findIndex f l = None.
Proof.
  induction l as [|a l IH]; intros H; simpl; [reflexivity|].
  rewrite (H a) by now left. rewrite IH; [reflexivity|]. intros x Hx. apply H. now right.
Qed.

Lemma findIndex_Some {A : Type} (f : A -> bool) (l : list A) :
  forall i, findIndex f l = Some i ->
  exists x, l !! i = Some x /\ f x = true
            /\ forall j y, (j < i)%nat -> l !! j = Some y -> f y = false.
Proof.
  induction l as [|a l IH]; intros i; simpl; [discriminate|].
  destruct (f a) eqn:Hfa.
  - intros [= <-]. exists a. split; [reflexivity|]. split; [exact Hfa|]. intros j y Hj. lia.
  - destruct (findIndex f l) as [i'|]; [|discriminate]. intros [= <-].
    destruct (IH i' eq_refl) as (x & Hx & Hfx & Hbefore).
    exists x. split; [exact Hx|]. split; [exact Hfx|].
    intros [|j] y Hj; simpl; [now intros [= <-]|]. apply Hbefore. lia.
Qed.

Lemma statusMapOf_last (l : list ShoppingItem.t) (k : string) :
  statusMapOf l !! k
  = option_map ShoppingItem.checked (List.find (fun it => String.eqb (itemKey it) k) (rev l)).
Proof.
  unfold statusMapOf, lookupMaps. rewrite lookupMaps_status.
  destruct (List.find _ (rev l)); [reflexivity|]. cbn [fst option_map]. apply lookup_empty.
Qed.

Lemma idMapOf_last (l : list ShoppingItem.t) (k : string) :
  idMapOf l !! k
  = option_map ShoppingItem.id
      (List.find (fun it => negb (ShoppingItem.is_manually_added it)
                            && String.eqb (itemKey it) k) (rev l)).
Proof.
  unfold idMapOf, lookupMaps. rewrite lookupMaps_id.
  destruct (List.find _ (rev l)); [reflexivity|]. cbn [snd option_map]. apply lookup_empty.
Qed.

Lemma itemKey_base (a b : ShoppingItem.t) :
  ShoppingItem.base a = ShoppingItem.base b -> itemKey a = itemKey b.
Proof.
  unfold itemKey, ShoppingItem.item_name, ShoppingItem.unit. now intros ->.
Qed.

(** X5. Toggling a line of the shop view that is generated and not yet in
    the stored items appends it to the stored items with the flag inverted;
    the next aggregation over the same plan then shows the line with the
    same content, the same id and the inverted flag, whatever the fresh ids
    of that run are. *)
Theorem toggle_survives_aggregation
    (now now' : nat -> positive) (today weekOffset : Z) (items : list ShoppingItem.t)
    (plan : list MealPlanItem.t) (recipes : list Recipe.t) (pantry_staples : list string)
    (line : ShoppingItem.t) :
  In line (ShopView.visibleItems now today weekOffset items plan recipes pantry_staples) ->
  (forall i, In i items -> ShoppingItem.id i <> ShoppingItem.id line) ->
  PlannerActions.handleToggleItem items line
  = items ++ [withChecked line (negb (ShoppingItem.checked line))]
  /\ exists line',
       In line' (ShopView.visibleItems now' today weekOffset
                   (PlannerActions.handleToggleItem items line) plan recipes pantry_staples)
       /\ ShoppingItem.base line' = ShoppingItem.base line
       /\ ShoppingItem.id line' = ShoppingItem.id line
       /\ ShoppingItem.checked line' = negb (ShoppingItem.checked line)
       /\ ShoppingItem.is_manually_added line' = false.
Proof.
  intros Hin Hnew.
  assert (Htoggle : PlannerActions.handleToggleItem items line
                    = items ++ [withChecked line (negb (ShoppingItem.checked line))]).
  { unfold PlannerActions.handleToggleItem. rewrite findIndex_None; [reflexivity|].
    intros x Hx. apply Z.eqb_neq. now apply Hnew. }
  split; [exact Htoggle|]. rewrite Htoggle.
  unfold ShopView.visibleItems, mergeShoppingList in *.
  set (week := ShopView.visiblePlan today weekOffset plan) in *.
  set (toggled := withChecked line (negb (ShoppingItem.checked line))).
  apply in_app_or in Hin as [Hin | Hin].
  { apply filter_In in Hin as [Hin _]. now destruct (Hnew line Hin). }
  destruct (generatedItems_fresh _ _ _ _ _ _ Hin) as [Hgen Hid].
  assert (Hline' : exists line', In line' (generatedItems now' (items ++ [toggled]) week
                                                           recipes pantry_staples)
                                 /\ ShoppingItem.base line' = ShoppingItem.base line).
  { apply (in_map ShoppingItem.base) in Hin.
    rewrite (generatedItems_base now now' items (items ++ [toggled])) in Hin.
    apply in_map_iff in Hin as (line' & Hb & Hin'). now exists line'. }
  destruct Hline' as (line' & Hin' & Hbase).
  assert (Hkey : itemKey toggled = itemKey line') by (symmetry; now apply itemKey_base).
  exists line'. split; [apply in_or_app; now right|]. split; [exact Hbase|].
  destruct (line_origin _ _ _ _ _ _ Hin') as (Hc & Hi & _).
  destruct (generatedItems_fresh _ _ _ _ _ _ Hin') as [Hgen' _].
  rewrite statusMapOf_last in Hc. rewrite idMapOf_last in Hi.
  rewrite rev_app_distr in Hc, Hi. cbn [rev app List.find] in Hc, Hi.
  rewrite Hkey, String.eqb_refl in Hc, Hi.
  change (ShoppingItem.is_manually_added toggled) with (ShoppingItem.is_manually_added line) in Hi.
  rewrite Hgen in Hi. cbn [negb andb option_map] in Hc, Hi.
  split; [now apply Hi|]. split; [exact Hc | exact Hgen'].
Qed.

Lemma toggle_survives_aggregation_witness :
  exists line',
    In line' (ShopView.visibleItems Scenario.now77 0 0
                (PlannerActions.handleToggleItem [] Cases.chickenFresh)
                [Scenario.roastFor8] [Scenario.roast] ["Salt"%string])
    /\ ShoppingItem.checked line' = true.
Proof.
  assert (Hin : In Cases.chickenFresh
                   (ShopView.visibleItems Scenario.now77 0 0 []
                      [Scenario.roastFor8] [Scenario.roast] ["Salt"%string])).
  { vm_compute. left. reflexivity. }
  assert (Hnew : forall i, In i [] -> ShoppingItem.id i <> ShoppingItem.id Cases.chickenFresh).
  { intros i []. }
  destruct (toggle_survives_aggregation Scenario.now77 Scenario.now77 0 0 [] _ _ _ _ Hin Hnew)
    as (_ & line' & Hin' & _ & _ & Hc & _).
  exists line'. split; [exact Hin' | exact Hc].
Defined.

(** X6. After [handleClearChecked] no line of the shop view is checked: the
    checked items are gone from the stored items, and every line the plan
    still requires is generated again, with the same content, unchecked. *)
Theorem clear_checked_unchecks_view
    (now now' : nat -> positive) (today weekOffset : Z) (items : list ShoppingItem.t)
    (plan : list MealPlanItem.t) (recipes : list Recipe.t) (pantry_staples : list string) :
  Forall (fun line => ShoppingItem.checked line = false)
         (ShopView.visibleItems now' today weekOffset (PlannerActions.handleClearChecked items)
                                plan recipes pantry_staples)
  /\ List.map ShoppingItem.base
       (generatedItems now' (PlannerActions.handleClearChecked items)
                       (ShopView.visiblePlan today weekOffset plan) recipes pantry_staples)
     = List.map ShoppingItem.base
         (generatedItems now items (ShopView.visiblePlan today weekOffset plan)
                         recipes pantry_staples).
Proof.
  split; [|apply generatedItems_base].
  unfold ShopView.visibleItems, mergeShoppingList. apply Forall_app. split; apply List.Forall_forall.
  - intros x Hx. unfold manualItems, PlannerActions.handleClearChecked in Hx.
    apply filter_In in Hx as [Hx _]. apply filter_In in Hx as [_ Hx].
    now apply negb_true_iff in Hx.
  - intros x Hx. destruct (line_origin _ _ _ _ _ _ Hx) as (Hc & _ & _).
    rewrite Hc, statusMapOf_last.
    destruct (List.find _ (rev (PlannerActions.handleClearChecked items))) as [previous|] eqn:Hf;
      [|reflexivity].
    apply find_some in Hf as [Hf _]. apply in_rev in Hf.
    apply filter_In in Hf as [_ Hf]. now apply negb_true_iff in Hf.
Qed.

Lemma addMeal_unresolved now sm im recipes staples st meal :
  targetOf recipes meal = None -> addMeal now sm im recipes staples st meal = st.
Proof. unfold addMeal. now intros ->. Qed.

(** Meals that resolve to no recipe can be left out of the plan. *)
Lemma generate_filter now sm im recipes staples (keep : MealPlanItem.t -> bool) plan :
  (forall meal, In meal plan -> keep meal = false -> targetOf recipes meal = None) ->
  generate now sm im recipes staples (List.filter keep plan)
  = generate now sm im recipes staples plan.
Proof.
  unfold generate. generalize (mkGenerated [] 0).
  induction plan as [|meal plan IH]; intros st H; [reflexivity|].
  cbn [List.filter fold_left]. destruct (keep meal) eqn:Hk.
  - cbn [fold_left]. apply IH. intros m Hm. apply H. now right.
  - rewrite (addMeal_unresolved _ _ _ _ _ st meal) by (apply H; [now left | exact Hk]).
    apply IH. intros m Hm. apply H. now right.
Qed.

Lemma targetOf_deleted (recipes : list Recipe.t) (recipeId : Z) (meal : MealPlanItem.t) :
  MealPlanItem.recipe_id meal = recipeId ->
  targetOf (PlannerActions.handleDeleteRecipe recipes recipeId) meal = None.
Proof.
  intros <-. unfold targetOf, findRecipe, PlannerActions.handleDeleteRecipe.
  destruct (List.find _ (List.filter _ recipes)) as [r|] eqn:Hf; [|reflexivity].
  apply find_some in Hf as [Hin Hid]. apply filter_In in Hin as [_ Hne].
  rewrite Hid in Hne. discriminate.
Qed.

Lemma filter_swap {A : Type} (f g : A -> bool) (l : list A) :
  List.filter f (List.filter g l) = List.filter g (List.filter f l).
Proof.
  induction l as [|a l IH]; [reflexivity|]. cbn [List.filter].
  destruct (g a) eqn:Hg, (f a) eqn:Hf; cbn [List.filter]; rewrite ?Hg, ?Hf, IH; reflexivity.
Qed.

(** X7. The first shell deletes a recipe and leaves its meals in the plan,
    the second shell removes them: both show the same shopping list, since a
    meal whose recipe is gone contributes nothing. *)
Theorem deleted_recipe_leaves_list
    (now : nat -> positive) (today : Z) (currentList : list ShoppingItem.t)
    (plan : list MealPlanItem.t) (recipes : list Recipe.t) (pantry_staples : list string)
    (recipeId : Z) :
  let newRecipes := PlannerActions.handleDeleteRecipe recipes recipeId in
  fst (SyncActions.handleDeleteRecipe recipes plan recipeId) = newRecipes
  /\ SyncApp.syncShoppingList now today currentList
       (snd (SyncActions.handleDeleteRecipe recipes plan recipeId)) newRecipes pantry_staples
     = SyncApp.syncShoppingList now today currentList plan newRecipes pantry_staples
  /\ (forall meal, MealPlanItem.recipe_id meal = recipeId ->
        Spec.mealContribution newRecipes pantry_staples meal = []).
Proof.
  intros newRecipes. subst newRecipes. split; [reflexivity|]. split.
  - unfold SyncApp.syncShoppingList, SyncActions.handleDeleteRecipe, mergeShoppingList,
      generatedItems. cbn [snd]. rewrite filter_swap. rewrite generate_filter; [reflexivity|].
    intros meal _ Hk. apply targetOf_deleted. apply negb_false_iff in Hk. now apply Z.eqb_eq.
  - intros meal Hid. unfold Spec.mealContribution.
    now rewrite (targetOf_deleted recipes recipeId meal Hid).
Qed.

Lemma addMeal_fields now sm im recipes staples st (m1 m2 : MealPlanItem.t) :
  MealPlanItem.recipe_id m1 = MealPlanItem.recipe_id m2 ->
  MealPlanItem.recipe_version m1 = MealPlanItem.recipe_version m2 ->
  MealPlanItem.servings m1 = MealPlanItem.servings m2 ->
  addMeal now sm im recipes staples st m1 = addMeal now sm im recipes staples st m2.
Proof.
  intros H1 H2 H3. unfold addMeal, targetOf, scaleOf. now rewrite H1, H2, H3.
Qed.

(** The generated lines depend on the recipe, the version and the servings
    of the meals, in the order of the plan, and on nothing else of the plan. *)
Lemma generate_fields now sm im recipes staples (p1 p2 : list MealPlanItem.t) :
  Forall2 (fun m1 m2 => MealPlanItem.recipe_id m1 = MealPlanItem.recipe_id m2
                        /\ MealPlanItem.recipe_version m1 = MealPlanItem.recipe_version m2
                        /\ MealPlanItem.servings m1 = MealPlanItem.servings m2) p1 p2 ->
  generate now sm im recipes staples p1 = generate now sm im recipes staples p2.
Proof.
  unfold generate. generalize (mkGenerated [] 0). intros st H. revert st.
  induction H as [|m1 m2 p1 p2 (H1 & H2 & H3) _ IH]; intros st; [reflexivity|].
  cbn [fold_left]. rewrite (addMeal_fields _ _ _ _ _ st m1 m2 H1 H2 H3). apply IH.
Qed.

Lemma Forall2_filter_same {A : Type} (R : A -> A -> Prop) (f : A -> bool) (l1 l2 : list A) :
  Forall2 (fun a b => R a b /\ f a = f b) l1 l2 ->
  Forall2 R (List.filter f l1) (List.filter f l2).
Proof.
  induction 1 as [|a b l1 l2 [HR Hf] _ IH]; [constructor|].
  cbn [List.filter]. rewrite <- Hf. destruct (f a); [constructor|]; assumption.
Qed.

Lemma Forall2_list_insert {A : Type} (R : A -> A -> Prop) (l1 l2 : list A) (x y : A) :
  Forall2 R l1 l2 -> R x y -> forall i, Forall2 R (<[i:=x]> l1) (<[i:=y]> l2).
Proof.
  intros H Hxy. induction H as [|a b l1 l2 Hab Hl IH]; intros i; [constructor|].
  destruct i as [|i]; simpl; constructor; auto.
Qed.

Lemma Forall2_same {A : Type} (R : A -> A -> Prop) (l : list A) :
  (forall a, R a a) -> Forall2 R l l.
Proof. intros H. induction l; constructor; auto. Qed.

Lemma Forall2_insert_right {A : Type} (R : A -> A -> Prop) (l1 l2 : list A) (i : nat) (x y : A) :
  Forall2 R l1 l2 -> l1 !! i = Some x -> R x y -> Forall2 R l1 (<[i:=y]> l2).
Proof.
  intros H Hx Hxy. rewrite <- (list_insert_id l1 i x Hx). now apply Forall2_list_insert.
Qed.

(** A move inside the scope of the list keeps, place by place, what the list
    is made of and whether the meal is in scope. *)
Lemma handleMoveMealTo_fields (firstDay : Z) (plan : list MealPlanItem.t) (date targetDate : Z) :
  firstDay <= date -> firstDay <= targetDate ->
  Forall2 (fun m1 m2 =>
             (MealPlanItem.recipe_id m1 = MealPlanItem.recipe_id m2
              /\ MealPlanItem.recipe_version m1 = MealPlanItem.recipe_version m2
              /\ MealPlanItem.servings m1 = MealPlanItem.servings m2)
             /\ (firstDay <=? MealPlanItem.date m1) = (firstDay <=? MealPlanItem.date m2))
          plan (SyncActions.handleMoveMealTo plan date targetDate).
Proof.
  intros Hd Ht.
  set (R := fun m1 m2 : MealPlanItem.t =>
             (MealPlanItem.recipe_id m1 = MealPlanItem.recipe_id m2
              /\ MealPlanItem.recipe_version m1 = MealPlanItem.recipe_version m2
              /\ MealPlanItem.servings m1 = MealPlanItem.servings m2)
             /\ (firstDay <=? MealPlanItem.date m1) = (firstDay <=? MealPlanItem.date m2)).
  assert (Hrefl : Forall2 R plan plan) by (apply Forall2_same; unfold R; auto).
  assert (Hswap : forall (m : MealPlanItem.t) d d',
             MealPlanItem.date m = d -> firstDay <= d -> firstDay <= d' -> R m (withDate m d')).
  { intros m d d' Hm H1 H2. unfold R. cbn.
    split; [auto|]. rewrite Hm. transitivity true; [|symmetry]; now apply Z.leb_le. }
  unfold SyncActions.handleMoveMealTo.
  destruct (findIndex _ plan) as [idx|] eqn:Hidx; [|exact Hrefl].
  destruct (findIndex_Some _ _ _ Hidx) as (a & Ha & Hda & _). rewrite Ha.
  apply Z.eqb_eq in Hda.
  destruct (findIndex (fun p => MealPlanItem.date p =? targetDate) plan)
    as [targetIdx|] eqn:Htgt.
  - destruct (findIndex_Some _ _ _ Htgt) as (b & Hb & Hdb & _). rewrite Hb.
    apply Z.eqb_eq in Hdb.
    apply (Forall2_insert_right R plan _ targetIdx b); [|exact Hb|now apply (Hswap b _ date Hdb)].
    apply (Forall2_insert_right R plan _ idx a); [exact Hrefl|exact Ha|].
    now apply (Hswap a date).
  - apply (Forall2_insert_right R plan _ idx a); [exact Hrefl|exact Ha|].
    now apply (Hswap a date).
Qed.

(** X8. Moving a meal, or swapping it with the meal of the target date,
    leaves the shopping list of the second shell as it is, as long as the
    date the meal leaves and the date it lands on are both in the scope of
    the list; this holds for whatever target date the date arithmetic of
    the handler gives.  [firstDay] is the first date in the scope of
    [syncShoppingList]: the local date of today at or east of UTC, the day
    after it west of UTC. *)
Theorem move_keeps_shopping_list
    (now : nat -> positive) (firstDay : Z) (currentList : list ShoppingItem.t)
    (plan : list MealPlanItem.t) (recipes : list Recipe.t) (pantry_staples : list string)
    (date targetDate : Z) (direction : PlannerActions.Direction) :
  firstDay <= date -> firstDay <= targetDate ->
  SyncApp.syncShoppingList now firstDay currentList
    (SyncActions.handleMoveMealTo plan date targetDate) recipes pantry_staples
  = SyncApp.syncShoppingList now firstDay currentList plan recipes pantry_staples
  /\ SyncActions.handleMoveMeal plan date direction
     = SyncActions.handleMoveMealTo plan date (date + PlannerActions.step direction).
Proof.
  intros Hd Ht. split; [|reflexivity].
  unfold SyncApp.syncShoppingList, mergeShoppingList, generatedItems.
  f_equal. f_equal. f_equal. symmetry. apply generate_fields.
  apply Forall2_filter_same with (f := fun p => firstDay <=? MealPlanItem.date p).
  eapply Forall2_impl; [apply (handleMoveMealTo_fields firstDay plan date targetDate Hd Ht)|].
  cbn. intros m1 m2 H. exact H.
Qed.

(** The meal of day 10 moves on a day on which the target date is day 10
    again, and on a day on which it is day 11; the list starts at day 10. *)
Lemma move_keeps_shopping_list_witness :
  SyncApp.syncShoppingList Scenario.now77 10 []
    (SyncActions.handleMoveMealTo Cases.twoDays 10 10) [Scenario.roast] ["Salt"%string]
  = SyncApp.syncShoppingList Scenario.now77 10 [] Cases.twoDays [Scenario.roast] ["Salt"%string]
  /\ SyncApp.syncShoppingList Scenario.now77 10 []
       (SyncActions.handleMoveMealTo Cases.twoDays 10 11) [Scenario.roast] ["Salt"%string]
     = SyncApp.syncShoppingList Scenario.now77 10 [] Cases.twoDays [Scenario.roast]
         ["Salt"%string].
Proof.
  split.
  - apply (move_keeps_shopping_list Scenario.now77 10 [] Cases.twoDays _ _ 10 10
             PlannerActions.down); lia.
  - apply (move_keeps_shopping_list Scenario.now77 10 [] Cases.twoDays _ _ 10 11
             PlannerActions.down); lia.
Defined.

(** X9. Rating a meal and clearing all reviews change no line of the shop
    view: the list depends on the recipe, the version, the servings and the
    date of the planned meals only. *)
Theorem reviews_keep_shopping_list
    (now : nat -> positive) (today weekOffset : Z) (items : list ShoppingItem.t)
    (plan : list MealPlanItem.t) (recipes : list Recipe.t) (pantry_staples : list string)
    (id : Z) (rating : Q) (comment : option string) :
  ShopView.visibleItems now today weekOffset items
    (PlannerActions.handleRateMeal plan id rating comment) recipes pantry_staples
  = ShopView.visibleItems now today weekOffset items plan recipes pantry_staples
  /\ ShopView.visibleItems now today weekOffset items
       (PlannerActions.handleClearReviews plan) recipes pantry_staples
     = ShopView.visibleItems now today weekOffset items plan recipes pantry_staples.
Proof.
  assert (H : forall g : MealPlanItem.t -> MealPlanItem.t,
             (forall p, MealPlanItem.recipe_id (g p) = MealPlanItem.recipe_id p
                        /\ MealPlanItem.recipe_version (g p) = MealPlanItem.recipe_version p
                        /\ MealPlanItem.servings (g p) = MealPlanItem.servings p
                        /\ MealPlanItem.date (g p) = MealPlanItem.date p) ->
             ShopView.visibleItems now today weekOffset items (List.map g plan)
                                   recipes pantry_staples
             = ShopView.visibleItems now today weekOffset items plan recipes pantry_staples).
  { intros g Hg. unfold ShopView.visibleItems, ShopView.visiblePlan, mergeShoppingList,
      generatedItems. f_equal. f_equal. f_equal. apply generate_fields.
    apply Forall2_filter_same
      with (f := fun p => (today + weekOffset * 7 <=? MealPlanItem.date p)
                          && (MealPlanItem.date p <? today + (weekOffset * 7 + 7))).
    induction plan as [|p plan IH]; [constructor|]. cbn [List.map]. constructor; [|exact IH].
    destruct (Hg p) as (H1 & H2 & H3 & H4). rewrite H4. auto. }
  split; apply H; intros p.
  - destruct (MealPlanItem.id p =? id); cbn; auto.
  - cbn; auto.
Qed.

End ListUnderHandlers.

(** ** The first list and the order of the plan *)

Section ListFromPlan.
Import MockData Trace.

Lemma mapUpdate_ids (quantity : Q) (key : string) (gm : list (string * ShoppingItem.t)) :
  List.map (fun kv => ShoppingItem.id (snd kv)) (mapUpdate (addQuantity quantity) key gm)
  = List.map (fun kv => ShoppingItem.id (snd kv)) gm.
Proof.
  induction gm as [|[k v] gm IH]; [reflexivity|]. cbn [mapUpdate].
  destruct (String.eqb k key); cbn [List.map]; [reflexivity|]. now rewrite IH.
Qed.

(** Without a previous list the ids are the fresh values, in the order of
    the reads. *)
Lemma fresh_ids_step now sm staples st e :
  List.map (fun kv => ShoppingItem.id (snd kv)) (generatedMap st)
  = List.map (fun n => Z.pos (now n)) (seq 0 (reads st)) ->
  List.map (fun kv => ShoppingItem.id (snd kv))
           (generatedMap (stepEvent now sm ∅ staples st e))
  = List.map (fun n => Z.pos (now n)) (seq 0 (reads (stepEvent now sm ∅ staples st e))).
Proof.
  intros Hst. unfold stepEvent, addIngredient.
  destruct (isStaple staples _); [exact Hst|].
  destruct (mapGet _ (generatedMap st)); cbn [generatedMap reads].
  - now rewrite mapUpdate_ids.
  - rewrite lookup_empty. cbn [chooseId generatedMap reads].
    rewrite List.map_app, Hst, seq_S, List.map_app. reflexivity.
Qed.

Lemma fresh_ids_fold now sm staples evs :
  forall st,
    List.map (fun kv => ShoppingItem.id (snd kv)) (generatedMap st)
    = List.map (fun n => Z.pos (now n)) (seq 0 (reads st)) ->
    List.map (fun kv => ShoppingItem.id (snd kv))
             (generatedMap (fold_left (stepEvent now sm ∅ staples) evs st))
    = List.map (fun n => Z.pos (now n))
               (seq 0 (reads (fold_left (stepEvent now sm ∅ staples) evs st))).
Proof.
  induction evs as [|e evs IH]; intros st Hst; [exact Hst|].
  cbn [fold_left]. apply IH. now apply fresh_ids_step.
Qed.

Lemma NoDup_map_injective {A B : Type} (f : A -> B) (l : list A) :
  (forall x y, f x = f y -> x = y) -> List.NoDup l -> List.NoDup (List.map f l).
Proof.
  intros Hf. induction 1 as [|a l Ha _ IH]; cbn [List.map]; constructor; [|exact IH].
  intros Hin. apply in_map_iff in Hin as (y & Hy & Hin). apply Hf in Hy. now subst y.
Qed.

(** X10. The list made from a plan alone ([generateShoppingListFromPlan],
    no previous list): every line is unchecked and not manual, the id of
    the [n]-th line is the [n]-th value read from [Date.now() +
    Math.random()], and the ids are pairwise distinct when these values are. *)
Theorem first_list_ids
    (now : nat -> positive) (plan : list MealPlanItem.t) (recipes : list Recipe.t)
    (pantryStaples : list string) :
  let list := Seed.generateShoppingListFromPlan now plan recipes pantryStaples in
  List.map ShoppingItem.id list = List.map (fun n => Z.pos (now n)) (seq 0 (length list))
  /\ Forall (fun line => ShoppingItem.checked line = false
                         /\ ShoppingItem.is_manually_added line = false) list
  /\ ((forall m n, now m = now n -> m = n) -> List.NoDup (List.map ShoppingItem.id list)).
Proof.
  intros list.
  assert (Hlist : list = generatedItems now [] plan recipes pantryStaples) by reflexivity.
  assert (Hids : List.map ShoppingItem.id list
                 = List.map (fun n => Z.pos (now n)) (seq 0 (length list))).
  { assert (H : exists n, List.map ShoppingItem.id list
                          = List.map (fun n => Z.pos (now n)) (seq 0 n)).
    { rewrite Hlist. unfold generatedItems. rewrite generate_events, List.map_map.
      eexists. apply (fresh_ids_fold now (statusMapOf []) pantryStaples). reflexivity. }
    destruct H as [n Hn]. rewrite Hn. f_equal. f_equal.
    apply (f_equal (@length Z)) in Hn. rewrite !length_map, length_seq in Hn. now symmetry. }
  split; [exact Hids|]. split.
  - apply List.Forall_forall. intros line Hin. rewrite Hlist in Hin.
    destruct (line_origin _ _ _ _ _ _ Hin) as (Hc & _ & _).
    destruct (generatedItems_fresh _ _ _ _ _ _ Hin) as [Hm _].
    split; [|exact Hm]. rewrite Hc. reflexivity.
  - intros Hinj. rewrite Hids. apply NoDup_map_injective; [|apply seq_NoDup].
    intros x y [= H]. now apply Hinj.
Qed.

Lemma first_list_ids_witness :
  List.NoDup (List.map ShoppingItem.id
                (Seed.generateShoppingListFromPlan Pos.of_succ_nat
                   [Scenario.roastFor8; Scenario.stewPinned]
                   [Scenario.roast; Scenario.stew] ["Salt"%string])).
Proof.
  destruct (first_list_ids Pos.of_succ_nat [Scenario.roastFor8; Scenario.stewPinned]
                           [Scenario.roast; Scenario.stew] ["Salt"%string]) as (_ & _ & Hnd).
  apply Hnd. intros m n Hmn. now apply SuccNat2Pos.inj.
Defined.

Lemma totalFor_cons key c cs :
  (Spec.totalFor key (c :: cs)
   == (if String.eqb (fst c) key then snd c else 0) + Spec.totalFor key cs)%Q.
Proof.
  unfold Spec.totalFor. cbn [List.filter].
  destruct (String.eqb (fst c) key); cbn [List.map fold_right]; lra.
Qed.

Lemma totalFor_Permutation key cs cs' :
  Permutation cs cs' -> (Spec.totalFor key cs == Spec.totalFor key cs')%Q.
Proof.
  induction 1 as [|c cs cs' _ IH|c d cs|cs cs' cs'' _ IH1 _ IH2].
  - reflexivity.
  - rewrite !totalFor_cons, IH. reflexivity.
  - rewrite !totalFor_cons. lra.
  - now rewrite IH1.
Qed.

Lemma filter_perm {A : Type} (f : A -> bool) (l l' : list A) :
  Permutation l l' -> Permutation (List.filter f l) (List.filter f l').
Proof.
  induction 1 as [|x l l' _ IH|x y l|l l' l'' _ IH1 _ IH2]; cbn [List.filter].
  - apply perm_nil.
  - destruct (f x); [now apply perm_skip | exact IH].
  - destruct (f x), (f y); try reflexivity. apply perm_swap.
  - now rewrite IH1.
Qed.

Lemma fold_left_Qplus (l : list Q) (a : Q) :
  (fold_left Qplus l a == a + fold_right Qplus 0 l)%Q.
Proof.
  revert a. induction l as [|x l IH]; intros a; cbn [fold_left fold_right]; [lra|].
  rewrite IH. lra.
Qed.

(** X11. The generated lines do not depend on the order of the plan, up to
    their own order and to the order in which the quantities are added up:
    for two plans that are permutations of each other the same keys have a
    line, the quantity of a line is the sum of the contributions to its key
    added one after the other in the order of its plan, and the
    contributions to a key are the same numbers for both plans, in another
    order.  (The second shell reads the plan back from the store, in the
    order of the store.) *)
Theorem list_independent_of_plan_order
    (now now' : nat -> positive) (currentList currentList' : list ShoppingItem.t)
    (plan plan' : list MealPlanItem.t) (recipes : list Recipe.t) (pantryStaples : list string)
    (line : ShoppingItem.t) :
  Permutation plan plan' ->
  In line (generatedItems now currentList plan recipes pantryStaples) ->
  exists line',
    In line' (generatedItems now' currentList' plan' recipes pantryStaples)
    /\ itemKey line' = itemKey line
    /\ (ShoppingItem.quantity line
        == fold_left Qplus
             (List.map snd
                (List.filter (fun c => String.eqb (fst c) (itemKey line))
                             (Spec.planContributions recipes pantryStaples plan))) 0)%Q
    /\ (ShoppingItem.quantity line'
        == fold_left Qplus
             (List.map snd
                (List.filter (fun c => String.eqb (fst c) (itemKey line))
                             (Spec.planContributions recipes pantryStaples plan'))) 0)%Q
    /\ Permutation
         (List.map snd
            (List.filter (fun c => String.eqb (fst c) (itemKey line))
                         (Spec.planContributions recipes pantryStaples plan)))
         (List.map snd
            (List.filter (fun c => String.eqb (fst c) (itemKey line))
                         (Spec.planContributions recipes pantryStaples plan'))).
Proof.
  intros Hperm Hin.
  assert (Hcs : Permutation (Spec.planContributions recipes pantryStaples plan)
                            (Spec.planContributions recipes pantryStaples plan')).
  { unfold Spec.planContributions. now apply Permutation_flat_map. }
  destruct (line_has_contribution _ _ _ _ _ _ Hin) as (c & Hc & Hkey).
  apply (Permutation_in _ Hcs) in Hc.
  destruct (contribution_has_line now' currentList' _ _ _ _ Hc) as (line' & Hin' & Hkey').
  exists line'. split; [exact Hin'|]. split; [congruence|].
  split; [|split].
  - rewrite (generated_quantity _ _ _ _ _ _ Hin), fold_left_Qplus. unfold Spec.totalFor. lra.
  - rewrite (generated_quantity _ _ _ _ _ _ Hin'), fold_left_Qplus.
    replace (itemKey line') with (itemKey line) by congruence. unfold Spec.totalFor. lra.
  - apply Permutation_map. now apply filter_perm.
Qed.

Lemma list_independent_of_plan_order_witness :
  exists line',
    In line' (generatedItems Scenario.now77 []
                [Scenario.stewPinned; Scenario.roastFor8]
                [Scenario.roast; Scenario.stew] ["Salt"%string])
    /\ itemKey line' = itemKey Scenario.chickenLine.
Proof.
  assert (Hperm : Permutation [Scenario.roastFor8; Scenario.stewPinned]
                              [Scenario.stewPinned; Scenario.roastFor8]) by apply perm_swap.
  assert (Hin : In (ShoppingItem.mk (Ingredient.mk "Chicken" ((4000 # 4) + (2000 # 4)) "g" "Meat")
                                    77 false false None None)
                   (generatedItems Scenario.now77 []
                      [Scenario.roastFor8; Scenario.stewPinned]
                      [Scenario.roast; Scenario.stew] ["Salt"%string])).
  { vm_compute. left. reflexivity. }
  destruct (list_independent_of_plan_order Scenario.now77 Scenario.now77 [] [] _ _ _ _ _ Hperm Hin)
    as (line' & Hin' & Hkey & _).
  exists line'. split; [exact Hin' | exact Hkey].
Defined.

End ListFromPlan.

(** ** The plan under the handlers of the second shell *)

Section PlanHandlers.

Lemma dates_unique_alt (plan : list MealPlanItem.t) :
  List.NoDup (List.map MealPlanItem.date plan)
  <-> forall i j a b, plan !! i = Some a -> plan !! j = Some b ->
                      MealPlanItem.date a = MealPlanItem.date b -> i = j.
Proof.
  rewrite <- NoDup_ListNoDup. change (List.map MealPlanItem.date plan)
    with (MealPlanItem.date <$> plan). rewrite NoDup_alt. split.
  - intros H i j a b Ha Hb Hd. apply (H i j (MealPlanItem.date a)).
    + now rewrite list_lookup_fmap, Ha.
    + rewrite list_lookup_fmap, Hb. cbn. now rewrite Hd.
  - intros H i j x Hi Hj. rewrite list_lookup_fmap in Hi, Hj.
    destruct (plan !! i) as [a|] eqn:Ha; [|discriminate].
    destruct (plan !! j) as [b|] eqn:Hb; [|discriminate].
    cbn in Hi, Hj. apply (H i j a b Ha Hb). congruence.
Qed.

Lemma findIndex_None_inv {A : Type} (f : A -> bool) (l : list A) :
  findIndex f l = None -> forall x, In x l -> f x = false.
Proof.
  induction l as [|a l IH]; simpl; [intros _ x []|].
  destruct (f a) eqn:Hfa; [discriminate|].
  destruct (findIndex f l); [discriminate|]. intros _ x [<- | Hx]; [exact Hfa | now apply IH].
Qed.

Lemma lookup_In {A : Type} (l : list A) (i : nat) (x : A) : l !! i = Some x -> In x l.
Proof. intros H. apply list_elem_of_In. now apply (list_elem_of_lookup_2 l i). Qed.

(** Two meals exchange their dates. *)
Lemma swap_dates_unique (plan : list MealPlanItem.t) (i t : nat) (a b : MealPlanItem.t) :
  plan !! i = Some a -> plan !! t = Some b ->
  List.NoDup (List.map MealPlanItem.date plan) ->
  List.NoDup (List.map MealPlanItem.date
                (<[t := withDate b (MealPlanItem.date a)]>
                   (<[i := withDate a (MealPlanItem.date b)]> plan))).
Proof.
  intros Ha Hb Hu. rewrite dates_unique_alt in Hu. apply dates_unique_alt.
  intros j1 j2 p q H1 H2 Hd.
  apply list_lookup_insert_Some in H1, H2.
  rewrite list_lookup_insert_Some in H1, H2.
  destruct H1 as [(<- & <- & _) | (Hn1 & [(<- & <- & _) | (Hm1 & H1)])];
    destruct H2 as [(<- & <- & _) | (Hn2 & [(<- & <- & _) | (Hm2 & H2)])];
    cbn in Hd; try reflexivity; try (now apply (Hu _ _ _ _ H1 H2)); exfalso;
    match goal with
    | Hx : plan !! ?x = Some ?u, Hy : plan !! ?y = Some ?v |- _ =>
        assert (x = y) by (apply (Hu _ _ _ _ Hx Hy); congruence); congruence
    end.
Qed.

(** A meal moves to a day without a meal. *)
Lemma move_dates_unique (plan : list MealPlanItem.t) (i : nat) (a : MealPlanItem.t) (target : Z) :
  plan !! i = Some a ->
  (forall p, In p plan -> MealPlanItem.date p <> target) ->
  List.NoDup (List.map MealPlanItem.date plan) ->
  List.NoDup (List.map MealPlanItem.date (<[i := withDate a target]> plan)).
Proof.
  intros Ha Hfree Hu. rewrite dates_unique_alt in Hu. apply dates_unique_alt.
  intros j1 j2 p q H1 H2 Hd.
  apply list_lookup_insert_Some in H1, H2.
  destruct H1 as [(<- & <- & _) | (Hn1 & H1)]; destruct H2 as [(<- & <- & _) | (Hn2 & H2)];
    cbn in Hd; try reflexivity.
  - exfalso. apply (Hfree q); [now apply (lookup_In plan j2) | now symmetry].
  - exfalso. apply (Hfree p); [now apply (lookup_In plan j1) | exact Hd].
  - now apply (Hu _ _ _ _ H1 H2).
Qed.

Lemma filter_dates_unique (keep : MealPlanItem.t -> bool) (plan : list MealPlanItem.t) :
  List.NoDup (List.map MealPlanItem.date plan) ->
  List.NoDup (List.map MealPlanItem.date (List.filter keep plan)).
Proof.
  induction plan as [|p plan IH]; [intros _; constructor|].
  cbn [List.map List.filter]. intros Hu. inversion Hu as [|? ? Hp Hrest]; subst.
  destruct (keep p); [|now apply IH]. cbn [List.map]. constructor; [|now apply IH].
  intros Hin. apply Hp. apply in_map_iff in Hin as (q & Hq & Hin).
  apply filter_In in Hin as [Hin _]. apply in_map_iff. now exists q.
Qed.

Lemma collect_Some {A B : Type} (f : A -> option B) (l : list A) :
  (forall x, In x l -> exists y, f x = Some y) ->
  exists ys, Seed.collect f l = Some ys /\ Forall2 (fun x y => f x = Some y) l ys.
Proof.
  induction l as [|x l IH]; intros H; [exists []; split; [reflexivity | constructor]|].
  destruct (H x (or_introl eq_refl)) as [y Hy].
  destruct IH as (ys & Hys & Hall); [intros z Hz; apply H; now right|].
  exists (y :: ys). cbn [Seed.collect]. rewrite Hy, Hys. split; [reflexivity|].
  constructor; assumption.
Qed.

Lemma collect_Some_inv {A B : Type} (f : A -> option B) (l : list A) :
  forall ys, Seed.collect f l = Some ys -> Forall2 (fun x y => f x = Some y) l ys.
Proof.
  induction l as [|x l IH]; intros ys; cbn [Seed.collect].
  - intros [= <-]. constructor.
  - destruct (f x) as [y|] eqn:Hy; [|discriminate].
    destruct (Seed.collect f l) as [ys'|]; [|discriminate]. intros [= <-].
    constructor; [exact Hy | now apply IH].
Qed.

(** The dates of a plan made by [generateInitialPlan]. *)
Lemma initial_dates (dateNow : nat -> Z) (dateStrOf : nat -> Z) (recipes : list Recipe.t)
    (items : list MealPlanItem.t) :
  Seed.generateInitialPlan dateNow dateStrOf recipes = Some items ->
  List.map MealPlanItem.date items = List.map dateStrOf (seq 0 7).
Proof.
  unfold Seed.generateInitialPlan. intros H. apply collect_Some_inv in H.
  induction H as [|i p l items Hp _ IH]; [reflexivity|].
  cbn [List.map]. f_equal; [|exact IH].
  unfold Seed.initialItem in Hp. destruct recipes as [|r rs]; [discriminate|].
  destruct (nth_error _ _); [|discriminate]. now injection Hp as <-.
Qed.

(** X12. The handlers of the second shell that edit the plan keep at most
    one meal per day: adding a meal (which replaces the meal of that day),
    removing one, moving one up or down (to whatever target date the date
    arithmetic of the handler gives), dragging one to another day and
    deleting a recipe all return a plan with pairwise distinct dates when
    they are given one. *)
Theorem one_meal_per_day_kept
    (plan : list MealPlanItem.t) (recipes : list Recipe.t) (now : Z)
    (date targetDate recipeId mealId : Z) (direction : PlannerActions.Direction) :
  List.NoDup (List.map MealPlanItem.date plan) ->
  List.NoDup (List.map MealPlanItem.date (SyncActions.handleAddMeal now recipes plan date recipeId))
  /\ List.NoDup (List.map MealPlanItem.date (SyncActions.handleRemoveMeal plan date))
  /\ List.NoDup (List.map MealPlanItem.date (SyncActions.handleMoveMealTo plan date targetDate))
  /\ List.NoDup (List.map MealPlanItem.date (SyncActions.handleMoveMeal plan date direction))
  /\ List.NoDup (List.map MealPlanItem.date (SyncActions.handleReorderMeal plan mealId date))
  /\ List.NoDup (List.map MealPlanItem.date
                   (snd (SyncActions.handleDeleteRecipe recipes plan recipeId))).
Proof.
  intros Hu.
  assert (Hmove : forall target,
             List.NoDup (List.map MealPlanItem.date (SyncActions.handleMoveMealTo plan date target))).
  { intros target. unfold SyncActions.handleMoveMealTo.
    destruct (findIndex _ plan) as [idx|] eqn:Hidx; [|exact Hu].
    destruct (findIndex_Some _ _ _ Hidx) as (a & Ha & Hda & _). rewrite Ha.
    apply Z.eqb_eq in Hda.
    destruct (findIndex (fun p => MealPlanItem.date p =? target) plan)
      as [targetIdx|] eqn:Htgt.
    + destruct (findIndex_Some _ _ _ Htgt) as (b & Hb & Hdb & _). rewrite Hb.
      apply Z.eqb_eq in Hdb. rewrite <- Hda at 1. rewrite <- Hdb.
      now apply swap_dates_unique.
    + apply move_dates_unique; [exact Ha| |exact Hu].
      intros p Hp. apply Z.eqb_neq. now apply (findIndex_None_inv _ _ Htgt). }
  split; [|split; [|split; [apply Hmove|split; [apply (Hmove _)|split]]]].
  - unfold SyncActions.handleAddMeal. rewrite List.map_app. apply List.NoDup_app.
    repeat split.
    + now apply filter_dates_unique.
    + cbn. constructor; [intros [] | constructor].
    + intros d Hin [<- | []]. apply in_map_iff in Hin as (q & Hq & Hin).
      apply filter_In in Hin as [_ Hne]. cbn in Hq. rewrite Hq, Z.eqb_refl in Hne. discriminate.
  - unfold SyncActions.handleRemoveMeal. destruct (List.find _ plan); [|exact Hu].
    now apply filter_dates_unique.
  - unfold SyncActions.handleReorderMeal.
    destruct (findIndex _ plan) as [idx|] eqn:Hidx; [|exact Hu].
    destruct (findIndex_Some _ _ _ Hidx) as (a & Ha & _ & _). rewrite Ha.
    destruct (findIndex (fun p => MealPlanItem.date p =? date) plan) as [targetIdx|] eqn:Htgt.
    + destruct (findIndex_Some _ _ _ Htgt) as (b & Hb & Hdb & _). rewrite Hb.
      apply Z.eqb_eq in Hdb. rewrite <- Hdb. now apply swap_dates_unique.
    + apply move_dates_unique; [exact Ha| |exact Hu].
      intros p Hp. apply Z.eqb_neq. now apply (findIndex_None_inv _ _ Htgt).
  - cbn [snd SyncActions.handleDeleteRecipe]. now apply filter_dates_unique.
Qed.

Lemma one_meal_per_day_kept_witness :
  List.NoDup (List.map MealPlanItem.date (SyncActions.handleMoveMealTo Cases.twoDays 10 10))
  /\ List.NoDup (List.map MealPlanItem.date (SyncActions.handleMoveMealTo Cases.twoDays 10 11)).
Proof.
  assert (Hu : List.NoDup (List.map MealPlanItem.date Cases.twoDays)).
  { cbn. repeat constructor; cbn; intuition congruence. }
  split.
  - destruct (one_meal_per_day_kept Cases.twoDays [] 0 10 10 1 30 PlannerActions.down Hu)
      as (_ & _ & H & _). exact H.
  - destruct (one_meal_per_day_kept Cases.twoDays [] 0 10 11 1 30 PlannerActions.down Hu)
      as (_ & _ & H & _). exact H.
Defined.

Lemma filter_none {A : Type} (f : A -> bool) (l : list A) :
  (forall x, In x l -> f x = false) -> List.filter f l = [].
Proof.
  induction l as [|a l IH]; intros H; [reflexivity|]. cbn [List.filter].
  rewrite (H a) by now left. apply IH. intros x Hx. apply H. now right.
Qed.

Lemma filter_all {A : Type} (f : A -> bool) (l : list A) :
  (forall x, In x l -> f x = true) -> List.filter f l = l.
Proof.
  induction l as [|a l IH]; intros H; [reflexivity|]. cbn [List.filter].
  rewrite (H a) by now left. f_equal. apply IH. intros x Hx. apply H. now right.
Qed.

(** X13. Adding a meal in the second shell replaces the meal of that day:
    afterwards the new meal is the only one on the date, it points to the
    chosen recipe and is neither cooked nor rated, and the meals of the
    other days are the ones of before, in their order.  Removing the meal of
    the date again gives back a plan that had no meal on the date. *)
Theorem add_meal_replaces_day
    (now : Z) (recipes : list Recipe.t) (plan : list MealPlanItem.t) (date recipeId : Z) :
  let newPlan := SyncActions.handleAddMeal now recipes plan date recipeId in
  (exists newMeal,
      List.filter (fun p => MealPlanItem.date p =? date) newPlan = [newMeal]
      /\ MealPlanItem.id newMeal = now
      /\ MealPlanItem.recipe_id newMeal = recipeId
      /\ MealPlanItem.is_cooked newMeal = false
      /\ MealPlanItem.rating newMeal = None)
  /\ List.filter (fun p => negb (MealPlanItem.date p =? date)) newPlan
     = List.filter (fun p => negb (MealPlanItem.date p =? date)) plan
  /\ (List.find (fun p => MealPlanItem.date p =? date) plan = None ->
      SyncActions.handleRemoveMeal newPlan date = plan).
Proof.
  intros newPlan. subst newPlan. unfold SyncActions.handleAddMeal.
  set (newMeal := MealPlanItem.mk now date DINNER recipeId _ false false None None _).
  set (others := List.filter (fun p => negb (MealPlanItem.date p =? date)) plan).
  assert (Hon : List.filter (fun p => MealPlanItem.date p =? date) (others ++ [newMeal])
                = [newMeal]).
  { rewrite List.filter_app. rewrite filter_none.
    - cbn. now rewrite Z.eqb_refl.
    - intros x Hx. apply filter_In in Hx as [_ Hx]. now apply negb_true_iff in Hx. }
  assert (Hoff : List.filter (fun p => negb (MealPlanItem.date p =? date)) (others ++ [newMeal])
                 = others).
  { rewrite List.filter_app. rewrite filter_all.
    - cbn. rewrite Z.eqb_refl. cbn. apply app_nil_r.
    - intros x Hx. now apply filter_In in Hx as [_ Hx]. }
  split; [exists newMeal; repeat split; exact Hon|]. split; [exact Hoff|].
  intros Hnone. unfold SyncActions.handleRemoveMeal.
  destruct (List.find _ (others ++ [newMeal])) eqn:Hf.
  - rewrite Hoff. apply filter_all. intros x Hx.
    apply negb_true_iff. exact (find_none _ _ Hnone x Hx).
  - exfalso. pose proof (find_none _ _ Hf newMeal) as H.
    cbn in H. rewrite Z.eqb_refl in H. discriminate H. apply in_or_app. right. now left.
Qed.

Lemma add_meal_replaces_day_witness :
  SyncActions.handleRemoveMeal
    (SyncActions.handleAddMeal 0 [Scenario.roast] Cases.twoDays 12 1) 12
  = Cases.twoDays.
Proof.
  destruct (add_meal_replaces_day 0 [Scenario.roast] Cases.twoDays 12 1) as (_ & _ & Hback).
  apply Hback. reflexivity.
Defined.

Lemma sliceLast_length {A : Type} (n : nat) (l : list A) : (length (sliceLast n l) <= n)%nat.
Proof. unfold sliceLast. rewrite length_skipn. lia. Qed.

Lemma sliceLast_short {A : Type} (n : nat) (l : list A) :
  (length l <= n)%nat -> sliceLast n l = l.
Proof. intros H. unfold sliceLast. replace (length l - n)%nat with 0%nat by lia. reflexivity. Qed.

Lemma undo_after_save (st : PlannerActions.State) (newPlan : list MealPlanItem.t) :
  PlannerActions.handleUndoPlan
    (PlannerActions.mkState newPlan
       (PlannerActions.planHistory (PlannerActions.savePlanToHistory st)))
  = PlannerActions.mkState (PlannerActions.plan st)
                           (sliceLast 9 (PlannerActions.planHistory st)).
Proof.
  unfold PlannerActions.handleUndoPlan, PlannerActions.savePlanToHistory.
  cbn [PlannerActions.planHistory PlannerActions.plan].
  now rewrite last_snoc, removelast_last.
Qed.

(** X14. Undo in the first shell.  The history holds at most 10 plans.  A
    handler that saves the plan before it changes it (add, move, drag,
    remove) is taken back by one [handleUndoPlan]: the plan is the one of
    before, and so is the history when it held at most 9 plans (the oldest
    one is dropped otherwise).  When the handler finds nothing to do it
    leaves the state as it is. *)
Theorem undo_restores_plan
    (st : PlannerActions.State) (now : Z) (recipes : list Recipe.t)
    (date recipeId mealId : Z) (direction : PlannerActions.Direction) :
  let restored := PlannerActions.mkState (PlannerActions.plan st)
                                         (sliceLast 9 (PlannerActions.planHistory st)) in
  (length (PlannerActions.planHistory (PlannerActions.savePlanToHistory st)) <= 10)%nat
  /\ ((length (PlannerActions.planHistory st) <= 9)%nat -> restored = st)
  /\ PlannerActions.handleUndoPlan (PlannerActions.handleAddMeal now recipes st date recipeId)
     = restored
  /\ (PlannerActions.handleMoveMeal st date direction = st
      \/ PlannerActions.handleUndoPlan (PlannerActions.handleMoveMeal st date direction)
         = restored)
  /\ (PlannerActions.handleReorderMeal st mealId date = st
      \/ PlannerActions.handleUndoPlan (PlannerActions.handleReorderMeal st mealId date)
         = restored)
  /\ (PlannerActions.handleRemoveMeal st date = st
      \/ PlannerActions.handleUndoPlan (PlannerActions.handleRemoveMeal st date) = restored).
Proof.
  intros restored. subst restored. repeat split.
  - unfold PlannerActions.savePlanToHistory. cbn [PlannerActions.planHistory].
    rewrite length_app. cbn [length]. pose proof (sliceLast_length 9 (PlannerActions.planHistory st)).
    lia.
  - intros Hshort. rewrite sliceLast_short by exact Hshort. now destruct st.
  - unfold PlannerActions.handleAddMeal. destruct (List.find _ recipes).
    + apply undo_after_save.
    + apply (undo_after_save st (PlannerActions.plan st)).
  - unfold PlannerActions.handleMoveMeal.
    destruct (List.find _ (PlannerActions.plan st)); [right; apply undo_after_save | now left].
  - unfold PlannerActions.handleReorderMeal.
    destruct (List.find _ (PlannerActions.plan st)) as [meal|]; [|now left].
    destruct (MealPlanItem.date meal =? date); [now left|]. right.
    destruct (List.find _ (PlannerActions.plan st)); apply undo_after_save.
  - unfold PlannerActions.handleRemoveMeal.
    destruct (List.find _ (PlannerActions.plan st)); [right; apply undo_after_save | now left].
Qed.

Lemma undo_restores_plan_witness :
  PlannerActions.handleUndoPlan
    (PlannerActions.handleAddMeal 0 [Scenario.roast] Cases.idle 12 1)
  = Cases.idle.
Proof.
  destruct (undo_restores_plan Cases.idle 0 [Scenario.roast] 12 1 30 PlannerActions.down)
    as (_ & Hsame & Hadd & _).
  rewrite Hadd. apply Hsame. simpl. lia.
Defined.

(** X15. [generateInitialPlan] on a catalog that is not empty returns seven
    meals, one for each turn of its loop and in this order; the meal of
    turn [i] has the date computed in that turn, it is recipe
    [i mod length] of the catalog at its current version (1 when the version
    is 0) and its default servings, uncooked and unrated, with id
    [Date.now() + i].  On an empty catalog it throws. *)
Theorem initial_plan_week (dateNow : nat -> Z) (dateStrOf : nat -> Z) (recipes : list Recipe.t) :
  (recipes <> [] ->
   exists items,
     Seed.generateInitialPlan dateNow dateStrOf recipes = Some items
     /\ length items = 7%nat
     /\ List.map MealPlanItem.date items = List.map dateStrOf (seq 0 7)
     /\ forall i p, items !! i = Some p ->
          exists r, nth_error recipes (i mod length recipes) = Some r
                    /\ MealPlanItem.id p = dateNow i + Z.of_nat i
                    /\ MealPlanItem.date p = dateStrOf i
                    /\ MealPlanItem.recipe_id p = Recipe.id r
                    /\ MealPlanItem.recipe_version p
                       = Some (if Recipe.version r =? 0 then 1 else Recipe.version r)
                    /\ MealPlanItem.servings p = Some (Recipe.servings_default r)
                    /\ MealPlanItem.is_cooked p = false
                    /\ MealPlanItem.rating p = None)
  /\ (recipes = [] -> Seed.generateInitialPlan dateNow dateStrOf recipes = None).
Proof.
  split; [|now intros ->].
  intros Hne.
  destruct (collect_Some (Seed.initialItem dateNow dateStrOf recipes) (seq 0 7))
    as (items & Hitems & Hall).
  { intros i _. unfold Seed.initialItem. destruct recipes as [|r rs]; [congruence|].
    destruct (nth_error (r :: rs) (i mod length (r :: rs))) as [x|] eqn:Hx; [eauto|].
    apply nth_error_None in Hx.
    pose proof (Nat.mod_upper_bound i (length (r :: rs))) as Hlt. cbn [length] in *. lia. }
  exists items. split; [exact Hitems|].
  pose proof (initial_dates dateNow dateStrOf recipes items Hitems) as Hdates.
  split; [|split; [exact Hdates|]].
  { apply (f_equal (@length Z)) in Hdates. now rewrite !length_map, length_seq in Hdates. }
  intros i p Hp. destruct (Forall2_lookup_r _ _ _ _ _ Hall Hp) as (j & Hj & Hitem).
  apply lookup_seq in Hj as [-> _]. cbn [Nat.add] in Hitem.
  unfold Seed.initialItem in Hitem. destruct recipes as [|r0 rs]; [discriminate|].
  destruct (nth_error (r0 :: rs) (i mod length (r0 :: rs))) as [r|]; [|discriminate].
  injection Hitem as <-. exists r. cbn. unfold JS.orElseZ, JS.truthyZ.
  repeat split. now destruct (Recipe.version r =? 0).
Qed.

(** The dates of a week in which the clocks go forward. *)
Lemma initial_plan_week_witness :
  exists items,
    Seed.generateInitialPlan (fun _ => 0)
      (fun i => if (i <? 3)%nat then Z.of_nat i else Z.of_nat i - 1)
      [Scenario.roast; Scenario.stew] = Some items
    /\ List.map MealPlanItem.date items = [0; 1; 2; 2; 3; 4; 5].
Proof.
  destruct (initial_plan_week (fun _ => 0)
              (fun i => if (i <? 3)%nat then Z.of_nat i else Z.of_nat i - 1)
              [Scenario.roast; Scenario.stew]) as [Hweek _].
  destruct Hweek as (items & Hitems & _ & Hdates & _); [discriminate|].
  exists items. split; [exact Hitems | exact Hdates].
Defined.

(** X16. Regenerating the week in the second shell returns the history of
    the old plan followed by the seven meals of [generateInitialPlan] over
    the catalog in reverse order; on an empty catalog it throws.  When none
    of the dates of the new week belongs to the history (none is before
    [keptBefore]), the history of the new plan is exactly that of the old
    one, and the rest of the new plan is exactly the new week. *)
Theorem regenerate_keeps_history
    (dateNow : nat -> Z) (dateStrOf : nat -> Z) (keptBefore : Z) (recipes : list Recipe.t)
    (plan : list MealPlanItem.t) :
  (recipes <> [] ->
   exists week newPlan,
     SyncActions.handleRegeneratePlan dateNow dateStrOf keptBefore recipes plan = Some newPlan
     /\ Seed.generateInitialPlan dateNow dateStrOf (rev recipes) = Some week
     /\ newPlan = List.filter (fun p => MealPlanItem.date p <? keptBefore) plan ++ week
     /\ List.map MealPlanItem.date week = List.map dateStrOf (seq 0 7)
     /\ ((forall i, (i < 7)%nat -> keptBefore <= dateStrOf i) ->
         List.filter (fun p => MealPlanItem.date p <? keptBefore) newPlan
         = List.filter (fun p => MealPlanItem.date p <? keptBefore) plan
         /\ List.filter (fun p => keptBefore <=? MealPlanItem.date p) newPlan = week))
  /\ (recipes = [] ->
      SyncActions.handleRegeneratePlan dateNow dateStrOf keptBefore recipes plan = None).
Proof.
  split; [|now intros ->].
  intros Hne. unfold SyncActions.handleRegeneratePlan.
  destruct (Seed.generateInitialPlan dateNow dateStrOf (rev recipes)) as [week|] eqn:Hweek.
  - pose proof (initial_dates _ _ _ _ Hweek) as Hdates.
    exists week, (List.filter (fun p => MealPlanItem.date p <? keptBefore) plan ++ week).
    split; [reflexivity|]. split; [reflexivity|]. split; [reflexivity|].
    split; [exact Hdates|]. intros Hlater.
    assert (Hfuture : forall p, In p week -> keptBefore <= MealPlanItem.date p).
    { intros p Hp. apply (in_map MealPlanItem.date) in Hp. rewrite Hdates in Hp.
      apply in_map_iff in Hp as (i & <- & Hi). apply in_seq in Hi. apply Hlater. lia. }
    split.
    + rewrite List.filter_app. rewrite (filter_none _ week).
      * rewrite app_nil_r. apply filter_all. intros x Hx. now apply filter_In in Hx as [_ Hx].
      * intros x Hx. apply Z.ltb_ge. now apply Hfuture.
    + rewrite List.filter_app. rewrite filter_none.
      * cbn [app]. apply filter_all. intros x Hx. apply Z.leb_le. now apply Hfuture.
      * intros x Hx. apply filter_In in Hx as [_ Hx]. apply Z.ltb_lt in Hx. apply Z.leb_gt. lia.
  - exfalso. destruct (rev recipes) as [|r rs] eqn:Hrev.
    + apply (f_equal (@rev Recipe.t)) in Hrev. rewrite rev_involutive in Hrev. now apply Hne.
    + destruct (collect_Some (Seed.initialItem dateNow dateStrOf (r :: rs)) (seq 0 7))
        as (items & Hitems & _).
      { intros i _. unfold Seed.initialItem.
        destruct (nth_error (r :: rs) (i mod length (r :: rs))) as [x|] eqn:Hx; [eauto|].
        apply nth_error_None in Hx.
        pose proof (Nat.mod_upper_bound i (length (r :: rs))) as Hlt. cbn [length] in *. lia. }
      unfold Seed.generateInitialPlan in Hweek. congruence.
Qed.

Lemma regenerate_keeps_history_witness :
  exists week newPlan,
    SyncActions.handleRegeneratePlan (fun _ => 0) (fun i => 10 + Z.of_nat i) 10 [Scenario.roast]
                                     (Scenario.eatenB :: Cases.twoDays) = Some newPlan
    /\ List.filter (fun p => MealPlanItem.date p <? 10) newPlan = [Scenario.eatenB]
    /\ List.filter (fun p => 10 <=? MealPlanItem.date p) newPlan = week.
Proof.
  destruct (regenerate_keeps_history (fun _ => 0) (fun i => 10 + Z.of_nat i) 10 [Scenario.roast]
                                     (Scenario.eatenB :: Cases.twoDays)) as [Hnew _].
  destruct Hnew as (week & newPlan & Hplan & _ & _ & _ & Hsplit); [discriminate|].
  destruct Hsplit as [Hpast Hfuture]; [intros i _; lia|].
  exists week, newPlan. split; [exact Hplan|]. split; [exact Hpast | exact Hfuture].
Defined.

End PlanHandlers.

(** ** The two shells side by side *)

Section TwoShells.

Lemma ids_unique_alt (plan : list MealPlanItem.t) :
  List.NoDup (List.map MealPlanItem.id plan)
  <-> forall i j a b, plan !! i = Some a -> plan !! j = Some b ->
                      MealPlanItem.id a = MealPlanItem.id b -> i = j.
Proof.
  rewrite <- NoDup_ListNoDup. change (List.map MealPlanItem.id plan)
    with (MealPlanItem.id <$> plan). rewrite NoDup_alt. split.
  - intros H i j a b Ha Hb Hd. apply (H i j (MealPlanItem.id a)).
    + now rewrite list_lookup_fmap, Ha.
    + rewrite list_lookup_fmap, Hb. cbn. now rewrite Hd.
  - intros H i j x Hi Hj. rewrite list_lookup_fmap in Hi, Hj.
    destruct (plan !! i) as [a|] eqn:Ha; [|discriminate].
    destruct (plan !! j) as [b|] eqn:Hb; [|discriminate].
    cbn in Hi, Hj. apply (H i j a b Ha Hb). congruence.
Qed.

Lemma find_findIndex {A : Type} (f : A -> bool) (l : list A) :
  List.find f l = match findIndex f l with
                  | Some i => l !! i
                  | None => None
                  end.
Proof.
  induction l as [|a l IH]; [reflexivity|]. cbn [List.find findIndex].
  destruct (f a); [reflexivity|]. rewrite IH. destruct (findIndex f l); reflexivity.
Qed.

Lemma withDate_same (p : MealPlanItem.t) : withDate p (MealPlanItem.date p) = p.
Proof. now destruct p. Qed.

(** With distinct ids, a [map] that rewrites the meals with the ids of two
    places is the assignment to these two places. *)
Lemma map_two_places (plan : list MealPlanItem.t) (i t : nat) (a b : MealPlanItem.t)
    (g h : MealPlanItem.t -> MealPlanItem.t) :
  List.NoDup (List.map MealPlanItem.id plan) ->
  plan !! i = Some a -> plan !! t = Some b -> i <> t ->
  List.map (fun p => if MealPlanItem.id p =? MealPlanItem.id a then g p
                     else if MealPlanItem.id p =? MealPlanItem.id b then h p else p) plan
  = <[t := h b]> (<[i := g a]> plan).
Proof.
  intros Hu Ha Hb Hit. rewrite ids_unique_alt in Hu. apply list_eq. intros j.
  match goal with |- List.map ?F plan !! j = _ => change (List.map F plan) with (F <$> plan) end.
  rewrite list_lookup_fmap.
  pose proof (lookup_lt_Some _ _ _ Ha) as Hi. pose proof (lookup_lt_Some _ _ _ Hb) as Ht.
  destruct (decide (j = t)) as [->|Hjt].
  - rewrite list_lookup_insert_eq by (now rewrite length_insert). rewrite Hb. cbn.
    destruct (MealPlanItem.id b =? MealPlanItem.id a) eqn:Hba.
    + apply Z.eqb_eq in Hba. symmetry in Hba. now destruct (Hit (Hu _ _ _ _ Ha Hb Hba)).
    + now rewrite Z.eqb_refl.
  - rewrite list_lookup_insert_ne by congruence.
    destruct (decide (j = i)) as [->|Hji].
    + rewrite list_lookup_insert_eq by exact Hi. rewrite Ha. cbn. now rewrite Z.eqb_refl.
    + rewrite list_lookup_insert_ne by congruence.
      destruct (plan !! j) as [p|] eqn:Hp; [|reflexivity]. cbn.
      destruct (MealPlanItem.id p =? MealPlanItem.id a) eqn:Hpa.
      { apply Z.eqb_eq in Hpa. now destruct (Hji (Hu _ _ _ _ Hp Ha Hpa)). }
      destruct (MealPlanItem.id p =? MealPlanItem.id b) eqn:Hpb.
      { apply Z.eqb_eq in Hpb. now destruct (Hjt (Hu _ _ _ _ Hp Hb Hpb)). }
      reflexivity.
Qed.

Lemma map_one_place (plan : list MealPlanItem.t) (i : nat) (a : MealPlanItem.t)
    (g : MealPlanItem.t -> MealPlanItem.t) :
  List.NoDup (List.map MealPlanItem.id plan) ->
  plan !! i = Some a ->
  List.map (fun p => if MealPlanItem.id p =? MealPlanItem.id a then g p else p) plan
  = <[i := g a]> plan.
Proof.
  intros Hu Ha. rewrite ids_unique_alt in Hu. apply list_eq. intros j.
  match goal with |- List.map ?F plan !! j = _ => change (List.map F plan) with (F <$> plan) end.
  rewrite list_lookup_fmap. pose proof (lookup_lt_Some _ _ _ Ha) as Hi.
  destruct (decide (j = i)) as [->|Hji].
  - rewrite list_lookup_insert_eq by exact Hi. rewrite Ha. cbn. now rewrite Z.eqb_refl.
  - rewrite list_lookup_insert_ne by congruence.
    destruct (plan !! j) as [p|] eqn:Hp; [|reflexivity]. cbn.
    destruct (MealPlanItem.id p =? MealPlanItem.id a) eqn:Hpa; [|reflexivity].
    apply Z.eqb_eq in Hpa. now destruct (Hji (Hu _ _ _ _ Hp Ha Hpa)).
Qed.

Lemma step_nonzero (direction : PlannerActions.Direction) : PlannerActions.step direction <> 0.
Proof. now destruct direction. Qed.

(** X17. On a plan whose meals have pairwise distinct ids the two shells
    edit the plan alike: moving a meal up or down, dragging it to another
    day, changing its servings and removing the meal of a day give the same
    plan in the first shell (which rewrites the meals by id) and in the
    second (which assigns to the places found by date and id). *)
Theorem shells_edit_plan_alike
    (st : PlannerActions.State) (date mealId : Z) (direction : PlannerActions.Direction)
    (servings : Q) :
  List.NoDup (List.map MealPlanItem.id (PlannerActions.plan st)) ->
  PlannerActions.plan (PlannerActions.handleMoveMeal st date direction)
  = SyncActions.handleMoveMeal (PlannerActions.plan st) date direction
  /\ PlannerActions.plan (PlannerActions.handleReorderMeal st mealId date)
     = SyncActions.handleReorderMeal (PlannerActions.plan st) mealId date
  /\ PlannerActions.handleUpdateServings (PlannerActions.plan st) mealId servings
     = SyncActions.handleUpdateServings (PlannerActions.plan st) mealId servings
  /\ PlannerActions.plan (PlannerActions.handleRemoveMeal st date)
     = SyncActions.handleRemoveMeal (PlannerActions.plan st) date.
Proof.
  destruct st as [plan history]. cbn [PlannerActions.plan]. intros Hu.
  split; [|split; [|split]].
  - unfold PlannerActions.handleMoveMeal, SyncActions.handleMoveMeal. cbn [PlannerActions.plan].
    rewrite !find_findIndex.
    destruct (findIndex _ plan) as [idx|] eqn:Hidx; [|reflexivity].
    destruct (findIndex_Some _ _ _ Hidx) as (a & Ha & Hda & _). rewrite Ha.
    apply Z.eqb_eq in Hda. cbn [PlannerActions.plan].
    destruct (findIndex (fun p => MealPlanItem.date p =? date + PlannerActions.step direction) plan)
      as [targetIdx|] eqn:Htgt.
    + destruct (findIndex_Some _ _ _ Htgt) as (b & Hb & Hdb & _). rewrite Hb.
      apply Z.eqb_eq in Hdb. apply map_two_places; try assumption.
      intros ->. pose proof (step_nonzero direction). rewrite Ha in Hb. injection Hb as <-. lia.
    + now apply map_one_place.
  - unfold PlannerActions.handleReorderMeal, SyncActions.handleReorderMeal.
    cbn [PlannerActions.plan]. rewrite !find_findIndex.
    destruct (findIndex _ plan) as [idx|] eqn:Hidx; [|reflexivity].
    destruct (findIndex_Some _ _ _ Hidx) as (a & Ha & Hia & _). rewrite Ha.
    apply Z.eqb_eq in Hia. subst mealId.
    destruct (findIndex (fun p => MealPlanItem.date p =? date) plan) as [targetIdx|] eqn:Htgt.
    + destruct (findIndex_Some _ _ _ Htgt) as (b & Hb & Hdb & _). rewrite Hb.
      apply Z.eqb_eq in Hdb.
      destruct (MealPlanItem.date a =? date) eqn:Hsame.
      * apply Z.eqb_eq in Hsame. cbn [PlannerActions.plan].
        rewrite <- Hsame at 1. rewrite withDate_same, (list_insert_id plan idx a Ha).
        rewrite Hsame, <- Hdb, withDate_same. now rewrite (list_insert_id plan targetIdx b Hb).
      * cbn [PlannerActions.plan]. apply map_two_places; try assumption.
        intros ->. rewrite Ha in Hb. injection Hb as <-. apply Z.eqb_neq in Hsame. congruence.
    + destruct (MealPlanItem.date a =? date) eqn:Hsame.
      * apply Z.eqb_eq in Hsame. cbn [PlannerActions.plan].
        rewrite <- Hsame, withDate_same. now rewrite (list_insert_id plan idx a Ha).
      * cbn [PlannerActions.plan]. now apply map_one_place.
  - unfold PlannerActions.handleUpdateServings, SyncActions.handleUpdateServings.
    rewrite find_findIndex.
    destruct (findIndex _ plan) as [idx|] eqn:Hidx.
    + destruct (findIndex_Some _ _ _ Hidx) as (a & Ha & Hia & _). rewrite Ha.
      apply Z.eqb_eq in Hia. subst mealId.
      rewrite (map_one_place plan idx a (fun p => Spec.withServings p (Some servings)) Hu Ha).
      now rewrite (map_one_place plan idx a
                     (fun _ => Spec.withServings a (Some servings)) Hu Ha).
    + rewrite <- (List.map_id plan) at 2. apply List.map_ext_in. intros p Hp.
      now rewrite (findIndex_None_inv _ _ Hidx p Hp).
  - unfold PlannerActions.handleRemoveMeal, SyncActions.handleRemoveMeal.
    cbn [PlannerActions.plan]. now destruct (List.find _ plan).
Qed.

Lemma shells_edit_plan_alike_witness :
  PlannerActions.plan (PlannerActions.handleMoveMeal Cases.idle 10 PlannerActions.down)
  = SyncActions.handleMoveMeal (PlannerActions.plan Cases.idle) 10 PlannerActions.down.
Proof.
  assert (Hu : List.NoDup (List.map MealPlanItem.id (PlannerActions.plan Cases.idle))).
  { cbn. repeat constructor; cbn; intuition congruence. }
  destruct (shells_edit_plan_alike Cases.idle 10 30 PlannerActions.down 2 Hu) as (H & _).
  exact H.
Defined.

Lemma findIndex_insert_same {A : Type} (f : A -> bool) (l : list A) (x : A) :
  forall i, findIndex f l = Some i -> f x = true -> findIndex f (<[i := x]> l) = Some i.
Proof.
  induction l as [|a l IH]; intros i; cbn [findIndex]; [discriminate|].
  destruct (f a) eqn:Hfa.
  - intros [= <-] Hx. change (<[0%nat := x]> (a :: l)) with (x :: l).
    cbn [findIndex]. now rewrite Hx.
  - destruct (findIndex f l) as [i'|] eqn:Hl; [|discriminate]. intros [= <-] Hx.
    change (<[S i' := x]> (a :: l)) with (a :: <[i' := x]> l).
    cbn [findIndex]. rewrite Hfa. now rewrite (IH i' eq_refl Hx).
Qed.

Lemma findIndex_app_None {A : Type} (f : A -> bool) (l l' : list A) :
  findIndex f l = None ->
  findIndex f (l ++ l') = option_map (Nat.add (length l)) (findIndex f l').
Proof.
  induction l as [|a l IH]; cbn [findIndex app length].
  - intros _. now destruct (findIndex f l').
  - destruct (f a); [discriminate|]. destruct (findIndex f l); [discriminate|].
    intros _. rewrite (IH eq_refl). now destruct (findIndex f l').
Qed.

Lemma withChecked_twice (item : ShoppingItem.t) :
  withChecked (withChecked item (negb (ShoppingItem.checked item)))
              (negb (ShoppingItem.checked
                       (withChecked item (negb (ShoppingItem.checked item)))))
  = item.
Proof. destruct item. cbn. now rewrite negb_involutive. Qed.

(** X18. Toggling the same line twice in the first shell gives back the
    stored items when the line is stored; a line that is not stored yet is
    stored by the first toggle and set back to its own flag by the second. *)
Theorem toggle_twice (shoppingItems : list ShoppingItem.t) (item : ShoppingItem.t) :
  let found := findIndex (fun i => ShoppingItem.id i =? ShoppingItem.id item) shoppingItems in
  PlannerActions.handleToggleItem (PlannerActions.handleToggleItem shoppingItems item) item
  = match found with
    | Some _ => shoppingItems
    | None => shoppingItems ++ [item]
    end.
Proof.
  intros found. subst found. unfold PlannerActions.handleToggleItem at 2.
  destruct (findIndex _ shoppingItems) as [idx|] eqn:Hidx.
  - destruct (findIndex_Some _ _ _ Hidx) as (existing & He & Hid & _). rewrite He.
    set (toggled := withChecked existing (negb (ShoppingItem.checked existing))).
    unfold PlannerActions.handleToggleItem.
    rewrite (findIndex_insert_same _ shoppingItems toggled idx Hidx) by exact Hid.
    rewrite list_lookup_insert_eq by (now apply (lookup_lt_Some _ _ existing)).
    rewrite list_insert_insert_eq. unfold toggled. rewrite withChecked_twice.
    now apply list_insert_id.
  - set (toggled := withChecked item (negb (ShoppingItem.checked item))).
    unfold PlannerActions.handleToggleItem.
    rewrite (findIndex_app_None _ shoppingItems [toggled] Hidx).
    cbn [findIndex]. change (ShoppingItem.id toggled) with (ShoppingItem.id item).
    rewrite Z.eqb_refl. cbn [option_map]. rewrite Nat.add_0_r.
    rewrite list_lookup_middle by reflexivity.
    rewrite (insert_app_r_alt shoppingItems [toggled]) by lia.
    rewrite Nat.sub_diag. cbn. unfold toggled. now rewrite withChecked_twice.
Qed.

End TwoShells.

(** ** Clearing statistics and reviews; what a generated meal shops *)

Section ClearingAndGenerating.
Import MockData PlannerApp.

Lemma filter_implied {A : Type} (f g : A -> bool) (l : list A) :
  (forall x, f x = true -> g x = true) ->
  List.filter f (List.filter g l) = List.filter f l.
Proof.
  intros H. induction l as [|a l IH]; [reflexivity|]. cbn [List.filter].
  destruct (g a) eqn:Hg; cbn [List.filter].
  - now rewrite IH.
  - destruct (f a) eqn:Hf; [|exact IH]. apply H in Hf. congruence.
Qed.

(** X19. Clearing the statistics removes the meals before today and nothing
    else, so the shopping list of the second shell and the shop view of the
    first shell for this week and the weeks after it stay as they are. *)
Theorem clear_stats_keeps_lists
    (now : nat -> positive) (today weekOffset : Z) (items : list ShoppingItem.t)
    (plan : list MealPlanItem.t) (recipes : list Recipe.t) (pantry_staples : list string) :
  0 <= weekOffset ->
  SyncApp.syncShoppingList now today items (PlannerActions.handleClearStats today plan)
                           recipes pantry_staples
  = SyncApp.syncShoppingList now today items plan recipes pantry_staples
  /\ ShopView.visibleItems now today weekOffset items
       (PlannerActions.handleClearStats today plan) recipes pantry_staples
     = ShopView.visibleItems now today weekOffset items plan recipes pantry_staples.
Proof.
  intros Hw. unfold SyncApp.syncShoppingList, ShopView.visibleItems, ShopView.visiblePlan,
    PlannerActions.handleClearStats. split.
  - now rewrite filter_implied.
  - rewrite filter_implied; [reflexivity|]. intros p Hp.
    apply andb_true_iff in Hp as [Hp _]. apply Z.leb_le in Hp. apply Z.leb_le. lia.
Qed.

Lemma clear_stats_keeps_lists_witness :
  ShopView.visibleItems Scenario.now77 10 0 []
    (PlannerActions.handleClearStats 10 (Scenario.eatenB :: Cases.twoDays))
    [Scenario.roast] ["Salt"%string]
  = ShopView.visibleItems Scenario.now77 10 0 [] (Scenario.eatenB :: Cases.twoDays)
      [Scenario.roast] ["Salt"%string].
Proof.
  apply (clear_stats_keeps_lists Scenario.now77 10 0 [] (Scenario.eatenB :: Cases.twoDays)). lia.
Defined.

(** X20. What clearing does to the scores of the plan generator.  After
    [handleClearReviews] no meal of the plan counts as a rating: the quality
    of every recipe is its own rating, or 3.5 without one.  After
    [handleClearStats] the plan holds no meal before the date [today] that
    the handler read: for a day [dateStr] that is not after that date the
    generator finds no earlier meal of any recipe, sees 100 days since the
    last one and takes off no penalty. *)
Theorem clearing_resets_scores
    (today dateStr : Z) (plan : list MealPlanItem.t) (recipe : Recipe.t) :
  avgRating (PlannerActions.handleClearReviews plan) recipe
  = JS.orElseQ (Recipe.rating recipe) (35 # 10)
  /\ (dateStr <= today ->
      eatenDates (PlannerActions.handleClearStats today plan) dateStr recipe = []
      /\ daysSinceOf (PlannerActions.handleClearStats today plan) dateStr recipe = 100
      /\ penalty (daysSinceOf (PlannerActions.handleClearStats today plan) dateStr recipe)
         = 0%Q).
Proof.
  split.
  - unfold avgRating, PlannerActions.handleClearReviews. rewrite filter_none; [reflexivity|].
    intros p Hp. apply in_map_iff in Hp as (q & <- & _). unfold ratedBy. cbn.
    apply andb_false_r.
  - intros Hday.
    assert (Heaten : eatenDates (PlannerActions.handleClearStats today plan) dateStr recipe
                     = []).
    { unfold eatenDates, PlannerActions.handleClearStats.
      rewrite filter_none; [reflexivity|]. intros p Hp. apply filter_In in Hp as [_ Hp].
      apply Z.leb_le in Hp. apply andb_false_iff. right. apply Z.ltb_ge. lia. }
    assert (Hdays : daysSinceOf (PlannerActions.handleClearStats today plan) dateStr recipe
                    = 100).
    { unfold daysSinceOf. now rewrite Heaten. }
    split; [exact Heaten|]. split; [exact Hdays | now rewrite Hdays].
Qed.

Lemma clearing_resets_scores_witness :
  daysSinceOf (PlannerActions.handleClearStats 10 (Scenario.eatenB :: Cases.twoDays)) 10
              Scenario.roast = 100.
Proof.
  destruct (clearing_resets_scores 10 10 (Scenario.eatenB :: Cases.twoDays) Scenario.roast)
    as [_ Hcleared].
  destruct Hcleared as (_ & Hdays & _); [lia | exact Hdays].
Defined.

Lemma resolveVersion_current (r : Recipe.t) : resolveVersion r (Some (Recipe.version r)) = r.
Proof. unfold resolveVersion. now rewrite Z.eqb_refl, andb_false_r. Qed.

Lemma orElseQ_same (d : Q) : JS.orElseQ (Some d) d = d.
Proof. unfold JS.orElseQ. now destruct (JS.truthyQ d). Qed.

(** X21. A meal the plan generator has added shops its recipe as the catalog
    has it: it resolves to the catalog recipe of its id, at the current
    version, and, when the default servings of that recipe are not 0, the
    scale is 1, so that every ingredient that is no staple contributes its
    own quantity. *)
Theorem generated_meal_shops_recipe
    (random : nat -> Q) (dateNow : nat -> Z) (recipes : list Recipe.t) (todayStr : Z)
    (plan : list MealPlanItem.t) (start : Z) (pantryStaples : list string)
    (p : MealPlanItem.t) :
  In p (handleGeneratePlan random dateNow recipes todayStr plan start) ->
  ~ In p plan ->
  exists r,
    In r recipes
    /\ Recipe.id r = MealPlanItem.recipe_id p
    /\ targetOf recipes p = Some r
    /\ (~ (Recipe.servings_default r == 0)%Q ->
        (scaleOf p r == 1)%Q
        /\ Forall2 (fun c ing =>
                      fst c = keyOf (Ingredient.item_name ing) (Ingredient.unit ing)
                      /\ (snd c == Ingredient.quantity ing)%Q)
                   (Spec.mealContribution recipes pantryStaples p)
                   (Spec.shopped pantryStaples r)).
Proof.
  intros Hin Hnew. unfold handleGeneratePlan in Hin.
  destruct (generate_fold random dateNow recipes todayStr start (seq 0 7) (plan, 0%nat))
    as (added & Heq & _ & _ & Hall).
  rewrite Heq in Hin. cbn [fst] in Hin, Hall. apply in_app_or in Hin as [Hin | Hin]; [contradiction|].
  destruct (Hall p Hin) as (_ & _ & _ & _ & _ & r & Hr & Hfind & Hv & Hs).
  assert (Htarget : targetOf recipes p = Some r).
  { unfold targetOf, findRecipe. rewrite Hfind, Hv. now rewrite resolveVersion_current. }
  exists r. split; [exact Hr|]. split.
  { apply find_some in Hfind as [_ Hid]. now apply Z.eqb_eq in Hid. }
  split; [exact Htarget|]. intros Hd.
  assert (Hscale : (scaleOf p r == 1)%Q).
  { unfold scaleOf. rewrite Hs, orElseQ_same. now field. }
  split; [exact Hscale|].
  unfold Spec.mealContribution, Spec.shopped. rewrite Htarget.
  induction (List.filter _ (Recipe.ingredients r)) as [|ing l IH]; cbn [List.map]; constructor.
  - cbn [fst snd]. split; [reflexivity|]. rewrite Hscale. ring.
  - exact IH.
Qed.

Lemma generated_meal_shops_recipe_witness :
  exists r, In r [Scenario.roast]
            /\ targetOf [Scenario.roast]
                 (MealPlanItem.mk 0 0 DINNER 1 (Some 1) false false None None (Some 4%Q))
               = Some r.
Proof.
  assert (Hin : In (MealPlanItem.mk 0 0 DINNER 1 (Some 1) false false None None (Some 4%Q))
                   (handleGeneratePlan Scenario.halves (fun _ => 0) [Scenario.roast] 0 [] 0)).
  { vm_compute. left. reflexivity. }
  destruct (generated_meal_shops_recipe Scenario.halves (fun _ => 0) [Scenario.roast] 0 [] 0
              ["Salt"%string] _ Hin (fun H : In _ [] => H))
    as (r & Hr & _ & Ht & _).
  exists r. split; [exact Hr | exact Ht].
Defined.

End ClearingAndGenerating.

(** ** Which names a staple matches *)

Section StapleMatching.
Import JS.

Lemma last_In {A : Type} (l : list A) (x : A) : last l = Some x -> In x l.
Proof.
  induction l as [|a l IH]; [discriminate|]. destruct l as [|b l].
  - intros [= <-]. now left.
  - intros H. right. now apply IH.
Qed.

Lemma head_In {A : Type} (l : list A) (x : A) : head l = Some x -> In x l.
Proof. destruct l; [discriminate|]. intros [= <-]. now left. Qed.

Lemma lower_nil (l : list ascii) : List.map toLowerChar l = [] -> l = [].
Proof. now destruct l. Qed.

(** The first word character of a list that has one. *)
Lemma first_word_char (l : list ascii) :
  existsb isWordChar l = true ->
  exists pre c post, l = pre ++ c :: post /\ isWordChar c = true
                     /\ forall x, In x pre -> isWordChar x = false.
Proof.
  induction l as [|a l IH]; [discriminate|]. cbn [existsb].
  destruct (isWordChar a) eqn:Ha.
  - intros _. exists [], a, l. split; [reflexivity|]. split; [exact Ha | intros x []].
  - cbn [orb]. intros H. destruct (IH H) as (pre & c & post & -> & Hc & Hpre).
    exists (a :: pre), c, post. split; [reflexivity|]. split; [exact Hc|].
    intros x [<- | Hx]; [exact Ha | now apply Hpre].
Qed.

Lemma isWordAt_true (o : option ascii) :
  isWordAt o = true -> exists c, o = Some c /\ isWordChar c = true.
Proof. destruct o as [c|]; [|discriminate]. intros H. now exists c. Qed.

(** X22. An empty staple matches every ingredient name that has a word
    character (a letter, a digit or an underscore), and no other name: its
    pattern is [\b\b].  With an empty string among the staples every such
    ingredient is left out of the shopping list. *)
Theorem empty_staple_matches_words (name : string) (pantryStaples : list string) :
  (MockData.stapleMatches "" name = true
   <-> existsb isWordChar (list_ascii_of_string name) = true)
  /\ (In ""%string pantryStaples ->
      existsb isWordChar (list_ascii_of_string name) = true ->
      MockData.isStaple pantryStaples name = true).
Proof.
  assert (Hiff : MockData.stapleMatches "" name = true
                 <-> existsb isWordChar (list_ascii_of_string name) = true).
  { rewrite stapleMatches_iff. unfold Pattern.matches, Pattern.boundaryBetween,
      Spec.sameIgnoringCase. cbn [list_ascii_of_string List.map]. split.
    - intros (pre & mid & post & Hname & Hmid & Hb & _).
      apply lower_nil in Hmid. subst mid. cbn [app] in *. rewrite Hname.
      apply existsb_exists.
      destruct (isWordAt (last pre)) eqn:Hl.
      + apply isWordAt_true in Hl as (c & Hc & Hw). exists c. split; [|exact Hw].
        apply in_or_app. left. now apply last_In.
      + destruct (isWordAt (head post)) eqn:Hh; [|congruence].
        apply isWordAt_true in Hh as (c & Hc & Hw). exists c. split; [|exact Hw].
        apply in_or_app. right. now apply head_In.
    - intros H. apply first_word_char in H as (pre & c & post & Hname & Hc & Hpre).
      assert (Hl : isWordAt (last pre) = false).
      { destruct (last pre) as [x|] eqn:Hx; [|reflexivity]. cbn. apply Hpre. now apply last_In. }
      exists pre, [], (c :: post). split; [exact Hname|]. split; [reflexivity|].
      rewrite app_nil_r. cbn [app head isWordAt]. rewrite Hl, Hc. split; discriminate. }
  split; [exact Hiff|]. intros Hin Hw. unfold MockData.isStaple. apply existsb_exists.
  exists ""%string. split; [exact Hin | now apply Hiff].
Qed.

Lemma empty_staple_matches_words_witness :
  MockData.isStaple ["Salt"; ""]%string "Milk" = true.
Proof.
  destruct (empty_staple_matches_words "Milk" ["Salt"; ""]%string) as [_ Hall].
  apply Hall; [right; now left | reflexivity].
Defined.

Lemma list_ascii_of_toLowerCase (s : string) :
  list_ascii_of_string (toLowerCase s) = List.map toLowerChar (list_ascii_of_string s).
Proof. induction s as [|c s IH]; [reflexivity|]. cbn. now rewrite IH. Qed.

Lemma sameIgnoringCase_strings (a b : string) :
  Spec.sameIgnoringCase (list_ascii_of_string a) (list_ascii_of_string b)
  <-> toLowerCase a = toLowerCase b.
Proof.
  unfold Spec.sameIgnoringCase. rewrite <- !list_ascii_of_toLowerCase. split.
  - intros H. apply (f_equal string_of_list_ascii) in H.
    now rewrite !string_of_list_ascii_of_string in H.
  - now intros ->.
Qed.

Lemma last_app_cons {A : Type} (l : list A) (x : A) (l' : list A) :
  last (l ++ x :: l') = last (x :: l').
Proof.
  induction l as [|a l IH]; [reflexivity|]. cbn [app]. rewrite <- IH.
  destruct (l ++ x :: l') eqn:H; [now destruct l|reflexivity].
Qed.

(** X23. On an ingredient name made of word characters only (letters, digits,
    underscores) a staple that is not empty matches exactly when it is the
    name up to case: [Salt] matches [salt] and [SALT], and neither [Salted]
    nor [Sal]. *)
Theorem staple_matches_plain_name (staple name : string) :
  staple <> ""%string ->
  forallb isWordChar (list_ascii_of_string name) = true ->
  (MockData.stapleMatches staple name = true <-> toLowerCase staple = toLowerCase name).
Proof.
  intros Hne Hword. rewrite stapleMatches_iff, <- sameIgnoringCase_strings.
  rewrite forallb_forall in Hword.
  assert (Hst : list_ascii_of_string staple <> []).
  { intros H. apply Hne. apply (f_equal string_of_list_ascii) in H.
    now rewrite string_of_list_ascii_of_string in H. }
  unfold Pattern.matches, Pattern.boundaryBetween, Spec.sameIgnoringCase. split.
  - intros (pre & mid & post & Hname & Hmid & Hb1 & Hb2).
    destruct mid as [|m mid].
    { cbn in Hmid. symmetry in Hmid. apply lower_nil in Hmid. contradiction. }
    assert (Hm : forall x, In x (pre ++ (m :: mid) ++ post) -> isWordChar x = true).
    { intros x Hx. apply Hword. now rewrite Hname. }
    assert (Hpre : pre = []).
    { destruct (last pre) as [x|] eqn:Hx.
      - exfalso. apply Hb1. cbn [app head isWordAt]. rewrite (Hm m), (Hm x); auto.
        + apply in_or_app. left. now apply last_In.
        + apply in_or_app. right. now left.
      - destruct pre as [|a pre]; [reflexivity|]. exfalso.
        clear -Hx. revert a Hx. induction pre as [|b pre IH]; intros a; [discriminate|].
        intros H. now apply (IH b). }
    assert (Hpost : post = []).
    { destruct post as [|x post]; [reflexivity|]. exfalso. apply Hb2.
      rewrite last_app_cons. cbn [head isWordAt].
      destruct (last (m :: mid)) as [y|] eqn:Hy.
      - cbn [isWordAt]. rewrite (Hm x), (Hm y); auto.
        + apply in_or_app. right. apply in_or_app. left. now apply last_In.
        + apply in_or_app. right. apply in_or_app. right. now left.
      - exfalso. clear -Hy. revert m Hy. induction mid as [|b mid IH]; intros m; [discriminate|].
        intros H. now apply (IH b). }
    subst pre post. rewrite app_nil_r in Hname. cbn [app] in Hname. rewrite Hname.
    now symmetry.
  - intros Hsame. exists [], (list_ascii_of_string name), []. rewrite app_nil_r.
    split; [reflexivity|]. split; [now symmetry|].
    destruct (list_ascii_of_string name) as [|c l] eqn:Hl.
    { cbn in Hsame. apply lower_nil in Hsame. contradiction. }
    cbn [app head isWordAt]. rewrite (Hword c) by now left. split; [discriminate|].
    destruct (last (c :: l)) as [y|] eqn:Hy.
    + cbn [isWordAt]. rewrite (Hword y) by now apply last_In. discriminate.
    + exfalso. clear -Hy. revert c Hy. induction l as [|b l IH]; intros c; [discriminate|].
      intros H. now apply (IH b).
Qed.

Lemma staple_matches_plain_name_witness :
  MockData.stapleMatches "Salt" "SALT" = true /\ MockData.stapleMatches "Salt" "Salted" <> true.
Proof.
  split.
  - apply (staple_matches_plain_name "Salt" "SALT"); [discriminate | reflexivity | reflexivity].
  - intros H. apply (staple_matches_plain_name "Salt" "Salted") in H;
      [discriminate H | discriminate | reflexivity].
Defined.

Lemma isWordChar_lower (c : ascii) : isWordChar (toLowerChar c) = isWordChar c.
Proof. destruct c as [[] [] [] [] [] [] [] []]; reflexivity. Qed.

Lemma isWordAt_last_lower (l : list ascii) :
  isWordAt (last (List.map toLowerChar l)) = isWordAt (last l).
Proof.
  induction l as [|a l IH]; [reflexivity|]. destruct l as [|b l].
  - cbn. apply isWordChar_lower.
  - exact IH.
Qed.

Lemma isWordAt_head_lower (l : list ascii) :
  isWordAt (head (List.map toLowerChar l)) = isWordAt (head l).
Proof. destruct l as [|a l]; [reflexivity|]. cbn. apply isWordChar_lower. Qed.

Lemma wordBoundary_lower (before after before' after' : list ascii) :
  List.map toLowerChar before = List.map toLowerChar before' ->
  List.map toLowerChar after = List.map toLowerChar after' ->
  Pattern.boundaryBetween before after -> Pattern.boundaryBetween before' after'.
Proof.
  unfold Pattern.boundaryBetween. intros Hb Ha.
  rewrite <- (isWordAt_last_lower before), <- (isWordAt_head_lower after), Hb, Ha.
  now rewrite isWordAt_last_lower, isWordAt_head_lower.
Qed.

Lemma split_like {A B : Type} (f : A -> B) (a b : list A) :
  forall l', List.map f l' = List.map f (a ++ b) ->
  exists a' b', l' = a' ++ b' /\ List.map f a' = List.map f a /\ List.map f b' = List.map f b.
Proof.
  induction a as [|x a IH]; intros l' H.
  - exists [], l'. auto.
  - destruct l' as [|y l']; [discriminate|]. cbn in H. injection H as Hy H.
    destruct (IH l' H) as (a' & b' & -> & Ha & Hb).
    exists (y :: a'), b'. cbn. rewrite Hy, Ha. auto.
Qed.

Lemma pattern_matches_lower (staple staple' name name' : string) :
  toLowerCase staple = toLowerCase staple' -> toLowerCase name = toLowerCase name' ->
  Pattern.matches staple name -> Pattern.matches staple' name'.
Proof.
  intros Hs Hn (pre & mid & post & Hname & Hmid & Hb1 & Hb2).
  apply sameIgnoringCase_strings in Hs, Hn. unfold Spec.sameIgnoringCase in *.
  rewrite Hname in Hn. symmetry in Hn.
  destruct (split_like toLowerChar pre (mid ++ post) _ Hn) as (pre' & rest & Hname' & Hpre & Hrest).
  destruct (split_like toLowerChar mid post _ Hrest) as (mid' & post' & -> & Hmid' & Hpost).
  exists pre', mid', post'. split; [exact Hname'|]. split; [congruence|]. split.
  - apply (wordBoundary_lower pre (mid ++ post)); [now symmetry | | exact Hb1].
    rewrite !List.map_app. congruence.
  - apply (wordBoundary_lower (pre ++ mid) post); [|now symmetry | exact Hb2].
    rewrite !List.map_app. congruence.
Qed.

Lemma stapleMatches_lower (s s' n n' : string) :
  toLowerCase s = toLowerCase s' -> toLowerCase n = toLowerCase n' ->
  MockData.stapleMatches s n = MockData.stapleMatches s' n'.
Proof.
  intros H1 H2.
  destruct (MockData.stapleMatches s n) eqn:Ha, (MockData.stapleMatches s' n') eqn:Hb;
    try reflexivity.
  - apply stapleMatches_iff in Ha. apply (pattern_matches_lower s s' n n' H1 H2) in Ha.
    apply stapleMatches_iff in Ha. congruence.
  - apply stapleMatches_iff in Hb.
    apply (pattern_matches_lower s' s n' n (eq_sym H1) (eq_sym H2)) in Hb.
    apply stapleMatches_iff in Hb. congruence.
Qed.

Lemma isStaple_lower (pantryStaples : list string) (name name' : string) :
  toLowerCase name = toLowerCase name' ->
  MockData.isStaple pantryStaples name = MockData.isStaple pantryStaples name'.
Proof.
  intros Hn. unfold MockData.isStaple.
  induction pantryStaples as [|s l IH]; [reflexivity|]. cbn [existsb].
  now rewrite IH, (stapleMatches_lower s s name name' eq_refl Hn).
Qed.

(** X24. The staple check ignores case on both sides: two staples that are
    equal up to case match the same ingredient names, and two names that
    are equal up to case are matched by the same staples, so that they are
    staples for the same lists. *)
Theorem staple_check_ignores_case
    (staple staple' name name' : string) (pantryStaples : list string) :
  toLowerCase staple = toLowerCase staple' -> toLowerCase name = toLowerCase name' ->
  MockData.stapleMatches staple name = MockData.stapleMatches staple' name'
  /\ MockData.isStaple pantryStaples name = MockData.isStaple pantryStaples name'.
Proof.
  intros Hs Hn. split.
  - now apply stapleMatches_lower.
  - now apply isStaple_lower.
Qed.

Lemma staple_check_ignores_case_witness :
  MockData.stapleMatches "Salt" "Sea salt" = MockData.stapleMatches "SALT" "sea Salt".
Proof.
  apply (staple_check_ignores_case "Salt" "SALT" "Sea salt" "sea Salt" []); reflexivity.
Defined.

End StapleMatching.

(** ** Whole words and the pattern of a staple *)

Section WholeWords.
Import JS.

Lemma stripIgnoringCase_iff (staple : list ascii) :
  forall text after,
    Spec.stripIgnoringCase staple text = Some after
    <-> exists mid, text = mid ++ after /\ Spec.sameIgnoringCase mid staple.
Proof.
  unfold Spec.sameIgnoringCase.
  induction staple as [|c staple IH]; intros text after; cbn [Spec.stripIgnoringCase].
  - split.
    + intros [= ->]. exists []. auto.
    + intros (mid & -> & Hmid). apply lower_nil in Hmid. now subst mid.
  - destruct text as [|d text].
    + split; [discriminate|]. intros (mid & Heq & Hmid).
      destruct mid; [discriminate Hmid | discriminate Heq].
    + destruct (Ascii.eqb (toLowerChar c) (toLowerChar d)) eqn:Hcd.
      * apply Ascii.eqb_eq in Hcd. rewrite IH. split.
        -- intros (mid & -> & Hmid). exists (d :: mid). cbn. split; [reflexivity|].
           now rewrite Hcd, Hmid.
        -- intros (mid & Heq & Hmid). destruct mid as [|m mid]; [discriminate Hmid|].
           cbn in Heq, Hmid. injection Heq as -> ->. injection Hmid as _ Hmid.
           exists mid. auto.
      * apply Ascii.eqb_neq in Hcd. split; [discriminate|].
        intros (mid & Heq & Hmid). destruct mid as [|m mid]; [discriminate Hmid|].
        cbn in Heq, Hmid. injection Heq as -> ->. injection Hmid as Hm _.
        exfalso. apply Hcd. now symmetry.
Qed.

(** The whole-word match of the specification, as a statement about the
    place of the match. *)
Lemma occursAsWord_iff (staple : list ascii) :
  forall text prev,
    Spec.occursAsWord staple prev text = true
    <-> exists pre mid post,
        text = pre ++ mid ++ post
        /\ Spec.sameIgnoringCase mid staple
        /\ Spec.isWordLetterAt (lastOr prev pre) = false
        /\ Spec.isWordLetterAt (head post) = false.
Proof.
  assert (Hhere : forall text prev,
             negb (Spec.isWordLetterAt prev)
             && match Spec.stripIgnoringCase staple text with
                | Some after => negb (Spec.isWordLetterAt (head after))
                | None => false
                end = true
             <-> exists mid post,
                 text = mid ++ post /\ Spec.sameIgnoringCase mid staple
                 /\ Spec.isWordLetterAt prev = false
                 /\ Spec.isWordLetterAt (head post) = false).
  { intros text prev. rewrite andb_true_iff, negb_true_iff. split.
    - intros [Hprev H].
      destruct (Spec.stripIgnoringCase staple text) as [after|] eqn:Hs; [|discriminate].
      apply stripIgnoringCase_iff in Hs as (mid & -> & Hmid).
      apply negb_true_iff in H. exists mid, after. auto.
    - intros (mid & post & -> & Hmid & Hprev & Hpost). split; [exact Hprev|].
      assert (Hs : Spec.stripIgnoringCase staple (mid ++ post) = Some post).
      { apply stripIgnoringCase_iff. exists mid. auto. }
      rewrite Hs. now apply negb_true_iff. }
  induction text as [|d text IH]; intros prev; cbn [Spec.occursAsWord].
  - rewrite orb_false_r, Hhere. split.
    + intros (mid & post & Heq & Hmid & Hprev & Hpost). exists [], mid, post. auto.
    + intros (pre & mid & post & Heq & Hmid & Hprev & Hpost).
      symmetry in Heq. apply app_eq_nil in Heq as [-> Heq]. exists mid, post. auto.
  - rewrite orb_true_iff, Hhere, IH. split.
    + intros [(mid & post & Heq & Hmid & Hprev & Hpost)
             | (pre & mid & post & -> & Hmid & Hprev & Hpost)].
      * exists [], mid, post. auto.
      * exists (d :: pre), mid, post. rewrite lastOr_cons. auto.
    + intros (pre & mid & post & Heq & Hmid & Hprev & Hpost). destruct pre as [|d' pre].
      * left. exists mid, post. auto.
      * right. cbn in Heq. injection Heq as -> ->. rewrite lastOr_cons in Hprev.
        exists pre, mid, post. auto.
Qed.

Lemma lastOr_None (pre : list ascii) : lastOr None pre = last pre.
Proof. unfold lastOr. now destruct (last pre). Qed.

Lemma isWordLetterAt_plain (o : option ascii) (l : list ascii) :
  (forall c, In c l -> Spec.isLatin1Letter c = false) ->
  (forall c, o = Some c -> In c l) ->
  Spec.isWordLetterAt o = isWordAt o.
Proof.
  intros Hl Ho. destruct o as [c|]; [|reflexivity]. cbn. unfold Spec.isWordLetter.
  rewrite (Hl c); [apply orb_false_r | now apply Ho].
Qed.

Lemma isWordAt_head_same (mid staple : list ascii) :
  Spec.sameIgnoringCase mid staple -> isWordAt (head mid) = isWordAt (head staple).
Proof.
  unfold Spec.sameIgnoringCase. intros H.
  now rewrite <- (isWordAt_head_lower mid), H, isWordAt_head_lower.
Qed.

Lemma isWordAt_last_same (mid staple : list ascii) :
  Spec.sameIgnoringCase mid staple -> isWordAt (last mid) = isWordAt (last staple).
Proof.
  unfold Spec.sameIgnoringCase. intros H.
  now rewrite <- (isWordAt_last_lower mid), H, isWordAt_last_lower.
Qed.

(** Where the code does what the specification asks of staples: for one that
    begins and ends with a letter of [A-Za-z], a digit or an underscore, and
    an ingredient name without letters beyond these, the test of the pattern
    is the whole-word match. *)
Lemma pattern_is_whole_word (staple name : string) :
  isWordAt (head (list_ascii_of_string staple)) = true ->
  isWordAt (last (list_ascii_of_string staple)) = true ->
  (forall c, In c (list_ascii_of_string name) -> Spec.isLatin1Letter c = false) ->
  MockData.stapleMatches staple name = Spec.wholeWordMatch staple name.
Proof.
  intros Hhead Hlast Hplain.
  assert (Hiff : MockData.stapleMatches staple name = true
                 <-> Spec.wholeWordMatch staple name = true).
  { rewrite stapleMatches_iff. unfold Spec.wholeWordMatch. rewrite occursAsWord_iff.
    unfold Pattern.matches, Pattern.boundaryBetween.
    split; intros (pre & mid & post & Hname & Hmid & H1 & H2);
      exists pre, mid, post; (split; [exact Hname|]); (split; [exact Hmid|]).
    - assert (Hm : mid <> []).
      { intros ->. rewrite <- (isWordAt_head_same _ _ Hmid) in Hhead. discriminate. }
      assert (Hh : isWordAt (head (mid ++ post)) = true).
      { destruct mid as [|m mid]; [contradiction|]. cbn [app head].
        rewrite <- (isWordAt_head_same _ _ Hmid) in Hhead. exact Hhead. }
      assert (Hl : isWordAt (last (pre ++ mid)) = true).
      { rewrite last_app. rewrite <- (isWordAt_last_same _ _ Hmid) in Hlast.
        destruct (last mid); [exact Hlast | discriminate]. }
      rewrite Hh in H1. rewrite Hl in H2. split.
      + rewrite lastOr_None.
        rewrite (isWordLetterAt_plain _ (list_ascii_of_string name) Hplain).
        * now destruct (isWordAt (last pre)).
        * intros c Hc. rewrite Hname. apply in_or_app. left. now apply last_In.
      + rewrite (isWordLetterAt_plain _ (list_ascii_of_string name) Hplain).
        * now destruct (isWordAt (head post)).
        * intros c Hc. rewrite Hname. apply in_or_app. right. apply in_or_app. right.
          now apply head_In.
    - assert (Hm : mid <> []).
      { intros ->. rewrite <- (isWordAt_head_same _ _ Hmid) in Hhead. discriminate. }
      assert (Hh : isWordAt (head (mid ++ post)) = true).
      { destruct mid as [|m mid]; [contradiction|]. cbn [app head].
        rewrite <- (isWordAt_head_same _ _ Hmid) in Hhead. exact Hhead. }
      assert (Hl : isWordAt (last (pre ++ mid)) = true).
      { rewrite last_app. rewrite <- (isWordAt_last_same _ _ Hmid) in Hlast.
        destruct (last mid); [exact Hlast | discriminate]. }
      rewrite Hh, Hl. rewrite lastOr_None in H1.
      rewrite (isWordLetterAt_plain _ (list_ascii_of_string name) Hplain) in H1.
      2:{ intros c Hc. rewrite Hname. apply in_or_app. left. now apply last_In. }
      rewrite (isWordLetterAt_plain _ (list_ascii_of_string name) Hplain) in H2.
      2:{ intros c Hc. rewrite Hname. apply in_or_app. right. apply in_or_app. right.
          now apply head_In. }
      rewrite H1, H2. split; discriminate. }
  destruct (MockData.stapleMatches staple name), (Spec.wholeWordMatch staple name);
    try reflexivity.
  - symmetry. now apply Hiff.
  - now apply Hiff.
Qed.

Lemma staples_are_whole_words (pantryStaples : list string) (name : string) :
  (forall staple, In staple pantryStaples ->
                  isWordAt (head (list_ascii_of_string staple)) = true
                  /\ isWordAt (last (list_ascii_of_string staple)) = true) ->
  (forall c, In c (list_ascii_of_string name) -> Spec.isLatin1Letter c = false) ->
  MockData.isStaple pantryStaples name = Spec.matchesStaple pantryStaples name.
Proof.
  intros Hst Hplain. unfold MockData.isStaple, Spec.matchesStaple.
  induction pantryStaples as [|s l IH]; [reflexivity|]. cbn [existsb].
  rewrite IH by (intros staple Hin; apply Hst; now right).
  destruct (Hst s) as [Hh Hl]; [now left|].
  now rewrite (pattern_is_whole_word s name Hh Hl Hplain).
Qed.

End WholeWords.

(** ** Conservation per pair of name and unit *)

Section PairConservation.
Import MockData Trace.

(** Every generated line has the name and the unit of an ingredient that
    was added to it. *)
Lemma named_step now sm im staples st e (seen : list Event) :
  (forall k it, In (k, it) (generatedMap st) ->
     exists e', In e' seen /\ isStaple staples (Ingredient.item_name (snd e')) = false
                /\ ShoppingItem.item_name it = Ingredient.item_name (snd e')
                /\ ShoppingItem.unit it = Ingredient.unit (snd e')) ->
  forall k it, In (k, it) (generatedMap (stepEvent now sm im staples st e)) ->
     exists e', In e' (seen ++ [e]) /\ isStaple staples (Ingredient.item_name (snd e')) = false
                /\ ShoppingItem.item_name it = Ingredient.item_name (snd e')
                /\ ShoppingItem.unit it = Ingredient.unit (snd e').
Proof.
  intros Hst k it.
  assert (Hold : forall k it, In (k, it) (generatedMap st) ->
             exists e', In e' (seen ++ [e])
                        /\ isStaple staples (Ingredient.item_name (snd e')) = false
                        /\ ShoppingItem.item_name it = Ingredient.item_name (snd e')
                        /\ ShoppingItem.unit it = Ingredient.unit (snd e')).
  { intros k' it' Hin. destruct (Hst _ _ Hin) as (e' & He' & H). exists e'.
    split; [apply in_or_app; now left | exact H]. }
  unfold stepEvent, addIngredient.
  destruct (isStaple staples (Ingredient.item_name (snd e))) eqn:Hs; [apply Hold|].
  destruct (mapGet _ (generatedMap st)); simpl.
  - intros Hin. apply mapUpdate_from in Hin as [Hin | (w & Hin & ->)]; [now apply (Hold k)|].
    destruct (Hold _ _ Hin) as (e' & He' & Hs' & Hn & Hu). exists e'. auto.
  - destruct (chooseId now _ (reads st)) as [i n]. simpl.
    intros Hin. apply in_app_or in Hin as [Hin | [[= <- <-] | []]]; [now apply (Hold k)|].
    exists e. split; [apply in_or_app; right; now left|]. auto.
Qed.

Lemma named_fold now sm im staples evs :
  forall st seen,
    (forall k it, In (k, it) (generatedMap st) ->
       exists e', In e' seen /\ isStaple staples (Ingredient.item_name (snd e')) = false
                  /\ ShoppingItem.item_name it = Ingredient.item_name (snd e')
                  /\ ShoppingItem.unit it = Ingredient.unit (snd e')) ->
    forall k it, In (k, it) (generatedMap (fold_left (stepEvent now sm im staples) evs st)) ->
       exists e', In e' (seen ++ evs)
                  /\ isStaple staples (Ingredient.item_name (snd e')) = false
                  /\ ShoppingItem.item_name it = Ingredient.item_name (snd e')
                  /\ ShoppingItem.unit it = Ingredient.unit (snd e').
Proof.
  induction evs as [|e evs IH]; intros st seen Hst; simpl.
  - now rewrite app_nil_r.
  - intros k it Hin.
    destruct (IH _ (seen ++ [e]) (named_step now sm im staples st e seen Hst) k it Hin)
      as (e' & He' & H).
    exists e'. split; [|exact H]. now rewrite <- app_assoc in He'.
Qed.

Lemma planEvents_origin recipes plan e :
  In e (planEvents recipes plan) ->
  exists meal content,
    In meal plan /\ targetOf recipes meal = Some content
    /\ In (snd e) (Recipe.ingredients content).
Proof.
  unfold planEvents. intros He. apply in_flat_map in He as (meal & Hmeal & He).
  unfold mealEvents in He. destruct (targetOf recipes meal) as [content|] eqn:Ht; [|contradiction].
  apply in_map_iff in He as (ing & <- & Hing). exists meal, content. auto.
Qed.

Lemma line_named now currentList plan recipes staples line :
  In line (generatedItems now currentList plan recipes staples) ->
  exists meal content ing,
    In meal plan /\ targetOf recipes meal = Some content
    /\ In ing (Recipe.ingredients content)
    /\ isStaple staples (Ingredient.item_name ing) = false
    /\ ShoppingItem.item_name line = Ingredient.item_name ing
    /\ ShoppingItem.unit line = Ingredient.unit ing.
Proof.
  unfold generatedItems. rewrite generate_events. intros Hin.
  apply in_map_iff in Hin as ([k it] & <- & Hin).
  destruct (named_fold now _ _ staples (planEvents recipes plan) (mkGenerated [] 0) []
              ltac:(intros ? ? []) k it Hin) as (e & He & Hs & Hn & Hu).
  cbn [app] in He. destruct (planEvents_origin _ _ _ He) as (meal & content & Hm & Ht & Hing).
  exists meal, content, (snd e). repeat split; assumption.
Qed.

Lemma keyOf_eqb_hasPair (item_name unit : string) (ing : Ingredient.t) :
  Spec.hyphenFree item_name -> Spec.hyphenFree (Ingredient.item_name ing) ->
  String.eqb (keyOf (Ingredient.item_name ing) (Ingredient.unit ing)) (keyOf item_name unit)
  = Spec.hasPair item_name unit ing.
Proof.
  intros Hn Hi. unfold Spec.hasPair.
  destruct (String.eqb (keyOf _ _) (keyOf item_name unit)) eqn:Hk.
  - apply String.eqb_eq in Hk. apply keyOf_injective in Hk as [-> ->]; auto.
    now rewrite !String.eqb_refl.
  - apply String.eqb_neq in Hk. symmetry. apply andb_false_iff.
    destruct (String.eqb (JS.toLowerCase (Ingredient.item_name ing)) (JS.toLowerCase item_name))
      eqn:H1; [|now left].
    destruct (String.eqb (JS.toLowerCase (Ingredient.unit ing)) (JS.toLowerCase unit))
      eqn:H2; [|now right].
    apply String.eqb_eq in H1, H2. exfalso. apply Hk. unfold keyOf. now rewrite H1, H2.
Qed.

Lemma resolveVersion_resolveContent (recipe : Recipe.t) (pinned : option Z) :
  pinned <> Some 0 -> resolveVersion recipe pinned = Spec.resolveContent recipe pinned.
Proof.
  intros Hp. unfold resolveVersion, Spec.resolveContent. destruct pinned as [v|]; [|reflexivity].
  assert (Hv : JS.truthyZ v = true).
  { unfold JS.truthyZ. apply negb_true_iff, Z.eqb_neq. intros ->. now apply Hp. }
  rewrite Hv. cbn [andb]. now destruct (v =? Recipe.version recipe).
Qed.

Lemma scaleOf_assigned (meal : MealPlanItem.t) (content : Recipe.t) :
  (forall s, MealPlanItem.servings meal = Some s -> ~ (s == 0)%Q) ->
  scaleOf meal content
  = (Spec.assignedServings meal content / Recipe.servings_default content)%Q.
Proof.
  intros Hs. unfold scaleOf, Spec.assignedServings, JS.orElseQ.
  destruct (MealPlanItem.servings meal) as [s|]; [|reflexivity].
  assert (Ht : JS.truthyQ s = true).
  { unfold JS.truthyQ. apply negb_true_iff. destruct (Qeq_bool s 0) eqn:H0; [|reflexivity].
    apply Qeq_bool_eq in H0. exfalso. now apply (Hs s). }
  now rewrite Ht.
Qed.

Lemma share_of_ingredients staples (item_name unit : string) (scale : Q)
    (ings : list Ingredient.t) :
  Spec.hyphenFree item_name ->
  (forall ing, In ing ings ->
     Spec.hyphenFree (Ingredient.item_name ing)
     /\ isStaple staples (Ingredient.item_name ing)
        = Spec.matchesStaple staples (Ingredient.item_name ing)) ->
  (Spec.totalFor (keyOf item_name unit)
     (List.map (fun ing => (keyOf (Ingredient.item_name ing) (Ingredient.unit ing),
                            (Ingredient.quantity ing * scale)%Q))
        (List.filter (fun ing => negb (isStaple staples (Ingredient.item_name ing))) ings))
   == fold_right Qplus 0
        (List.map (fun ing => (Ingredient.quantity ing * scale)%Q)
           (List.filter
              (fun ing => Spec.hasPair item_name unit ing
                          && negb (Spec.matchesStaple staples (Ingredient.item_name ing)))
              ings)))%Q.
Proof.
  intros Hn. induction ings as [|ing ings IH]; intros Hall; [reflexivity|].
  destruct (Hall ing) as [Hi Hs]; [now left|].
  assert (IH' := IH (fun i Hin => Hall i (or_intror Hin))).
  cbn [List.filter]. rewrite <- Hs, <- (keyOf_eqb_hasPair item_name unit ing Hn Hi).
  destruct (isStaple staples (Ingredient.item_name ing)); cbn [negb].
  - rewrite andb_false_r. exact IH'.
  - rewrite andb_true_r. cbn [List.map]. rewrite totalFor_cons. cbn [fst snd].
    destruct (String.eqb _ (keyOf item_name unit)); cbn [List.map fold_right]; rewrite IH'; lra.
Qed.

(** Where the code does what the conservation property says: when no
    ingredient name in scope contains the hyphen that joins the key, no plan
    item has zero servings or a zero pin, no default servings are zero and
    the staple check is the whole-word match on the names in scope, the
    quantity of every generated line is the sum of the specification for the
    pair of its name and unit. *)
Lemma pair_conservation now currentList plan recipes staples line :
  (forall meal, In meal plan ->
     MealPlanItem.recipe_version meal <> Some 0
     /\ forall s, MealPlanItem.servings meal = Some s -> ~ (s == 0)%Q) ->
  (forall meal content ing,
     In meal plan -> targetOf recipes meal = Some content ->
     In ing (Recipe.ingredients content) ->
     ~ (Recipe.servings_default content == 0)%Q
     /\ Spec.hyphenFree (Ingredient.item_name ing)
     /\ isStaple staples (Ingredient.item_name ing)
        = Spec.matchesStaple staples (Ingredient.item_name ing)) ->
  In line (generatedItems now currentList plan recipes staples) ->
  (ShoppingItem.quantity line
   == Spec.pairTotal recipes staples plan (ShoppingItem.item_name line)
                     (ShoppingItem.unit line))%Q.
Proof.
  intros Hmeals Hings Hin.
  destruct (line_named _ _ _ _ _ _ Hin) as (meal0 & content0 & ing0 & Hm0 & Ht0 & Hi0 & _ & Hn & Hu).
  assert (Hfree : Spec.hyphenFree (ShoppingItem.item_name line)).
  { rewrite Hn. now apply (Hings meal0 content0 ing0). }
  rewrite (generated_quantity _ _ _ _ _ _ Hin). unfold itemKey.
  generalize dependent (ShoppingItem.unit line). intros unit _.
  generalize dependent (ShoppingItem.item_name line). intros item_name _ Hfree.
  clear Hin Hm0 Ht0 Hi0 meal0 content0 ing0 line.
  unfold Spec.pairTotal, Spec.planContributions.
  induction plan as [|meal plan IH]; [reflexivity|].
  cbn [flat_map List.map fold_right]. rewrite totalFor_app.
  rewrite IH.
  2:{ intros m Hm. apply Hmeals. now right. }
  2:{ intros m c i Hm. apply Hings. now right. }
  apply Qplus_comp; [|reflexivity].
  destruct (Hmeals meal) as [Hver Hserv]; [now left|].
  unfold Spec.mealContribution, Spec.mealShare.
  pose proof (Hings meal) as Hmeal.
  unfold targetOf, findRecipe in *.
  destruct (List.find (fun r => Recipe.id r =? MealPlanItem.recipe_id meal) recipes)
    as [recipe|]; [|reflexivity].
  rewrite <- (resolveVersion_resolveContent recipe _ Hver).
  rewrite <- (scaleOf_assigned meal _ Hserv).
  apply share_of_ingredients; [exact Hfree|].
  intros ing Hing. destruct (Hmeal _ ing (or_introl eq_refl) eq_refl Hing) as (_ & H1 & H2). auto.
Qed.

(** Scenario A is such a case. *)
Lemma pair_conservation_scenario_A :
  (ShoppingItem.quantity Scenario.chickenLine
   == Spec.pairTotal [Scenario.roast] ["Salt"%string] [Scenario.roastFor8] "Chicken" "g")%Q
  /\ isStaple ["Salt"%string] "Salt" = Spec.matchesStaple ["Salt"%string] "Salt".
Proof.
  split.
  - apply (pair_conservation Scenario.now77 [] [Scenario.roastFor8] [Scenario.roast]
             ["Salt"%string] Scenario.chickenLine).
    + intros meal [<- | []]. split; [discriminate|]. intros s [= <-]. discriminate.
    + intros meal content ing [<- | []] [= <-] Hing. split; [discriminate|].
      destruct Hing as [<- | [<- | []]]; (split; [|reflexivity]);
        unfold Spec.hyphenFree; cbn; intuition discriminate.
    + left. reflexivity.
  - apply staples_are_whole_words.
    + intros staple [<- | []]. split; reflexivity.
    + intros c Hc. cbn in Hc. intuition (subst; reflexivity).
Qed.

End PairConservation.



(** ** The sections of the shop view; the servings of the detail view *)

Section Views.
Import MockData.

Lemma flat_map_filter_nonempty {A B : Type} (g : A -> list B) (keep : A -> bool) (l : list A) :
  (forall a, keep a = false -> g a = []) ->
  flat_map g (List.filter keep l) = flat_map g l.
Proof.
  intros H. induction l as [|a l IH]; [reflexivity|]. cbn [List.filter flat_map].
  destruct (keep a) eqn:Hk; cbn [flat_map]; rewrite IH; [reflexivity|].
  now rewrite (H a Hk).
Qed.

Lemma catItems_empty (visibleItems : list ShoppingItem.t) (cat : string) :
  existsb (fun i => String.eqb (ShoppingItem.category i) cat) visibleItems = false ->
  ShopSections.catItems visibleItems cat = [].
Proof.
  intros H. unfold ShopSections.catItems. apply filter_none. intros x Hx.
  destruct (String.eqb (ShoppingItem.category x) cat) eqn:Hc; [|reflexivity].
  assert (Ht : existsb (fun i => String.eqb (ShoppingItem.category i) cat) visibleItems = true).
  { apply existsb_exists. now exists x. }
  congruence.
Qed.

Lemma shownItems_flat (activeStore : option (list string)) (visibleItems : list ShoppingItem.t) :
  ShopSections.shownItems activeStore visibleItems
  = flat_map (ShopSections.catItems visibleItems) (ShopSections.displayCategories activeStore).
Proof.
  unfold ShopSections.shownItems, ShopSections.activeCategories.
  apply flat_map_filter_nonempty. intros cat. apply catItems_empty.
Qed.

Lemma includes_In (order : list string) (c : string) :
  ShopSections.includes order c = true <-> In c order.
Proof.
  unfold ShopSections.includes. rewrite existsb_exists. split.
  - intros (x & Hx & Heq). apply String.eqb_eq in Heq. now subst.
  - intros H. exists c. split; [exact H | apply String.eqb_refl].
Qed.

Lemma displayCategories_all (activeStore : option (list string)) (c : string) :
  In c ShopSections.SHOPPING_CATEGORIES -> In c (ShopSections.displayCategories activeStore).
Proof.
  intros Hc. destruct activeStore as [order|]; [|exact Hc].
  unfold ShopSections.displayCategories.
  destruct (ShopSections.includes order c) eqn:Hi.
  - apply in_or_app. left. now apply includes_In.
  - apply in_or_app. right. apply filter_In. split; [exact Hc | now rewrite Hi].
Qed.

Lemma displayCategories_NoDup (activeStore : option (list string)) :
  match activeStore with
  | Some order => List.NoDup order
  | None => True
  end ->
  List.NoDup (ShopSections.displayCategories activeStore).
Proof.
  assert (Hall : List.NoDup ShopSections.SHOPPING_CATEGORIES).
  { unfold ShopSections.SHOPPING_CATEGORIES.
    repeat (apply List.NoDup_cons; [cbn; intuition discriminate|]). apply List.NoDup_nil. }
  destruct activeStore as [order|]; [|intros _; exact Hall]. intros Ho.
  unfold ShopSections.displayCategories.
  apply List.NoDup_app; [exact Ho| |].
  - apply List.NoDup_filter. exact Hall.
  - intros c Hc Hf. apply filter_In in Hf as [_ Hf]. apply negb_true_iff in Hf.
    apply includes_In in Hc. congruence.
Qed.

Lemma includes_cons (c : string) (cats : list string) (x : string) :
  ShopSections.includes (c :: cats) x = String.eqb x c || ShopSections.includes cats x.
Proof. reflexivity. Qed.

(** The items of the sections of distinct categories are the items with one
    of these categories, up to order. *)
Lemma sections_Permutation (visibleItems : list ShoppingItem.t) (cats : list string) :
  List.NoDup cats ->
  Permutation (flat_map (ShopSections.catItems visibleItems) cats)
              (List.filter (fun i => ShopSections.includes cats (ShoppingItem.category i))
                           visibleItems).
Proof.
  induction 1 as [|c cats Hc _ IH]; cbn [flat_map].
  - rewrite filter_none; [apply perm_nil | intros; reflexivity].
  - rewrite IH. clear IH. unfold ShopSections.catItems.
    induction visibleItems as [|i l IHl]; [apply perm_nil|]. cbn [List.filter].
    rewrite (includes_cons c cats (ShoppingItem.category i)).
    destruct (String.eqb (ShoppingItem.category i) c) eqn:Hic.
    + apply String.eqb_eq in Hic.
      assert (Hn : ShopSections.includes cats (ShoppingItem.category i) = false).
      { destruct (ShopSections.includes cats (ShoppingItem.category i)) eqn:Hin; [|reflexivity].
        apply includes_In in Hin. rewrite Hic in Hin. contradiction. }
      rewrite Hn. cbn [orb app]. now apply perm_skip.
    + cbn [orb]. destruct (ShopSections.includes cats (ShoppingItem.category i)).
      * rewrite <- Permutation_middle. now apply perm_skip.
      * exact IHl.
Qed.

(** X25. The sections of the shop view.  A line of the visible list is shown
    exactly when its category is in the order of the selected store or in
    [SHOPPING_CATEGORIES]; every line with one of the standard categories is
    shown whatever the store; and when the order of the store names no
    category twice (or no store is selected) the sections hold every such
    line once: together they are a permutation of the lines with a
    displayed category. *)
Theorem sections_show_lines
    (activeStore : option (list string)) (visibleItems : list ShoppingItem.t) :
  (forall item,
      In item (ShopSections.shownItems activeStore visibleItems)
      <-> In item visibleItems
          /\ In (ShoppingItem.category item) (ShopSections.displayCategories activeStore))
  /\ (forall item,
        In item visibleItems ->
        In (ShoppingItem.category item) ShopSections.SHOPPING_CATEGORIES ->
        In item (ShopSections.shownItems activeStore visibleItems))
  /\ (match activeStore with
      | Some order => List.NoDup order
      | None => True
      end ->
      Permutation (ShopSections.shownItems activeStore visibleItems)
                  (List.filter
                     (fun i => ShopSections.includes (ShopSections.displayCategories activeStore)
                                                     (ShoppingItem.category i))
                     visibleItems)).
Proof.
  assert (Hiff : forall item,
             In item (ShopSections.shownItems activeStore visibleItems)
             <-> In item visibleItems
                 /\ In (ShoppingItem.category item) (ShopSections.displayCategories activeStore)).
  { intros item. rewrite shownItems_flat, in_flat_map. unfold ShopSections.catItems. split.
    - intros (cat & Hcat & Hin). apply filter_In in Hin as [Hin Heq].
      apply String.eqb_eq in Heq. subst cat. auto.
    - intros [Hin Hcat]. exists (ShoppingItem.category item). split; [exact Hcat|].
      apply filter_In. split; [exact Hin | apply String.eqb_refl]. }
  split; [exact Hiff|]. split.
  - intros item Hin Hcat. apply Hiff. split; [exact Hin|]. now apply displayCategories_all.
  - intros Hstore. rewrite shownItems_flat. apply sections_Permutation.
    now apply displayCategories_NoDup.
Qed.

Lemma sections_show_lines_witness :
  Permutation (ShopSections.shownItems (Some ["Meat"; "Dairy"]%string)
                                       [Scenario.towels; Scenario.chickenLine])
              [Scenario.towels; Scenario.chickenLine].
Proof.
  destruct (sections_show_lines (Some ["Meat"; "Dairy"]%string)
                                [Scenario.towels; Scenario.chickenLine]) as (_ & _ & Hperm).
  apply Hperm. repeat constructor; cbn; intuition discriminate.
Defined.

Lemma Math_max1_ge (x : Q) : (1 <= DetailView.Math_max1 x)%Q.
Proof. unfold DetailView.Math_max1. destruct (Qlt_le_dec x 1); [apply Qle_refl | assumption]. Qed.

Lemma truthyQ_ge1 (s : Q) : (1 <= s)%Q -> JS.truthyQ s = true.
Proof.
  intros H. unfold JS.truthyQ. apply negb_true_iff.
  destruct (Qeq_bool s 0) eqn:Hs; [|reflexivity]. apply Qeq_bool_eq in Hs. lra.
Qed.

(** X26. The servings buttons of the detail view never set a meal to less
    than one serving: after [changeServings] and [handleUpdateServings] the
    meal carries the new servings, they are at least 1, a view opened on the
    meal starts from them, and [mergeShoppingList] scales the meal by them
    over the default servings of the recipe version it resolves for the meal
    (the fallback to the default servings is not taken).  The view divides
    by the default servings of the version it shows: the two scales are
    equal when the two versions have equal default servings, and differ when
    their default servings differ and are not zero. *)
Theorem detail_servings_scale_list
    (plan : list MealPlanItem.t) (mealId : Z) (currentServings delta : Q)
    (viewedRecipe targetRecipe : Recipe.t) (meal : MealPlanItem.t) :
  In meal (PlannerActions.handleUpdateServings plan mealId
             (DetailView.changeServings currentServings delta)) ->
  MealPlanItem.id meal = mealId ->
  MealPlanItem.servings meal = Some (DetailView.changeServings currentServings delta)
  /\ (1 <= DetailView.changeServings currentServings delta)%Q
  /\ scaleOf meal targetRecipe
     = (DetailView.changeServings currentServings delta / Recipe.servings_default targetRecipe)%Q
  /\ DetailView.initialServings (Some meal) viewedRecipe
     = DetailView.changeServings currentServings delta
  /\ ((Recipe.servings_default viewedRecipe == Recipe.servings_default targetRecipe)%Q ->
      (scaleOf meal targetRecipe
       == DetailView.scale (DetailView.changeServings currentServings delta) viewedRecipe)%Q)
  /\ (~ (Recipe.servings_default viewedRecipe == 0)%Q ->
      ~ (Recipe.servings_default targetRecipe == 0)%Q ->
      ~ (Recipe.servings_default viewedRecipe == Recipe.servings_default targetRecipe)%Q ->
      ~ (scaleOf meal targetRecipe
         == DetailView.scale (DetailView.changeServings currentServings delta) viewedRecipe)%Q).
Proof.
  intros Hin Hid. unfold PlannerActions.handleUpdateServings in Hin.
  apply in_map_iff in Hin as (p & Hp & _).
  assert (Hs : MealPlanItem.servings meal
               = Some (DetailView.changeServings currentServings delta)).
  { destruct (MealPlanItem.id p =? mealId) eqn:Hpid; subst meal; [reflexivity|].
    apply Z.eqb_neq in Hpid. contradiction. }
  pose proof (Math_max1_ge (currentServings + delta)) as Hge.
  fold (DetailView.changeServings currentServings delta) in Hge.
  assert (Hscale : scaleOf meal targetRecipe
                   = (DetailView.changeServings currentServings delta
                      / Recipe.servings_default targetRecipe)%Q).
  { unfold scaleOf. rewrite Hs. unfold JS.orElseQ. now rewrite (truthyQ_ge1 _ Hge). }
  split; [exact Hs|]. split; [exact Hge|]. split; [exact Hscale|]. split.
  { unfold DetailView.initialServings. rewrite Hs. unfold JS.orElseQ.
    now rewrite (truthyQ_ge1 _ Hge). }
  rewrite Hscale. unfold DetailView.scale.
  set (s := DetailView.changeServings currentServings delta) in *.
  split.
  - intros Heq. now rewrite Heq.
  - intros Hv Ht Hne Heq. apply Hne.
    assert (Hs0 : ~ (s == 0)%Q) by lra.
    assert (H1 : (s / Recipe.servings_default targetRecipe * Recipe.servings_default targetRecipe
                  == s)%Q) by (field; exact Ht).
    assert (H2 : (s / Recipe.servings_default viewedRecipe * Recipe.servings_default viewedRecipe
                  == s)%Q) by (field; exact Hv).
    rewrite Heq in H1.
    assert (H3 : (s / Recipe.servings_default viewedRecipe
                  * (Recipe.servings_default viewedRecipe - Recipe.servings_default targetRecipe)
                  == 0)%Q) by lra.
    apply Qmult_integral in H3 as [H3|H3]; [|lra].
    exfalso. rewrite H3 in H2. lra.
Qed.

Lemma detail_servings_scale_list_witness :
  (1 <= DetailView.changeServings 1 (-1))%Q
  /\ MealPlanItem.servings (Spec.withServings Cases.onDay10 (Some (DetailView.changeServings 1 (-1))))
     = Some (DetailView.changeServings 1 (-1))
  /\ (scaleOf (Spec.withServings Cases.onDay10 (Some (DetailView.changeServings 1 (-1))))
              Scenario.roast
      == DetailView.scale (DetailView.changeServings 1 (-1)) Scenario.roast)%Q.
Proof.
  assert (Hin : In (Spec.withServings Cases.onDay10 (Some (DetailView.changeServings 1 (-1))))
                   (PlannerActions.handleUpdateServings Cases.twoDays 30
                      (DetailView.changeServings 1 (-1)))).
  { left. reflexivity. }
  destruct (detail_servings_scale_list Cases.twoDays 30 1 (-1) Scenario.roast Scenario.roast
              _ Hin eq_refl) as (Hs & Hge & _ & _ & Hsame & _).
  split; [exact Hge|]. split; [exact Hs|]. apply Hsame. reflexivity.
Defined.

End Views.

(** ** More staples, fewer lines *)

Section MoreStaples.
Import MockData.

Lemma isStaple_mono (staples staples' : list string) (name : string) :
  (forall s, In s staples -> In s staples') ->
  isStaple staples name = true -> isStaple staples' name = true.
Proof.
  unfold isStaple. rewrite !existsb_exists. intros Hsub (s & Hs & Hm). exists s. auto.
Qed.

(** Where a contribution comes from. *)
Lemma contribution_origin recipes staples plan c :
  In c (Spec.planContributions recipes staples plan) ->
  exists meal r ing,
    In meal plan /\ targetOf recipes meal = Some r /\ In ing (Recipe.ingredients r)
    /\ isStaple staples (Ingredient.item_name ing) = false
    /\ c = (keyOf (Ingredient.item_name ing) (Ingredient.unit ing),
            (Ingredient.quantity ing * scaleOf meal r)%Q).
Proof.
  unfold Spec.planContributions. rewrite in_flat_map. intros (meal & Hmeal & Hc).
  unfold Spec.mealContribution in Hc. destruct (targetOf recipes meal) as [r|] eqn:Hr; [|contradiction].
  apply in_map_iff in Hc as (ing & <- & Hing). apply filter_In in Hing as [Hing Hs].
  apply negb_true_iff in Hs. exists meal, r, ing. auto.
Qed.

Lemma contribution_from recipes staples plan meal r ing :
  In meal plan -> targetOf recipes meal = Some r -> In ing (Recipe.ingredients r) ->
  isStaple staples (Ingredient.item_name ing) = false ->
  In (keyOf (Ingredient.item_name ing) (Ingredient.unit ing),
      (Ingredient.quantity ing * scaleOf meal r)%Q)
     (Spec.planContributions recipes staples plan).
Proof.
  intros Hmeal Hr Hing Hs. unfold Spec.planContributions. apply in_flat_map.
  exists meal. split; [exact Hmeal|]. unfold Spec.mealContribution. rewrite Hr.
  apply in_map_iff. exists ing. split; [reflexivity|]. apply filter_In. split; [exact Hing|].
  now rewrite Hs.
Qed.

Lemma filter_flat_map {A B : Type} (f : B -> bool) (g : A -> list B) (l : list A) :
  List.filter f (flat_map g l) = flat_map (fun a => List.filter f (g a)) l.
Proof.
  induction l as [|a l IH]; [reflexivity|]. cbn [flat_map]. now rewrite List.filter_app, IH.
Qed.

Lemma flat_map_same {A B : Type} (f g : A -> list B) (l : list A) :
  (forall a, In a l -> f a = g a) -> flat_map f l = flat_map g l.
Proof.
  induction l as [|a l IH]; intros H; [reflexivity|]. cbn [flat_map].
  rewrite (H a) by now left. f_equal. apply IH. intros x Hx. apply H. now right.
Qed.

(** The contributions to a key that survives the longer staple list are the
    same under both lists. *)
Lemma same_contributions recipes staples staples' plan key :
  (forall s, In s staples -> In s staples') ->
  (forall meal r ing, In meal plan -> targetOf recipes meal = Some r ->
                      In ing (Recipe.ingredients r) ->
                      keyOf (Ingredient.item_name ing) (Ingredient.unit ing) = key ->
                      isStaple staples' (Ingredient.item_name ing) = false) ->
  List.filter (fun c => String.eqb (fst c) key) (Spec.planContributions recipes staples' plan)
  = List.filter (fun c => String.eqb (fst c) key) (Spec.planContributions recipes staples plan).
Proof.
  intros Hsub Hkeep. unfold Spec.planContributions. rewrite !filter_flat_map.
  apply flat_map_same. intros meal Hmeal. unfold Spec.mealContribution.
  destruct (targetOf recipes meal) as [r|] eqn:Hr; [|reflexivity].
  assert (Hing : forall ing, In ing (Recipe.ingredients r) ->
                   keyOf (Ingredient.item_name ing) (Ingredient.unit ing) = key ->
                   isStaple staples' (Ingredient.item_name ing) = false)
    by (intros ing Hin; now apply (Hkeep meal r ing)).
  clear Hkeep. induction (Recipe.ingredients r) as [|ing l IH]; [reflexivity|].
  assert (IH' := IH (fun i Hi => Hing i (or_intror Hi))). clear IH.
  cbn [List.filter].
  destruct (String.eqb (keyOf (Ingredient.item_name ing) (Ingredient.unit ing)) key) eqn:Hk.
  - apply String.eqb_eq in Hk. pose proof (Hing ing (or_introl eq_refl) Hk) as Hs'.
    assert (Hs : isStaple staples (Ingredient.item_name ing) = false).
    { destruct (isStaple staples (Ingredient.item_name ing)) eqn:H; [|reflexivity].
      apply (isStaple_mono staples staples' _ Hsub) in H. congruence. }
    rewrite Hs, Hs'. cbn [negb List.map List.filter fst]. apply String.eqb_eq in Hk.
    rewrite Hk. now rewrite IH'.
  - destruct (isStaple staples' (Ingredient.item_name ing)),
             (isStaple staples (Ingredient.item_name ing));
      cbn [negb List.map List.filter fst]; rewrite ?Hk; exact IH'.
Qed.

(** X27. A longer list of pantry staples only removes lines.  When every
    staple of [pantryStaples] is in [pantryStaples'], every generated line
    under [pantryStaples'] has a line with the same key under
    [pantryStaples]; and when the ingredient names of the planned recipes
    have no hyphen, the two lines carry equal quantities: a staple removes
    whole lines and leaves the other lines as they are. *)
Theorem more_staples_remove_lines
    (now now' : nat -> positive) (currentList currentList' : list ShoppingItem.t)
    (plan : list MealPlanItem.t) (recipes : list Recipe.t)
    (pantryStaples pantryStaples' : list string) (line' : ShoppingItem.t) :
  (forall s, In s pantryStaples -> In s pantryStaples') ->
  In line' (generatedItems now' currentList' plan recipes pantryStaples') ->
  exists line,
    In line (generatedItems now currentList plan recipes pantryStaples)
    /\ itemKey line = itemKey line'
    /\ ((forall meal r ing, In meal plan -> targetOf recipes meal = Some r ->
                            In ing (Recipe.ingredients r) ->
                            Spec.hyphenFree (Ingredient.item_name ing)) ->
        (ShoppingItem.quantity line == ShoppingItem.quantity line')%Q).
Proof.
  intros Hsub Hin'.
  destruct (line_has_contribution _ _ _ _ _ _ Hin') as (c' & Hc' & Hkey').
  destruct (contribution_origin _ _ _ _ Hc') as (meal0 & r0 & ing0 & Hmeal0 & Hr0 & Hing0 & Hs0 & ->).
  cbn [fst] in Hkey'.
  assert (Hs : isStaple pantryStaples (Ingredient.item_name ing0) = false).
  { destruct (isStaple pantryStaples (Ingredient.item_name ing0)) eqn:H; [|reflexivity].
    apply (isStaple_mono _ _ _ Hsub) in H. congruence. }
  pose proof (contribution_from recipes pantryStaples plan meal0 r0 ing0 Hmeal0 Hr0 Hing0 Hs) as Hc.
  destruct (contribution_has_line now currentList _ _ _ _ Hc) as (line & Hin & Hkey).
  cbn [fst] in Hkey. exists line. split; [exact Hin|]. split; [congruence|].
  intros Hhf.
  rewrite (generated_quantity _ _ _ _ _ _ Hin), (generated_quantity _ _ _ _ _ _ Hin').
  replace (itemKey line) with (itemKey line') by congruence.
  unfold Spec.totalFor.
  rewrite (same_contributions recipes pantryStaples pantryStaples' plan (itemKey line') Hsub);
    [reflexivity|].
  intros meal r ing Hmeal Hr Hing Hk. rewrite <- Hkey' in Hk.
  apply keyOf_injective in Hk as [Hname _]; [|now apply (Hhf meal r) | now apply (Hhf meal0 r0)].
  now rewrite (isStaple_lower pantryStaples' _ _ Hname).
Qed.

Lemma more_staples_remove_lines_witness :
  exists line,
    In line (generatedItems Scenario.now77 [] [Scenario.roastFor8; Scenario.stewPinned]
                            [Scenario.roast; Scenario.stew] ["Salt"%string])
    /\ itemKey line = itemKey Scenario.chickenLine.
Proof.
  assert (Hsub : forall s, In s ["Salt"%string] -> In s ["Salt"; "Rice"]%string).
  { intros s [<- | []]. now left. }
  assert (Hin : In (ShoppingItem.mk (Ingredient.mk "Chicken" ((4000 # 4) + (2000 # 4)) "g" "Meat")
                                    77 false false None None)
                   (generatedItems Scenario.now77 [] [Scenario.roastFor8; Scenario.stewPinned]
                                   [Scenario.roast; Scenario.stew] ["Salt"; "Rice"]%string)).
  { vm_compute. left. reflexivity. }
  destruct (more_staples_remove_lines Scenario.now77 Scenario.now77 [] [] _ _ _ _ _ Hsub Hin)
    as (line & Hline & Hkey & _).
  exists line. split; [exact Hline | exact Hkey].
Defined.

End MoreStaples.

(** ** Undo in the second shell *)

Section SecondUndo.

(** X28. Undo in the second shell.  [savePlanHistory] leaves a history of
    at most 50 plans, and [handleUndo] after it gives back the plan that
    was saved, whatever plan has been set since, with the history of
    before cut to its last 49 entries (the history of before itself when it
    held at most 49 plans). *)
Theorem second_shell_undo
    (planHistory : list (list MealPlanItem.t)) (plan newPlan : list MealPlanItem.t) :
  (length (SyncActions.savePlanHistory planHistory plan) <= 50)%nat
  /\ SyncActions.handleUndo (SyncActions.savePlanHistory planHistory plan) newPlan
     = (plan, sliceLast 49 planHistory)
  /\ ((length planHistory <= 49)%nat -> sliceLast 49 planHistory = planHistory).
Proof.
  assert (Hsaved : SyncActions.savePlanHistory planHistory plan
                   = sliceLast 49 planHistory ++ [plan]).
  { unfold SyncActions.savePlanHistory, sliceLast. rewrite length_app. cbn [length].
    destruct (50 <? length planHistory + 1)%nat eqn:Hlen.
    - apply Nat.ltb_lt in Hlen. rewrite skipn_app.
      replace (length planHistory + 1 - 50 - length planHistory)%nat with 0%nat by lia.
      cbn [skipn]. f_equal. f_equal. lia.
    - apply Nat.ltb_ge in Hlen.
      replace (length planHistory - 49)%nat with 0%nat by lia. reflexivity. }
  split; [|split].
  - rewrite Hsaved, length_app. cbn [length].
    pose proof (sliceLast_length 49 planHistory). lia.
  - unfold SyncActions.handleUndo. now rewrite Hsaved, last_snoc, removelast_last.
  - apply sliceLast_short.
Qed.

Lemma second_shell_undo_witness :
  SyncActions.handleUndo (SyncActions.savePlanHistory [] Cases.twoDays)
                         (SyncActions.handleMoveMeal Cases.twoDays 10 PlannerActions.down)
  = (Cases.twoDays, []).
Proof.
  destruct (second_shell_undo [] Cases.twoDays
              (SyncActions.handleMoveMeal Cases.twoDays 10 PlannerActions.down))
    as (_ & Hundo & Hshort).
  rewrite Hundo, Hshort; [reflexivity | simpl; lia].
Defined.

End SecondUndo.
